(** * N4PCC collaboration platform: authorization engine and session lifecycle

    A shallow embedding of the TypeScript sources
    - [src/utils/auth.ts]             (credential store, device registry),
    - [src/services/authorization.ts] (workspace and project role checks),
    - [src/middleware/auth.ts]        (REST authentication middleware),
    - [src/routes/auth.ts]            (login, logout),
    - [src/index.ts]                  (GraphQL context function),
    - [src/graphql/resolvers.ts]      (queries and mutations),
    - [src/config/index.ts]           (JWT configuration),
    over the relational schema of [src/db/schema.sql].

    Every handler is an [async] function that talks to PostgreSQL through
    [query] and may throw.  Handlers are embedded in a state-and-exception
    monad over a record of tables; each SQL statement is also appended to a
    trace, so that the order in which checks hit the store can be stated. *)

From Stdlib Require Import ZArith String.
From stdpp Require Import base option gmap strings list.

Open Scope string_scope.
Open Scope Z_scope.

(* ===================================================================== *)
(** ** JavaScript values used by the handlers *)
(* ===================================================================== *)

(** [!s] for [s : string | undefined]: [undefined] and the empty string are
    falsy. *)
Definition truthy (s : option string) : bool :=
  match s with
  | Some s => negb (bool_decide (s = ""))
  | None => false
  end.

(** [a || b] where [a : boolean | undefined] and [b : boolean]. *)
Definition js_or (a : option bool) (b : bool) : bool :=
  match a with
  | Some true => true
  | Some false | None => b
  end.

(** [x !== undefined] *)
Definition defined {A} (x : option A) : bool :=
  match x with
  | Some _ => true
  | None => false
  end.

(** [a || b] on optional strings: the first truthy operand, else [b]. *)
Definition or_str (a b : option string) : option string :=
  if truthy a then a else b.

(** [process.env.X || 'default']. *)
Definition or_default (a : option string) (d : string) : string :=
  match or_str a (Some d) with
  | Some s => s
  | None => d
  end.

(** Values that can be thrown.  [GraphQLError] and [Error] carry the message
    the source gives them; [TypeError] is a property read on [undefined];
    [JsonWebTokenError] and [TokenExpiredError] are thrown by [jwt.verify];
    [DatabaseError] is a statement the store refuses (a violated
    constraint, a value outside an enum). *)
Inductive exn :=
| GraphQLError (message : string)
| Error (message : string)
| TypeError (message : string)
| JsonWebTokenError (message : string)
| TokenExpiredError
| DatabaseError (message : string).

Inductive outcome (A : Type) :=
| Return (a : A)
| Throw (e : exn).
Arguments Return {A} a.
Arguments Throw {A} e.

(* ===================================================================== *)
(** ** Relational schema ([schema.sql]) *)
(* ===================================================================== *)

(** [CREATE TYPE global_status AS ENUM ('ACTIVE', 'BANNED', 'ADMIN')] *)
Inductive global_status := ACTIVE | BANNED | ADMIN.

(** [CREATE TYPE workspace_role AS ENUM ('Owner', 'Member', 'Viewer')] *)
Inductive WorkspaceRole := Owner | Member | Viewer.

(** [CREATE TYPE project_role AS ENUM ('Project Lead', 'Contributor',
    'Project Viewer')] *)
Inductive ProjectRole := ProjectLead | Contributor | ProjectViewer.

(** [CREATE TYPE task_status AS ENUM ('TODO', 'IN_PROGRESS', 'DONE')] *)
Inductive task_status := TODO | IN_PROGRESS | DONE.

Inductive log_level := info | warn | error | security.

#[global] Instance global_status_eq_dec : EqDecision global_status.
Proof. solve_decision. Defined.
#[global] Instance WorkspaceRole_eq_dec : EqDecision WorkspaceRole.
Proof. solve_decision. Defined.
#[global] Instance ProjectRole_eq_dec : EqDecision ProjectRole.
Proof. solve_decision. Defined.
#[global] Instance task_status_eq_dec : EqDecision task_status.
Proof. solve_decision. Defined.

(** The text of a [project_role] value; anything else is refused by the
    store when it is cast to the enum. *)
Definition ProjectRole_of_string (s : string) : option ProjectRole :=
  if bool_decide (s = "Project Lead") then Some ProjectLead
  else if bool_decide (s = "Contributor") then Some Contributor
  else if bool_decide (s = "Project Viewer") then Some ProjectViewer
  else None.

Definition task_status_text (s : task_status) : string :=
  match s with
  | TODO => "TODO"
  | IN_PROGRESS => "IN_PROGRESS"
  | DONE => "DONE"
  end.

Definition task_status_of_string (s : string) : option task_status :=
  if bool_decide (s = "TODO") then Some TODO
  else if bool_decide (s = "IN_PROGRESS") then Some IN_PROGRESS
  else if bool_decide (s = "DONE") then Some DONE
  else None.

(** Identifiers are UUIDs in their textual form; timestamps are seconds. *)
Abbreviation uuid := string (only parsing).
Abbreviation timestamp := Z (only parsing).

(** Row of [users]. *)
Record user_row := {
  id : uuid;
  email : string;
  password_hash : string;
  full_name : string;
  global_status_of : global_status;
}.

(** Row of [user_devices]; the key is [(user_id, device_id)], which
    [unique_device_per_user] makes unique. *)
Record device_row := {
  ip_address : option string;
  user_agent : option string;
  login_time : timestamp;
  is_revoked : bool;
  revoked_at : option timestamp;
}.

(** Row of [workspace_members]; the key is [(workspace_id, user_id)]
    ([unique_member_per_workspace]). *)
Record workspace_member_row := {
  wm_role : WorkspaceRole;
  wm_joined_at : timestamp;
}.

(** Row of [project_members]; the key is [(project_id, user_id)]
    ([unique_member_per_project]). *)
Record project_member_row := {
  pm_role : ProjectRole;
  pm_joined_at : timestamp;
}.

Record workspace_row := {
  w_name : string;
  w_description : option string;
  w_created_by : uuid;
}.

Record project_row := {
  workspace_id : uuid;
  p_name : string;
  p_description : option string;
  p_created_by : uuid;
}.

Record task_row := {
  project_id : uuid;
  title : string;
  t_description : option string;
  status : task_status;
  t_created_by : uuid;
}.

Record notification_row := {
  recipient_id : uuid;
  n_title : string;
  n_body : string;
  related_entity_id : option uuid;
  related_entity_type : option string;
}.

Record audit_row := {
  a_level : log_level;
  a_message : string;
  a_user_id : option uuid;
  a_ip_address : option string;
  a_action : string;
}.

(** The SQL statements the handlers send, in the order they are sent. *)
Inductive stmt :=
| SelectUserById (id : uuid)
| SelectUserByEmail (e : string)
| UpsertDevice (user device : uuid)
| RevokeDevice (user device : string)
| SelectDeviceRevoked (user device : string)
| SelectWorkspaceRole (workspace : option uuid) (user : uuid)
| SelectProjectRole (project user : uuid)
| SelectWorkspaceOwner (workspace user : uuid)
| SelectProjectLead (project user : uuid)
| SelectProjectWorkspace (project : uuid)
| SelectWorkspace (workspace : uuid)
| SelectWorkspaceMembers (workspace : uuid)
| SelectProject (project : uuid)
| SelectProjectMembers (project : uuid)
| SelectProjectTasks (project : uuid)
| SelectTask (task : uuid)
| SelectTaskAssignments (task : uuid)
| SelectTaskAssignees (task : uuid)
| InsertWorkspaceMember (workspace user : uuid)
| InsertProjectMember (project user : uuid)
| DeleteProjectMember (project user : uuid)
| UpdateProjectMemberRole (role : string) (project user : uuid)
| UpdateTask (task : uuid)
| DeleteTask (task : uuid)
| DeleteTaskAssignments (task : uuid)
| InsertTaskAssignment (task user : uuid)
| InsertNotification (recipient : uuid)
| InsertAuditLog (action : string).

(** The store, the messages handed to the publish/subscribe bus, the
    statement trace and the two sources of nondeterminism a request can
    read: the clock ([NOW()], [Date.now()]) and the number of UUIDs drawn
    so far from [randomUUID]. *)
Record world := {
  users : list user_row;
  user_devices : gmap (uuid * string) device_row;
  workspaces : gmap uuid workspace_row;
  workspace_members : gmap (uuid * uuid) workspace_member_row;
  projects : gmap uuid project_row;
  project_members : gmap (uuid * uuid) project_member_row;
  tasks : gmap uuid task_row;
  task_assignments : gmap (uuid * uuid) timestamp;
  notifications : list notification_row;
  audit_logs : list audit_row;
  published : list (string * (uuid * task_row));
  trace : list stmt;
  now : timestamp;
  drawn : nat;
}.

(** Functional update of one table. *)
Definition set_user_devices (f : gmap (uuid * string) device_row -> gmap (uuid * string) device_row)
    (σ : world) : world :=
  {| users := users σ; user_devices := f (user_devices σ); workspaces := workspaces σ;
     workspace_members := workspace_members σ; projects := projects σ;
     project_members := project_members σ; tasks := tasks σ;
     task_assignments := task_assignments σ; notifications := notifications σ;
     audit_logs := audit_logs σ; published := published σ; trace := trace σ; now := now σ;
     drawn := drawn σ |}.

Definition set_workspace_members (f : gmap (uuid * uuid) workspace_member_row -> gmap (uuid * uuid) workspace_member_row)
    (σ : world) : world :=
  {| users := users σ; user_devices := user_devices σ; workspaces := workspaces σ;
     workspace_members := f (workspace_members σ); projects := projects σ;
     project_members := project_members σ; tasks := tasks σ;
     task_assignments := task_assignments σ; notifications := notifications σ;
     audit_logs := audit_logs σ; published := published σ; trace := trace σ; now := now σ;
     drawn := drawn σ |}.

Definition set_project_members (f : gmap (uuid * uuid) project_member_row -> gmap (uuid * uuid) project_member_row)
    (σ : world) : world :=
  {| users := users σ; user_devices := user_devices σ; workspaces := workspaces σ;
     workspace_members := workspace_members σ; projects := projects σ;
     project_members := f (project_members σ); tasks := tasks σ;
     task_assignments := task_assignments σ; notifications := notifications σ;
     audit_logs := audit_logs σ; published := published σ; trace := trace σ; now := now σ;
     drawn := drawn σ |}.

Definition set_tasks (f : gmap uuid task_row -> gmap uuid task_row)
    (σ : world) : world :=
  {| users := users σ; user_devices := user_devices σ; workspaces := workspaces σ;
     workspace_members := workspace_members σ; projects := projects σ;
     project_members := project_members σ; tasks := f (tasks σ);
     task_assignments := task_assignments σ; notifications := notifications σ;
     audit_logs := audit_logs σ; published := published σ; trace := trace σ; now := now σ;
     drawn := drawn σ |}.

Definition set_task_assignments (f : gmap (uuid * uuid) timestamp -> gmap (uuid * uuid) timestamp)
    (σ : world) : world :=
  {| users := users σ; user_devices := user_devices σ; workspaces := workspaces σ;
     workspace_members := workspace_members σ; projects := projects σ;
     project_members := project_members σ; tasks := tasks σ;
     task_assignments := f (task_assignments σ); notifications := notifications σ;
     audit_logs := audit_logs σ; published := published σ; trace := trace σ; now := now σ;
     drawn := drawn σ |}.

Definition set_notifications (f : list notification_row -> list notification_row)
    (σ : world) : world :=
  {| users := users σ; user_devices := user_devices σ; workspaces := workspaces σ;
     workspace_members := workspace_members σ; projects := projects σ;
     project_members := project_members σ; tasks := tasks σ;
     task_assignments := task_assignments σ; notifications := f (notifications σ);
     audit_logs := audit_logs σ; published := published σ; trace := trace σ; now := now σ;
     drawn := drawn σ |}.

Definition set_audit_logs (f : list audit_row -> list audit_row)
    (σ : world) : world :=
  {| users := users σ; user_devices := user_devices σ; workspaces := workspaces σ;
     workspace_members := workspace_members σ; projects := projects σ;
     project_members := project_members σ; tasks := tasks σ;
     task_assignments := task_assignments σ; notifications := notifications σ;
     audit_logs := f (audit_logs σ); published := published σ; trace := trace σ;
     now := now σ; drawn := drawn σ |}.

Definition set_published (f : list (string * (uuid * task_row)) -> list (string * (uuid * task_row)))
    (σ : world) : world :=
  {| users := users σ; user_devices := user_devices σ; workspaces := workspaces σ;
     workspace_members := workspace_members σ; projects := projects σ;
     project_members := project_members σ; tasks := tasks σ;
     task_assignments := task_assignments σ; notifications := notifications σ;
     audit_logs := audit_logs σ; published := f (published σ); trace := trace σ;
     now := now σ; drawn := drawn σ |}.

Definition set_trace (f : list stmt -> list stmt)
    (σ : world) : world :=
  {| users := users σ; user_devices := user_devices σ; workspaces := workspaces σ;
     workspace_members := workspace_members σ; projects := projects σ;
     project_members := project_members σ; tasks := tasks σ;
     task_assignments := task_assignments σ; notifications := notifications σ;
     audit_logs := audit_logs σ; published := published σ; trace := f (trace σ);
     now := now σ; drawn := drawn σ |}.

Definition set_drawn (f : nat -> nat)
    (σ : world) : world :=
  {| users := users σ; user_devices := user_devices σ; workspaces := workspaces σ;
     workspace_members := workspace_members σ; projects := projects σ;
     project_members := project_members σ; tasks := tasks σ;
     task_assignments := task_assignments σ; notifications := notifications σ;
     audit_logs := audit_logs σ; published := published σ; trace := trace σ; now := now σ;
     drawn := f (drawn σ) |}.

(* ===================================================================== *)
(** ** The handler monad *)
(* ===================================================================== *)

(** An [async] function over the store: it ends by returning or throwing,
    and the writes made before a throw stay (no transaction wraps a
    handler). *)
Definition M (A : Type) : Type := world -> outcome A * world.

Definition ret {A} (a : A) : M A := fun σ => (Return a, σ).

Definition throw {A} (e : exn) : M A := fun σ => (Throw e, σ).

Definition bind {A B} (m : M A) (k : A -> M B) : M B :=
  fun σ =>
    match m σ with
    | (Return a, σ') => k a σ'
    | (Throw e, σ') => (Throw e, σ')
    end.

(** [try { m } catch (error) { h error }] *)
Definition try_catch {A} (m : M A) (h : exn -> M A) : M A :=
  fun σ =>
    match m σ with
    | (Return a, σ') => (Return a, σ')
    | (Throw e, σ') => h e σ'
    end.

Definition gets {A} (f : world -> A) : M A := fun σ => (Return (f σ), σ).

Definition modify (f : world -> world) : M unit := fun σ => (Return tt, f σ).

Declare Scope handler_scope.
Delimit Scope handler_scope with handler.
Notation "x <- m ;; k" := (bind m (fun x => k))
  (at level 100, m at next level, right associativity) : handler_scope.
Notation "m ;;; k" := (bind m (fun _ => k))
  (at level 100, right associativity) : handler_scope.
Open Scope handler_scope.

(** [await query(sql, params)]: the statement is recorded, then evaluated. *)
Definition query {A} (s : stmt) (eval : M A) : M A :=
  modify (set_trace (fun t => (t ++ [s])%list)) ;;; eval.

(** The result of running a handler, and the world it leaves. *)
Definition run {A} (m : M A) (σ : world) : outcome A := fst (m σ).
Definition exec {A} (m : M A) (σ : world) : world := snd (m σ).

(* ===================================================================== *)
(** ** [src/utils/logger.ts] *)
(* ===================================================================== *)

Definition user_exists (σ : world) (u : uuid) : bool :=
  bool_decide (Exists (fun r => id r = u) (users σ)).

(** [log(level, message, details)]: the file and console transports are
    sinks outside the store; the audit row is written with
    [details.userId || null] and [details.ipAddress || null].  The insert
    is refused when [user_id] names no user; [log] catches that failure,
    so it never reaches the caller.  Handlers do not await [log]; its write
    is placed where the call is made. *)
Definition log (level : log_level) (message : string)
    (userId ipAddress : option string) (action : string) : M unit :=
  query (InsertAuditLog action)
    (fun σ =>
       if match or_str userId None with
          | Some u => user_exists σ u
          | None => true
          end
       then (Return tt,
             set_audit_logs (fun l =>
               (l ++ [{| a_level := level; a_message := message;
                         a_user_id := or_str userId None;
                         a_ip_address := or_str ipAddress None;
                         a_action := action |}])%list) σ)
       else (Return tt, σ)).

(* ===================================================================== *)
(** ** [src/services/authorization.ts] *)
(* ===================================================================== *)

(** [const roleHierarchy = { Owner: 3, Member: 2, Viewer: 1 }] *)
Definition workspace_roleHierarchy (r : WorkspaceRole) : Z :=
  match r with
  | Owner => 3
  | Member => 2
  | Viewer => 1
  end.

(** [const roleHierarchy = { 'Project Lead': 3, Contributor: 2,
    'Project Viewer': 1 }] *)
Definition project_roleHierarchy (r : ProjectRole) : Z :=
  match r with
  | ProjectLead => 3
  | Contributor => 2
  | ProjectViewer => 1
  end.

(** [{ hasAccess: boolean; role?: R }] *)
Record access (R : Type) := { hasAccess : bool; role : option R }.
Arguments hasAccess {R} _.
Arguments role {R} _.

(** [SELECT role FROM workspace_members WHERE workspace_id = $1 AND
    user_id = $2].  The workspace id is optional because one call site
    passes [undefined], which the driver sends as [NULL]: the comparison
    then holds for no row. *)
Definition select_workspace_role (workspaceId : option uuid) (userId : uuid)
    : M (list WorkspaceRole) :=
  query (SelectWorkspaceRole workspaceId userId)
    (gets (fun σ =>
       match workspaceId with
       | Some w => option_list (wm_role <$> workspace_members σ !! (w, userId))
       | None => []
       end)).

Definition checkWorkspaceAccess (userId : uuid) (workspaceId : option uuid)
    (minimumRole : WorkspaceRole) : M (access WorkspaceRole) :=
  rows <- select_workspace_role workspaceId userId ;;
  match rows with
  | [] => ret {| hasAccess := false; role := None |}
  | r :: _ =>
      let minimumLevel := workspace_roleHierarchy minimumRole in
      let userLevel := workspace_roleHierarchy r in
      ret {| hasAccess := (userLevel >=? minimumLevel); role := Some r |}
  end.

(** [SELECT role FROM project_members WHERE project_id = $1 AND
    user_id = $2] *)
Definition select_project_role (projectId userId : uuid) : M (list ProjectRole) :=
  query (SelectProjectRole projectId userId)
    (gets (fun σ => option_list (pm_role <$> project_members σ !! (projectId, userId)))).

Definition checkProjectAccess (userId projectId : uuid) (minimumRole : ProjectRole)
    : M (access ProjectRole) :=
  rows <- select_project_role projectId userId ;;
  match rows with
  | [] => ret {| hasAccess := false; role := None |}
  | r :: _ =>
      let minimumLevel := project_roleHierarchy minimumRole in
      let userLevel := project_roleHierarchy r in
      ret {| hasAccess := (userLevel >=? minimumLevel); role := Some r |}
  end.

(** [SELECT role FROM workspace_members WHERE workspace_id = $1 AND
    user_id = $2 AND role = 'Owner'] *)
Definition select_workspace_owner (workspaceId userId : uuid) : M (list WorkspaceRole) :=
  query (SelectWorkspaceOwner workspaceId userId)
    (gets (fun σ =>
       filter (fun r => r = Owner)
         (option_list (wm_role <$> workspace_members σ !! (workspaceId, userId))))).

Definition checkWorkspaceOwnership (userId workspaceId : uuid) : M bool :=
  rows <- select_workspace_owner workspaceId userId ;;
  ret (0 <? Z.of_nat (length rows)).

(** [SELECT role FROM project_members WHERE project_id = $1 AND
    user_id = $2 AND role = 'Project Lead'] *)
Definition select_project_lead (projectId userId : uuid) : M (list ProjectRole) :=
  query (SelectProjectLead projectId userId)
    (gets (fun σ =>
       filter (fun r => r = ProjectLead)
         (option_list (pm_role <$> project_members σ !! (projectId, userId))))).

Definition checkProjectLeadAccess (userId projectId : uuid) : M bool :=
  rows <- select_project_lead projectId userId ;;
  ret (0 <? Z.of_nat (length rows)).

Definition WorkspaceRole_text (r : WorkspaceRole) : string :=
  match r with
  | Owner => "Owner"
  | Member => "Member"
  | Viewer => "Viewer"
  end.

Definition ProjectRole_text (r : ProjectRole) : string :=
  match r with
  | ProjectLead => "Project Lead"
  | Contributor => "Contributor"
  | ProjectViewer => "Project Viewer"
  end.

(** [`Insufficient permissions: Requires ${minimumRole} role or higher`] *)
Definition insufficient_permissions (minimumRole : string) : exn :=
  Error ("Insufficient permissions: Requires " ++ minimumRole ++ " role or higher").

Definition requireWorkspaceAccess (userId : uuid) (workspaceId : option uuid)
    (minimumRole : WorkspaceRole) : M unit :=
  a <- checkWorkspaceAccess userId workspaceId minimumRole ;;
  if negb (hasAccess a)
  then throw (insufficient_permissions (WorkspaceRole_text minimumRole))
  else ret tt.

Definition requireProjectAccess (userId projectId : uuid) (minimumRole : ProjectRole)
    : M unit :=
  a <- checkProjectAccess userId projectId minimumRole ;;
  if negb (hasAccess a)
  then throw (insufficient_permissions (ProjectRole_text minimumRole))
  else ret tt.

(* ===================================================================== *)
(** ** [src/config/index.ts] *)
(* ===================================================================== *)

Record jwt_config := {
  secret : string;
  refreshSecret : string;
  expiresIn : string;
  refreshExpiresIn : string;
}.

(** [config.jwt], read from the process environment. *)
Definition config_jwt (env : gmap string string) : jwt_config :=
  {| secret := or_default (env !! "JWT_SECRET") "change-this-in-production";
     refreshSecret := or_default (env !! "JWT_REFRESH_SECRET") "change-this-in-production";
     expiresIn := or_default (env !! "JWT_EXPIRES_IN") "15m";
     refreshExpiresIn := or_default (env !! "JWT_REFRESH_EXPIRES_IN") "7d" |}.

(* ===================================================================== *)
(** ** The [jsonwebtoken] package *)
(* ===================================================================== *)

(** [interface JWTPayload { userId; email; globalStatus }] *)
Record JWTPayload := {
  jwt_userId : uuid;
  jwt_email : string;
  jwt_globalStatus : global_status;
}.

(** Token strings, symbolically: a string is either the encoding of a
    payload signed under some key with an expiry claim, or any other
    string.  The signature is idealised: a token verifies under a key
    exactly when it was signed with that key. *)
Inductive jwt :=
| Signed (payload : JWTPayload) (key : string) (exp : timestamp)
| Malformed (raw : string).

(** A token string is falsy only when it is the empty string. *)
Definition jwt_truthy (t : option jwt) : bool :=
  match t with
  | Some (Malformed raw) => negb (bool_decide (raw = ""))
  | Some (Signed _ _ _) => true
  | None => false
  end.

(** [a || b] on optional tokens. *)
Definition or_jwt (a b : option jwt) : option jwt :=
  if jwt_truthy a then a else b.

Section Server.

Set Default Proof Using "Type".

(** The time-span parser [jsonwebtoken] applies to [expiresIn] (["15m"] is
    900 seconds), [bcrypt.compare], the stream of values [randomUUID]
    returns, and the process environment. *)
Variable span : string -> Z.
Variable bcrypt_compare : string -> string -> bool.
Variable randomUUID : nat -> uuid.
Variable process_env : gmap string string.

(** [jwt.sign(payload, key, { expiresIn })] *)
Definition jwt_sign (payload : JWTPayload) (key : string) (expires : string) : M jwt :=
  gets (fun σ => Signed payload key (now σ + span expires)).

(** [jwt.verify(token, key)]: the signature is checked first, then the
    expiry claim against the clock. *)
Definition jwt_verify (token : jwt) (key : string) : M JWTPayload :=
  match token with
  | Signed payload k exp =>
      if bool_decide (k = key)
      then t <- gets now ;;
           if t >=? exp then throw TokenExpiredError else ret payload
      else throw (JsonWebTokenError "invalid signature")
  | Malformed _ => throw (JsonWebTokenError "jwt malformed")
  end.

(* ===================================================================== *)
(** ** [src/utils/auth.ts] *)
(* ===================================================================== *)

Definition config : jwt_config := config_jwt process_env.

Definition comparePassword (password hash : string) : M bool :=
  ret (bcrypt_compare password hash).

Definition generateAccessToken (payload : JWTPayload) : M jwt :=
  jwt_sign payload (secret config) (expiresIn config).

Definition generateRefreshToken (payload : JWTPayload) : M jwt :=
  jwt_sign payload (refreshSecret config) (refreshExpiresIn config).

Definition verifyAccessToken (token : jwt) : M JWTPayload :=
  jwt_verify token (secret config).

Definition verifyRefreshToken (token : jwt) : M JWTPayload :=
  jwt_verify token (refreshSecret config).

Definition generateDeviceId : M uuid :=
  n <- gets drawn ;;
  modify (set_drawn S) ;;;
  ret (randomUUID n).

(** [INSERT INTO user_devices ... ON CONFLICT (user_id, device_id) DO UPDATE
    SET login_time = NOW(), is_revoked = FALSE, revoked_at = NULL, ...]:
    a fresh row takes the column defaults, which are the same values, and
    is refused when [user_id] names no user. *)
Definition saveDevice (userId deviceId : string) (ipAddress userAgent : option string)
    : M unit :=
  query (UpsertDevice userId deviceId)
    (fun σ =>
       if defined (user_devices σ !! (userId, deviceId)) || user_exists σ userId
       then (Return tt,
             set_user_devices
               <[(userId, deviceId) :=
                   {| ip_address := ipAddress; user_agent := userAgent;
                      login_time := now σ; is_revoked := false; revoked_at := None |}]> σ)
       else (Throw (DatabaseError "violates foreign key constraint"), σ)).

(** [UPDATE user_devices SET is_revoked = TRUE, revoked_at = NOW()
    WHERE user_id = $1 AND device_id = $2] *)
Definition revokeDevice (userId deviceId : string) : M unit :=
  query (RevokeDevice userId deviceId)
    (t <- gets now ;;
     modify (set_user_devices
       (alter (fun r =>
          {| ip_address := ip_address r; user_agent := user_agent r;
             login_time := login_time r; is_revoked := true; revoked_at := Some t |})
          (userId, deviceId)))).

(** [return result.rows[0]?.is_revoked || true] *)
Definition isDeviceRevoked (userId deviceId : string) : M bool :=
  rows <- query (SelectDeviceRevoked userId deviceId)
            (gets (fun σ => option_list (is_revoked <$> user_devices σ !! (userId, deviceId)))) ;;
  ret (js_or (head rows) true).

(** [SELECT * FROM users WHERE email = $1], then [rows[0]]. *)
Definition getUserByEmail (e : string) : M (option user_row) :=
  rows <- query (SelectUserByEmail e)
            (gets (fun σ => filter (fun u => email u = e) (users σ))) ;;
  ret (head rows).

(** [SELECT * FROM users WHERE id = $1], then [rows[0]]. *)
Definition getUserById (i : uuid) : M (option user_row) :=
  rows <- query (SelectUserById i)
            (gets (fun σ => filter (fun u => id u = i) (users σ))) ;;
  ret (head rows).

(* ===================================================================== *)
(** ** HTTP requests and responses (Express) *)
(* ===================================================================== *)

(** The [Authorization] header: ["Bearer "] followed by the encoding of a
    signed token, or any other text. *)
Inductive authorization_header :=
| Bearer (token : jwt)
| OtherHeader (value : string).

(** [authHeader.startsWith('Bearer ')] *)
Definition startsWith_Bearer (h : authorization_header) : bool :=
  match h with
  | Bearer _ => true
  | OtherHeader value => String.prefix "Bearer " value
  end.

(** [authHeader.substring(7)] *)
Definition substring_7 (h : authorization_header) : jwt :=
  match h with
  | Bearer token => token
  | OtherHeader value => Malformed (String.substring 7 (String.length value - 7) value)
  end.

Record Request := {
  authorization : option authorization_header;
  cookies_refreshToken : option jwt;
  x_refresh_token : option jwt;
  x_device_id : option string;
  ip : option string;
  header_user_agent : option string;
  body_email : string;
  body_password : string;
}.

Inductive cookie_op :=
| SetCookie (name : string) (value : jwt)
| ClearCookie (name : string).

(** The user object [/login] sends back. *)
Record login_user := {
  lu_id : uuid;
  lu_email : string;
  lu_full_name : string;
  lu_global_status : global_status;
}.

Inductive json_body :=
| ErrorBody (error : string)
| MessageBody (message : string)
| LoginBody (accessToken refreshToken : jwt) (user : login_user).

Record Response := {
  res_status : Z;
  res_cookies : list cookie_op;
  res_body : json_body;
}.

(** [res.status(code).json({ error })] *)
Definition error_response (code : Z) (msg : string) : Response :=
  {| res_status := code; res_cookies := []; res_body := ErrorBody msg |}.

(* ===================================================================== *)
(** ** [src/middleware/auth.ts] *)
(* ===================================================================== *)

(** [interface AuthRequest extends Request { userId?; user? }], as
    [authenticate] leaves it when it calls [next()]. *)
Record AuthRequest := {
  request : Request;
  req_userId : uuid;
  req_user : user_row;
}.

(** The middleware either answers the request itself or hands the
    augmented request to the next handler. *)
Definition authenticate (req : Request) : M (Response + AuthRequest) :=
  try_catch
    (match authorization req with
     | None => ret (inl (error_response 401 "Unauthorized: No token provided"))
     | Some authHeader =>
         if negb (startsWith_Bearer authHeader)
         then ret (inl (error_response 401 "Unauthorized: No token provided"))
         else
           let token := substring_7 authHeader in
           payload <- verifyAccessToken token ;;
           user <- getUserById (jwt_userId payload) ;;
           match user with
           | None => throw (TypeError "undefined is not an object (evaluating 'req.user.global_status')")
           | Some user =>
               if bool_decide (global_status_of user = BANNED)
               then
                 log warn "Banned user attempted access"
                   (Some (jwt_userId payload)) (ip req) "ACCESS_DENIED_BANNED" ;;;
                 ret (inl (error_response 403 "Access denied: Account is banned"))
               else
                 ret (inr {| request := req; req_userId := jwt_userId payload;
                             req_user := user |})
           end
     end)
    (fun _ =>
       log error "Authentication failed" None (ip req) "AUTH_FAILURE" ;;;
       ret (inl (error_response 401 "Unauthorized: Invalid token"))).

(** [router.post(path, authenticate, handler)] *)
Definition guarded (handler : AuthRequest -> M Response) (req : Request) : M Response :=
  r <- authenticate req ;;
  match r with
  | inl res => ret res
  | inr areq => handler areq
  end.

(* ===================================================================== *)
(** ** [src/routes/auth.ts] *)
(* ===================================================================== *)

Definition post_login (req : Request) : M Response :=
  try_catch
    (user <- getUserByEmail (body_email req) ;;
     match user with
     | None =>
         log security "Login attempt failed" None (ip req) "LOGIN_FAILURE" ;;;
         ret (error_response 401 "Invalid credentials")
     | Some user =>
         if bool_decide (global_status_of user = BANNED)
         then
           log security "Login attempt by banned user" (Some (id user)) (ip req)
             "LOGIN_FAILURE_BANNED" ;;;
           ret (error_response 403 "Account is banned")
         else
           isValid <- comparePassword (body_password req) (password_hash user) ;;
           if negb isValid
           then
             log security "Login attempt failed" None (ip req) "LOGIN_FAILURE" ;;;
             ret (error_response 401 "Invalid credentials")
           else
             deviceId <- generateDeviceId ;;
             saveDevice (id user) deviceId (ip req) (header_user_agent req) ;;;
             let payload := {| jwt_userId := id user; jwt_email := email user;
                               jwt_globalStatus := global_status_of user |} in
             accessToken <- generateAccessToken payload ;;
             refreshToken <- generateRefreshToken payload ;;
             log info "User logged in" (Some (id user)) (ip req) "LOGIN_SUCCESS" ;;;
             ret {| res_status := 200;
                    res_cookies := [SetCookie "refreshToken" refreshToken];
                    res_body := LoginBody accessToken refreshToken
                      {| lu_id := id user; lu_email := email user;
                         lu_full_name := full_name user;
                         lu_global_status := global_status_of user |} |}
     end)
    (fun _ =>
       log error "Login error" None (ip req) "LOGIN_ERROR" ;;;
       ret (error_response 500 "Internal server error")).

Definition logout_handler (req : AuthRequest) : M Response :=
  try_catch
    (let refreshToken :=
       or_jwt (cookies_refreshToken (request req)) (x_refresh_token (request req)) in
     (if jwt_truthy refreshToken
      then
        let deviceId := or_default (x_device_id (request req)) "unknown" in
        revokeDevice (req_userId req) deviceId
      else ret tt) ;;;
     log info "User logged out" (Some (req_userId req)) (ip (request req))
       "LOGOUT_SUCCESS" ;;;
     ret {| res_status := 200; res_cookies := [ClearCookie "refreshToken"];
            res_body := MessageBody "Logged out successfully" |})
    (fun _ =>
       log error "Logout error" (Some (req_userId req)) (ip (request req))
         "LOGOUT_ERROR" ;;;
       ret (error_response 500 "Internal server error")).

Definition post_logout : Request -> M Response := guarded logout_handler.

(* ===================================================================== *)
(** ** [src/index.ts]: the GraphQL context *)
(* ===================================================================== *)

(** [interface Context], as [getContext] builds it. *)
Record Context := {
  userId : option uuid;
  user : option user_row;
  ipAddress : option string;
  userAgent : option string;
}.

(** A failed verification is swallowed and the request goes on without a
    user. *)
Definition getContext (req : Request) : M Context :=
  found <- try_catch
    (match authorization req with
     | Some authHeader =>
         if startsWith_Bearer authHeader
         then
           let token := substring_7 authHeader in
           payload <- jwt_verify token (secret config) ;;
           user <- getUserById (jwt_userId payload) ;;
           ret (Some (jwt_userId payload), user)
         else ret (None, None)
     | None => ret (None, None)
     end)
    (fun _ => ret (None, None)) ;;
  ret {| userId := fst found; user := snd found; ipAddress := ip req;
         userAgent := header_user_agent req |}.

(* ===================================================================== *)
(** ** [src/graphql/resolvers.ts] *)
(* ===================================================================== *)

(** [if (!context.userId) throw new GraphQLError('Unauthorized')], the
    first line of every guarded resolver; the caller's id is returned. *)
Definition authenticated (context : Context) : M uuid :=
  match userId context with
  | Some u => if negb (truthy (Some u)) then throw (GraphQLError "Unauthorized") else ret u
  | None => throw (GraphQLError "Unauthorized")
  end.

(** [SELECT workspace_id FROM projects WHERE id = $1], then
    [rows[0]?.workspace_id]. *)
Definition select_project_workspace (projectId : uuid) : M (option uuid) :=
  query (SelectProjectWorkspace projectId)
    (gets (fun σ => workspace_id <$> projects σ !! projectId)).

(** [INSERT INTO workspace_members (workspace_id, user_id, role)
    VALUES ($1, $2, 'Member') ON CONFLICT DO NOTHING].  A row with the same
    key makes the statement a no-op; otherwise the row is inserted, unless
    it refers to a workspace or a user that does not exist. *)
Definition insert_workspace_member (workspaceId userId : uuid) (r : WorkspaceRole)
    : M unit :=
  query (InsertWorkspaceMember workspaceId userId)
    (fun σ =>
       match workspace_members σ !! (workspaceId, userId) with
       | Some _ => (Return tt, σ)
       | None =>
           if bool_decide (is_Some (workspaces σ !! workspaceId)) && user_exists σ userId
           then (Return tt,
                 set_workspace_members
                   <[(workspaceId, userId) := {| wm_role := r; wm_joined_at := now σ |}]> σ)
           else (Throw (DatabaseError "violates foreign key constraint"), σ)
       end).

(** [INSERT INTO project_members (project_id, user_id, role)
    VALUES ($1, $2, 'Contributor') ON CONFLICT DO NOTHING] *)
Definition insert_project_member (projectId userId : uuid) (r : ProjectRole) : M unit :=
  query (InsertProjectMember projectId userId)
    (fun σ =>
       match project_members σ !! (projectId, userId) with
       | Some _ => (Return tt, σ)
       | None =>
           if bool_decide (is_Some (projects σ !! projectId)) && user_exists σ userId
           then (Return tt,
                 set_project_members
                   <[(projectId, userId) := {| pm_role := r; pm_joined_at := now σ |}]> σ)
           else (Throw (DatabaseError "violates foreign key constraint"), σ)
       end).

Definition me (context : Context) : M (option user_row) :=
  caller <- authenticated context ;;
  getUserById caller.

Definition addWorkspaceMember (workspaceId userId : uuid) (context : Context) : M bool :=
  caller <- authenticated context ;;
  isOwner <- checkWorkspaceOwnership caller workspaceId ;;
  if negb isOwner
  then throw (GraphQLError "Forbidden: Owner access required")
  else
    insert_workspace_member workspaceId userId Member ;;;
    log info "Workspace member added" (Some caller) (ipAddress context)
      "WORKSPACE_MEMBER_ADDED" ;;;
    ret true.

Definition addProjectMember (projectId userId : uuid) (context : Context) : M bool :=
  caller <- authenticated context ;;
  isLead <- checkProjectLeadAccess caller projectId ;;
  (if negb isLead
   then
     workspaceId <- select_project_workspace projectId ;;
     match workspaceId with
     | Some w =>
         if negb (truthy (Some w))
         then throw (GraphQLError "Project not found")
         else
           isWorkspaceOwner <- checkWorkspaceOwnership caller w ;;
           if negb isWorkspaceOwner
           then throw (GraphQLError
                  "Forbidden: Project Lead or Workspace Owner access required")
           else ret tt
     | None => throw (GraphQLError "Project not found")
     end
   else ret tt) ;;;
  workspaceId <- select_project_workspace projectId ;;
  a <- checkWorkspaceAccess userId workspaceId Viewer ;;
  if negb (hasAccess a)
  then throw (GraphQLError "User must be a workspace member first")
  else
    insert_project_member projectId userId Contributor ;;;
    log info "Project member added" (Some caller) (ipAddress context)
      "PROJECT_MEMBER_ADDED" ;;;
    ret true.

Definition removeProjectMember (projectId userId : uuid) (context : Context) : M bool :=
  caller <- authenticated context ;;
  isLead <- checkProjectLeadAccess caller projectId ;;
  (if negb isLead
   then
     workspaceId <- select_project_workspace projectId ;;
     match workspaceId with
     | Some w =>
         if negb (truthy (Some w))
         then throw (GraphQLError "Project not found")
         else
           isWorkspaceOwner <- checkWorkspaceOwnership caller w ;;
           if negb isWorkspaceOwner
           then throw (GraphQLError
                  "Forbidden: Project Lead or Workspace Owner access required")
           else ret tt
     | None => throw (GraphQLError "Project not found")
     end
   else ret tt) ;;;
  query (DeleteProjectMember projectId userId)
    (modify (set_project_members (delete (projectId, userId)))) ;;;
  log info "Project member removed" (Some caller) (ipAddress context)
    "PROJECT_MEMBER_REMOVED" ;;;
  ret true.

(** The ownership check is called with the project id where the two
    sibling mutations pass the id of the project's workspace. *)
Definition updateProjectMemberRole (projectId userId : uuid) (newRole : string)
    (context : Context) : M bool :=
  caller <- authenticated context ;;
  isLead <- checkProjectLeadAccess caller projectId ;;
  (if negb isLead
   then
     isWorkspaceOwner <- checkWorkspaceOwnership caller projectId ;;
     if negb isWorkspaceOwner
     then throw (GraphQLError
            "Forbidden: Project Lead or Workspace Owner access required")
     else ret tt
   else ret tt) ;;;
  query (UpdateProjectMemberRole newRole projectId userId)
    (match ProjectRole_of_string newRole with
     | Some r =>
         modify (set_project_members
           (alter (fun row => {| pm_role := r; pm_joined_at := pm_joined_at row |})
              (projectId, userId)))
     | None => throw (DatabaseError "invalid input value for enum project_role")
     end) ;;;
  log info "Project member role updated" (Some caller) (ipAddress context)
    "PROJECT_MEMBER_ROLE_UPDATED" ;;;
  ret true.

(** A membership row joined with its user, as the resolvers reshape it. *)
Record member_view (R : Type) := {
  mv_user_id : uuid;
  mv_email : string;
  mv_full_name : string;
  mv_role : R;
  mv_joined_at : timestamp;
}.
Arguments mv_user_id {R} _.
Arguments mv_email {R} _.
Arguments mv_full_name {R} _.
Arguments mv_role {R} _.
Arguments mv_joined_at {R} _.

Record assignment_view := {
  av_user_id : uuid;
  av_email : string;
  av_full_name : string;
  av_assigned_at : timestamp;
}.

(** [... FROM workspace_members wm JOIN users u ON wm.user_id = u.id
    WHERE wm.workspace_id = $1] *)
Definition workspace_member_rows (σ : world) (w : uuid) : list (member_view WorkspaceRole) :=
  flat_map
    (fun kv : uuid * uuid * workspace_member_row =>
       if bool_decide (kv.1.1 = w)
       then map (fun u => {| mv_user_id := id u; mv_email := email u;
                             mv_full_name := full_name u; mv_role := wm_role kv.2;
                             mv_joined_at := wm_joined_at kv.2 |})
                (filter (fun u => id u = kv.1.2) (users σ))
       else [])
    (map_to_list (workspace_members σ)).

(** [... FROM project_members pm JOIN users u ON pm.user_id = u.id
    WHERE pm.project_id = $1] *)
Definition project_member_rows (σ : world) (p : uuid) : list (member_view ProjectRole) :=
  flat_map
    (fun kv : uuid * uuid * project_member_row =>
       if bool_decide (kv.1.1 = p)
       then map (fun u => {| mv_user_id := id u; mv_email := email u;
                             mv_full_name := full_name u; mv_role := pm_role kv.2;
                             mv_joined_at := pm_joined_at kv.2 |})
                (filter (fun u => id u = kv.1.2) (users σ))
       else [])
    (map_to_list (project_members σ)).

(** [... FROM task_assignments ta JOIN users u ON ta.user_id = u.id
    WHERE ta.task_id = $1] *)
Definition task_assignment_rows (σ : world) (t : uuid) : list assignment_view :=
  flat_map
    (fun kv : uuid * uuid * timestamp =>
       if bool_decide (kv.1.1 = t)
       then map (fun u => {| av_user_id := id u; av_email := email u;
                             av_full_name := full_name u; av_assigned_at := kv.2 |})
                (filter (fun u => id u = kv.1.2) (users σ))
       else [])
    (map_to_list (task_assignments σ)).

(** [SELECT * FROM tasks WHERE id = $1], then [rows[0]]. *)
Definition select_task (taskId : uuid) : M (option task_row) :=
  query (SelectTask taskId) (gets (fun σ => tasks σ !! taskId)).

Definition getWorkspace (workspaceId : uuid) (context : Context)
    : M (workspace_row * list (member_view WorkspaceRole)) :=
  caller <- authenticated context ;;
  requireWorkspaceAccess caller (Some workspaceId) Viewer ;;;
  workspace <- query (SelectWorkspace workspaceId)
                 (gets (fun σ => workspaces σ !! workspaceId)) ;;
  members <- query (SelectWorkspaceMembers workspaceId)
               (gets (fun σ => workspace_member_rows σ workspaceId)) ;;
  match workspace with
  | Some workspace => ret (workspace, members)
  | None => throw (TypeError "undefined is not an object (evaluating 'workspace.members')")
  end.

Definition getProject (projectId : uuid) (context : Context)
    : M (project_row * list (member_view ProjectRole) * list (uuid * task_row)) :=
  caller <- authenticated context ;;
  requireProjectAccess caller projectId ProjectViewer ;;;
  project <- query (SelectProject projectId) (gets (fun σ => projects σ !! projectId)) ;;
  members <- query (SelectProjectMembers projectId)
               (gets (fun σ => project_member_rows σ projectId)) ;;
  match project with
  | Some project =>
      projectTasks <- query (SelectProjectTasks projectId)
        (gets (fun σ =>
           filter (fun kv : uuid * task_row => project_id kv.2 = projectId)
             (map_to_list (tasks σ)))) ;;
      ret (project, members, projectTasks)
  | None => throw (TypeError "undefined is not an object (evaluating 'project.members')")
  end.

Definition getTask (taskId : uuid) (context : Context)
    : M (task_row * list assignment_view) :=
  caller <- authenticated context ;;
  result <- select_task taskId ;;
  match result with
  | None => throw (GraphQLError "Task not found")
  | Some task =>
      a <- checkProjectAccess caller (project_id task) ProjectViewer ;;
      if negb (hasAccess a)
      then throw (GraphQLError "Forbidden")
      else
        assigned_to <- query (SelectTaskAssignments taskId)
                         (gets (fun σ => task_assignment_rows σ taskId)) ;;
        ret (task, assigned_to)
  end.

Definition deleteTask (taskId : uuid) (context : Context) : M bool :=
  caller <- authenticated context ;;
  existingTask <- select_task taskId ;;
  match existingTask with
  | None => throw (GraphQLError "Task not found")
  | Some existingTask =>
      requireProjectAccess caller (project_id existingTask) Contributor ;;;
      query (DeleteTask taskId)
        (modify (fun σ =>
           set_task_assignments (filter (fun kv : uuid * uuid * timestamp => kv.1.1 <> taskId))
             (set_tasks (delete taskId) σ))) ;;;
      log info "Task deleted" (Some caller) (ipAddress context) "TASK_DELETED" ;;;
      ret true
  end.

(** [taskStatusUpdated.subscribe]: the channel the subscriber is attached
    to. *)
Definition taskStatusUpdated_subscribe (workspaceId : uuid) (context : Context) : M string :=
  caller <- authenticated context ;;
  requireWorkspaceAccess caller (Some workspaceId) Viewer ;;;
  ret ("TASK_STATUS_UPDATED_" ++ workspaceId).

(** [src/services/notifications.ts] *)
Definition createNotification (recipientId ntitle nbody : string)
    (relatedEntityId relatedEntityType : option string) : M unit :=
  query (InsertNotification recipientId)
    (fun σ =>
       if user_exists σ recipientId
       then (Return tt,
             set_notifications (fun l =>
               (l ++ [{| recipient_id := recipientId; n_title := ntitle; n_body := nbody;
                         related_entity_id := relatedEntityId;
                         related_entity_type := relatedEntityType |}])%list) σ)
       else (Throw (DatabaseError "violates foreign key constraint"), σ)) ;;;
  log info "Notification created" (Some recipientId) None "NOTIFICATION_CREATED".

(** The loop [for (const userId of assignedToIds)] of [updateTask]: a plain
    [INSERT INTO task_assignments], then a notification for a user who was
    not assigned before. *)
Fixpoint assign_each (taskId : uuid) (notice : string) (oldAssignedToIds : list uuid)
    (assignedToIds : list uuid) : M unit :=
  match assignedToIds with
  | [] => ret tt
  | userId :: rest =>
      query (InsertTaskAssignment taskId userId)
        (fun σ =>
           match task_assignments σ !! (taskId, userId) with
           | Some _ =>
               (Throw (DatabaseError "duplicate key value violates unique constraint"), σ)
           | None =>
               if bool_decide (is_Some (tasks σ !! taskId)) && user_exists σ userId
               then (Return tt, set_task_assignments <[(taskId, userId) := now σ]> σ)
               else (Throw (DatabaseError "violates foreign key constraint"), σ)
           end) ;;;
      (if negb (bool_decide (userId ∈ oldAssignedToIds))
       then createNotification userId "Task Assigned" notice (Some taskId) (Some "Task")
       else ret tt) ;;;
      assign_each taskId notice oldAssignedToIds rest
  end.

(** Arguments the client leaves out are [None]. *)
Definition updateTask (taskId : uuid) (newTitle newDescription newStatus : option string)
    (assignedToIds : option (list uuid)) (context : Context) : M (option task_row) :=
  caller <- authenticated context ;;
  existingTask <- select_task taskId ;;
  match existingTask with
  | None => throw (GraphQLError "Task not found")
  | Some existingTask =>
      requireProjectAccess caller (project_id existingTask) Contributor ;;;
      let updates := defined newTitle || defined newDescription || defined newStatus in
      if negb updates && negb (defined assignedToIds)
      then select_task taskId
      else
        let oldStatus := status existingTask in
        oldAssignedToIds <-
          (if defined assignedToIds || truthy newStatus
           then query (SelectTaskAssignees taskId)
                  (gets (fun σ =>
                     map (fun kv : uuid * uuid * timestamp => kv.1.2)
                       (filter (fun kv : uuid * uuid * timestamp => kv.1.1 = taskId)
                          (map_to_list (task_assignments σ)))))
           else ret []) ;;
        (if updates
         then
           query (UpdateTask taskId)
             (match newStatus with
              | Some s =>
                  match task_status_of_string s with
                  | Some st =>
                      modify (set_tasks (alter (fun row =>
                        {| project_id := project_id row;
                           title := default (title row) newTitle;
                           t_description := if defined newDescription then newDescription
                                            else t_description row;
                           status := st; t_created_by := t_created_by row |}) taskId))
                  | None => throw (DatabaseError "invalid input value for enum task_status")
                  end
              | None =>
                  modify (set_tasks (alter (fun row =>
                    {| project_id := project_id row;
                       title := default (title row) newTitle;
                       t_description := if defined newDescription then newDescription
                                        else t_description row;
                       status := status row; t_created_by := t_created_by row |}) taskId))
              end)
         else ret tt) ;;;
        match assignedToIds with
        | Some ids =>
            query (DeleteTaskAssignments taskId)
              (modify (set_task_assignments
                 (filter (fun kv : uuid * uuid * timestamp => kv.1.1 <> taskId)))) ;;;
            assign_each taskId
              ("You have been assigned to task: " ++ or_default newTitle (title existingTask))
              oldAssignedToIds ids
        | None => ret tt
        end ;;;
        task <- select_task taskId ;;
        (if truthy newStatus
            && negb (bool_decide (newStatus = Some (task_status_text oldStatus)))
         then
           match task with
           | Some t =>
               workspaceId <- select_project_workspace (project_id t) ;;
               match workspaceId with
               | Some w =>
                   modify (set_published (fun l =>
                     (l ++ [(String.append "TASK_STATUS_UPDATED_" w, (taskId, t))])%list)) ;;;
                   log info "Task status updated" (Some caller) (ipAddress context)
                     "TASK_STATUS_UPDATED"
               | None => throw (TypeError "undefined is not an object")
               end
           | None => throw (TypeError "undefined is not an object")
           end
         else ret tt) ;;;
        ret task
  end.

(* ===================================================================== *)
(** ** The remaining routes, middleware and resolvers *)
(* ===================================================================== *)

Definition set_users (f : list user_row -> list user_row)
    (σ : world) : world :=
  {| users := f (users σ); user_devices := user_devices σ; workspaces := workspaces σ;
     workspace_members := workspace_members σ; projects := projects σ;
     project_members := project_members σ; tasks := tasks σ;
     task_assignments := task_assignments σ; notifications := notifications σ;
     audit_logs := audit_logs σ; published := published σ; trace := trace σ; now := now σ;
     drawn := drawn σ |}.

Definition set_workspaces (f : gmap uuid workspace_row -> gmap uuid workspace_row)
    (σ : world) : world :=
  {| users := users σ; user_devices := user_devices σ; workspaces := f (workspaces σ);
     workspace_members := workspace_members σ; projects := projects σ;
     project_members := project_members σ; tasks := tasks σ;
     task_assignments := task_assignments σ; notifications := notifications σ;
     audit_logs := audit_logs σ; published := published σ; trace := trace σ; now := now σ;
     drawn := drawn σ |}.

Definition set_projects (f : gmap uuid project_row -> gmap uuid project_row)
    (σ : world) : world :=
  {| users := users σ; user_devices := user_devices σ; workspaces := workspaces σ;
     workspace_members := workspace_members σ; projects := f (projects σ);
     project_members := project_members σ; tasks := tasks σ;
     task_assignments := task_assignments σ; notifications := notifications σ;
     audit_logs := audit_logs σ; published := published σ; trace := trace σ; now := now σ;
     drawn := drawn σ |}.

(** The values [gen_random_uuid()] gives a new row's [id], and
    [bcrypt.hash] with its random salt; both are indexed by the draw
    counter of the world, which every draw advances. *)
Variable gen_random_uuid : nat -> uuid.
Variable bcrypt_hash : nat -> string -> string.

(** [await query(sql, params)] for a statement that [stmt] does not list:
    it is evaluated and leaves no entry in the trace, which records the
    statements of the handlers above. *)
Definition statement {A} (eval : M A) : M A := eval.

Definition WorkspaceRole_of_string (s : string) : option WorkspaceRole :=
  if bool_decide (s = "Owner") then Some Owner
  else if bool_decide (s = "Member") then Some Member
  else if bool_decide (s = "Viewer") then Some Viewer
  else None.

(** [bcrypt.hash(password, 12)] *)
Definition hashPassword (password : string) : M string :=
  n <- gets drawn ;;
  modify (set_drawn S) ;;;
  ret (bcrypt_hash n password).

(** [src/middleware/auth.ts]: [requireAdmin], on a request as an earlier
    middleware left it ([req.userId] and [req.user] may be unset); [None]
    stands for the call of [next()]. *)
Definition requireAdmin (req : Request) (reqUserId : option uuid)
    (reqUser : option user_row) : M (option Response) :=
  match reqUser with
  | Some u =>
      if negb (bool_decide (global_status_of u = ADMIN))
      then
        log security "Unauthorized admin access attempt" reqUserId (ip req)
          "UNAUTHORIZED_ADMIN_ACCESS" ;;;
        ret (Some (error_response 403 "Forbidden: Admin access required"))
      else ret None
  | None =>
      log security "Unauthorized admin access attempt" reqUserId (ip req)
        "UNAUTHORIZED_ADMIN_ACCESS" ;;;
      ret (Some (error_response 403 "Forbidden: Admin access required"))
  end.

(** What [/refresh] sends back: an error, or a fresh pair of tokens. *)
Inductive refresh_body :=
| RefreshError (error : string)
| RefreshTokens (accessToken refreshToken : jwt).

Record RefreshResponse := {
  rr_status : Z;
  rr_cookies : list cookie_op;
  rr_body : refresh_body;
}.

(** [src/routes/auth.ts]: [router.post('/refresh', ...)] *)
Definition post_refresh (req : Request) : M RefreshResponse :=
  try_catch
    (let refreshToken := or_jwt (cookies_refreshToken req) (x_refresh_token req) in
     if negb (jwt_truthy refreshToken)
     then ret {| rr_status := 401; rr_cookies := [];
                 rr_body := RefreshError "No refresh token provided" |}
     else
       match refreshToken with
       | Some token =>
           payload <- jwt_verify token (refreshSecret config) ;;
           user <- getUserByEmail (jwt_email payload) ;;
           match user with
           | Some user =>
               if bool_decide (global_status_of user = BANNED)
               then ret {| rr_status := 401; rr_cookies := [];
                           rr_body := RefreshError "Invalid token" |}
               else
                 let newPayload := {| jwt_userId := id user; jwt_email := email user;
                                      jwt_globalStatus := global_status_of user |} in
                 newAccessToken <- generateAccessToken newPayload ;;
                 newRefreshToken <- generateRefreshToken newPayload ;;
                 log info "Token refreshed" (Some (id user)) (ip req) "TOKEN_REFRESHED" ;;;
                 ret {| rr_status := 200;
                        rr_cookies := [SetCookie "refreshToken" newRefreshToken];
                        rr_body := RefreshTokens newAccessToken newRefreshToken |}
           | None => ret {| rr_status := 401; rr_cookies := [];
                            rr_body := RefreshError "Invalid token" |}
           end
       | None => ret {| rr_status := 401; rr_cookies := [];
                        rr_body := RefreshError "No refresh token provided" |}
       end)
    (fun _ =>
       log error "Token refresh failed" None (ip req) "TOKEN_REFRESH_FAILURE" ;;;
       ret {| rr_status := 401; rr_cookies := [];
              rr_body := RefreshError "Invalid refresh token" |}).

(** [Query.getUser] *)
Definition getUser (i : uuid) (context : Context) : M (option user_row) :=
  authenticated context ;;;
  getUserById i.

(** [INSERT INTO users (email, password_hash, full_name) VALUES ...
    RETURNING *]: the id is generated, the status defaults to ACTIVE; the
    row is refused when the id or the email is taken. *)
Definition insert_user (e passwordHash name : string) : M user_row :=
  statement (fun σ =>
    let row := {| id := gen_random_uuid (drawn σ); email := e;
                  password_hash := passwordHash; full_name := name;
                  global_status_of := ACTIVE |} in
    if bool_decide (Exists (fun r => id r = id row \/ email r = e) (users σ))
    then (Throw (DatabaseError "duplicate key value violates unique constraint"),
          set_drawn S σ)
    else (Return row, set_users (fun l => (l ++ [row])%list) (set_drawn S σ))).

(** [Mutation.register]: the tokens it returns are the two literal mock
    strings. *)
Definition register (e password name : string) (context : Context)
    : M (jwt * jwt * user_row) :=
  existingUser <- getUserByEmail e ;;
  if defined existingUser
  then throw (GraphQLError "User with this email already exists")
  else
    passwordHash <- hashPassword password ;;
    u <- insert_user e passwordHash name ;;
    log info "User registered" (Some (id u)) (ipAddress context) "USER_REGISTERED" ;;;
    ret (Malformed "mock-access-token", Malformed "mock-refresh-token", u).

(** [Mutation.forgotPassword] *)
Definition forgotPassword (e : string) : M bool :=
  u <- getUserByEmail e ;;
  match u with
  | None => ret true
  | Some u =>
      log info "Password reset requested" (Some (id u)) None
        "PASSWORD_RESET_REQUESTED" ;;;
      ret true
  end.

(** [UPDATE users SET password_hash = $1 WHERE id = $2] *)
Definition update_password_hash (passwordHash : string) (target : uuid) : M unit :=
  statement (modify (set_users (map (fun r =>
    if bool_decide (id r = target)
    then {| id := id r; email := email r; password_hash := passwordHash;
            full_name := full_name r; global_status_of := global_status_of r |}
    else r)))).

(** [UPDATE users SET global_status = ... WHERE id = $1] *)
Definition update_global_status (s : global_status) (target : uuid) : M unit :=
  statement (modify (set_users (map (fun r =>
    if bool_decide (id r = target)
    then {| id := id r; email := email r; password_hash := password_hash r;
            full_name := full_name r; global_status_of := s |}
    else r)))).

(** [Mutation.updatePassword] *)
Definition updatePassword (oldPassword newPassword : string) (context : Context)
    : M bool :=
  caller <- authenticated context ;;
  u <- getUserById caller ;;
  match u with
  | None => throw (TypeError "undefined is not an object (evaluating 'user.password_hash')")
  | Some u =>
      isValid <- comparePassword oldPassword (password_hash u) ;;
      if negb isValid
      then throw (GraphQLError "Invalid old password")
      else
        newPasswordHash <- hashPassword newPassword ;;
        update_password_hash newPasswordHash caller ;;;
        log info "Password updated" (Some caller) (ipAddress context)
          "PASSWORD_UPDATED" ;;;
        ret true
  end.

(** The admin check that opens [banUser], [unbanUser] and
    [adminResetPassword]: the caller's row is read and its status compared
    with ADMIN. *)
Definition admin_only (caller : uuid) : M unit :=
  adminUser <- getUserById caller ;;
  match adminUser with
  | None =>
      throw (TypeError "undefined is not an object (evaluating 'adminUser.global_status')")
  | Some adminUser =>
      if negb (bool_decide (global_status_of adminUser = ADMIN))
      then throw (GraphQLError "Forbidden: Admin access required")
      else ret tt
  end.

(** [Mutation.banUser] *)
Definition banUser (target : uuid) (context : Context) : M bool :=
  caller <- authenticated context ;;
  admin_only caller ;;;
  update_global_status BANNED target ;;;
  log security "User banned" (Some caller) (ipAddress context) "USER_BANNED" ;;;
  ret true.

(** [Mutation.unbanUser] *)
Definition unbanUser (target : uuid) (context : Context) : M bool :=
  caller <- authenticated context ;;
  admin_only caller ;;;
  update_global_status ACTIVE target ;;;
  log security "User unbanned" (Some caller) (ipAddress context) "USER_UNBANNED" ;;;
  ret true.

(** [Mutation.adminResetPassword] *)
Definition adminResetPassword (target newPassword : string) (context : Context)
    : M bool :=
  caller <- authenticated context ;;
  admin_only caller ;;;
  newPasswordHash <- hashPassword newPassword ;;
  update_password_hash newPasswordHash target ;;;
  log security "Admin reset password" (Some caller) (ipAddress context)
    "ADMIN_RESET_PASSWORD" ;;;
  ret true.

(** [INSERT INTO workspaces (name, description, created_by) VALUES ...
    RETURNING *]: the id is generated; the row is refused when the id is
    taken or the creator is no user. *)
Definition insert_workspace (name : string) (description : option string)
    (createdBy : uuid) : M (uuid * workspace_row) :=
  statement (fun σ =>
    let i := gen_random_uuid (drawn σ) in
    let row := {| w_name := name; w_description := description;
                  w_created_by := createdBy |} in
    match workspaces σ !! i with
    | Some _ =>
        (Throw (DatabaseError "duplicate key value violates unique constraint"),
         set_drawn S σ)
    | None =>
        if user_exists σ createdBy
        then (Return (i, row), set_workspaces <[i := row]> (set_drawn S σ))
        else (Throw (DatabaseError "violates foreign key constraint"), set_drawn S σ)
    end).

(** [INSERT INTO workspace_members (workspace_id, user_id, role) VALUES
    ($1, $2, 'Owner')], with no conflict clause: a row with the same key is
    an error. *)
Definition insert_workspace_member_strict (workspaceId userId : uuid)
    (r : WorkspaceRole) : M unit :=
  statement (fun σ =>
    match workspace_members σ !! (workspaceId, userId) with
    | Some _ =>
        (Throw (DatabaseError "duplicate key value violates unique constraint"), σ)
    | None =>
        if bool_decide (is_Some (workspaces σ !! workspaceId)) && user_exists σ userId
        then (Return tt,
              set_workspace_members
                <[(workspaceId, userId) := {| wm_role := r; wm_joined_at := now σ |}]> σ)
        else (Throw (DatabaseError "violates foreign key constraint"), σ)
    end).

(** [Mutation.createWorkspace]; the workspace is returned with
    [members = []]. *)
Definition createWorkspace (name : string) (description : option string)
    (context : Context) : M (uuid * workspace_row) :=
  caller <- authenticated context ;;
  workspace <- insert_workspace name description caller ;;
  insert_workspace_member_strict (fst workspace) caller Owner ;;;
  log info "Workspace created" (Some caller) (ipAddress context) "WORKSPACE_CREATED" ;;;
  ret workspace.

(** [Mutation.removeWorkspaceMember] *)
Definition removeWorkspaceMember (workspaceId userId : uuid) (context : Context)
    : M bool :=
  caller <- authenticated context ;;
  isOwner <- checkWorkspaceOwnership caller workspaceId ;;
  if negb isOwner
  then throw (GraphQLError "Forbidden: Owner access required")
  else
    statement (modify (set_workspace_members (delete (workspaceId, userId)))) ;;;
    log info "Workspace member removed" (Some caller) (ipAddress context)
      "WORKSPACE_MEMBER_REMOVED" ;;;
    ret true.

(** [Mutation.updateWorkspaceMemberRole] *)
Definition updateWorkspaceMemberRole (workspaceId userId : uuid) (newRole : string)
    (context : Context) : M bool :=
  caller <- authenticated context ;;
  isOwner <- checkWorkspaceOwnership caller workspaceId ;;
  if negb isOwner
  then throw (GraphQLError "Forbidden: Owner access required")
  else
    statement
      (match WorkspaceRole_of_string newRole with
       | Some r =>
           modify (set_workspace_members
             (alter (fun row => {| wm_role := r; wm_joined_at := wm_joined_at row |})
                (workspaceId, userId)))
       | None => throw (DatabaseError "invalid input value for enum workspace_role")
       end) ;;;
    log info "Workspace member role updated" (Some caller) (ipAddress context)
      "WORKSPACE_MEMBER_ROLE_UPDATED" ;;;
    ret true.

(** [INSERT INTO projects (workspace_id, name, description, created_by)
    VALUES ... RETURNING *] *)
Definition insert_project (workspaceId : uuid) (name : string)
    (description : option string) (createdBy : uuid) : M (uuid * project_row) :=
  statement (fun σ =>
    let i := gen_random_uuid (drawn σ) in
    let row := {| workspace_id := workspaceId; p_name := name;
                  p_description := description; p_created_by := createdBy |} in
    match projects σ !! i with
    | Some _ =>
        (Throw (DatabaseError "duplicate key value violates unique constraint"),
         set_drawn S σ)
    | None =>
        if bool_decide (is_Some (workspaces σ !! workspaceId)) && user_exists σ createdBy
        then (Return (i, row), set_projects <[i := row]> (set_drawn S σ))
        else (Throw (DatabaseError "violates foreign key constraint"), set_drawn S σ)
    end).

(** [INSERT INTO project_members (project_id, user_id, role) VALUES
    ($1, $2, 'Project Lead')], with no conflict clause. *)
Definition insert_project_member_strict (projectId userId : uuid) (r : ProjectRole)
    : M unit :=
  statement (fun σ =>
    match project_members σ !! (projectId, userId) with
    | Some _ =>
        (Throw (DatabaseError "duplicate key value violates unique constraint"), σ)
    | None =>
        if bool_decide (is_Some (projects σ !! projectId)) && user_exists σ userId
        then (Return tt,
              set_project_members
                <[(projectId, userId) := {| pm_role := r; pm_joined_at := now σ |}]> σ)
        else (Throw (DatabaseError "violates foreign key constraint"), σ)
    end).

(** [Mutation.createProject]; the project is returned with [members = []]
    and [tasks = []]. *)
Definition createProject (workspaceId : uuid) (name : string)
    (description : option string) (context : Context) : M (uuid * project_row) :=
  caller <- authenticated context ;;
  requireWorkspaceAccess caller (Some workspaceId) Member ;;;
  project <- insert_project workspaceId name description caller ;;
  insert_project_member_strict (fst project) caller ProjectLead ;;;
  log info "Project created" (Some caller) (ipAddress context) "PROJECT_CREATED" ;;;
  ret project.

(** [Mutation.updateProject]; arguments the client leaves out are [None]. *)
Definition updateProject (projectId : uuid) (newName newDescription : option string)
    (context : Context) : M (option project_row) :=
  caller <- authenticated context ;;
  isLead <- checkProjectLeadAccess caller projectId ;;
  if negb isLead
  then throw (GraphQLError "Forbidden: Project Lead access required")
  else
    if negb (defined newName || defined newDescription)
    then query (SelectProject projectId) (gets (fun σ => projects σ !! projectId))
    else
      statement (
        modify (set_projects (alter (fun row =>
          {| workspace_id := workspace_id row;
             p_name := default (p_name row) newName;
             p_description := if defined newDescription then newDescription
                              else p_description row;
             p_created_by := p_created_by row |}) projectId)) ;;;
        gets (fun σ => projects σ !! projectId)).

(** [DELETE FROM projects WHERE id = $1]: the deletion of a project row
    cascades to its memberships, to its tasks and to the assignments of
    those tasks. *)
Definition delete_project (projectId : uuid) : M unit :=
  statement (modify (fun σ =>
    match projects σ !! projectId with
    | Some _ =>
        set_task_assignments
          (filter (fun kv : uuid * uuid * timestamp =>
             project_id <$> tasks σ !! kv.1.1 <> Some projectId))
          (set_tasks (filter (fun kv : uuid * task_row => project_id kv.2 <> projectId))
             (set_project_members
                (filter (fun kv : uuid * uuid * project_member_row => kv.1.1 <> projectId))
                (set_projects (delete projectId) σ)))
    | None => σ
    end)).

(** [Mutation.deleteProject] *)
Definition deleteProject (projectId : uuid) (context : Context) : M bool :=
  caller <- authenticated context ;;
  isLead <- checkProjectLeadAccess caller projectId ;;
  if negb isLead
  then throw (GraphQLError "Forbidden: Project Lead access required")
  else
    delete_project projectId ;;;
    log info "Project deleted" (Some caller) (ipAddress context) "PROJECT_DELETED" ;;;
    ret true.

(** [INSERT INTO tasks (project_id, title, description, created_by) VALUES
    ... RETURNING *]: the id is generated and the status defaults to TODO. *)
Definition insert_task (projectId : uuid) (ttitle : string) (description : option string)
    (createdBy : uuid) : M (uuid * task_row) :=
  statement (fun σ =>
    let i := gen_random_uuid (drawn σ) in
    let row := {| project_id := projectId; title := ttitle; t_description := description;
                  status := TODO; t_created_by := createdBy |} in
    match tasks σ !! i with
    | Some _ =>
        (Throw (DatabaseError "duplicate key value violates unique constraint"),
         set_drawn S σ)
    | None =>
        if bool_decide (is_Some (projects σ !! projectId)) && user_exists σ createdBy
        then (Return (i, row), set_tasks <[i := row]> (set_drawn S σ))
        else (Throw (DatabaseError "violates foreign key constraint"), set_drawn S σ)
    end).

(** The loop [for (const userId of assignedToIds)] of [createTask]:
    [INSERT INTO task_assignments ... ON CONFLICT DO NOTHING], then a
    notification, for every element of the list. *)
Fixpoint assign_and_notify (taskId : uuid) (notice : string) (assignedToIds : list uuid)
    : M unit :=
  match assignedToIds with
  | [] => ret tt
  | userId :: rest =>
      statement (fun σ =>
        match task_assignments σ !! (taskId, userId) with
        | Some _ => (Return tt, σ)
        | None =>
            if bool_decide (is_Some (tasks σ !! taskId)) && user_exists σ userId
            then (Return tt, set_task_assignments <[(taskId, userId) := now σ]> σ)
            else (Throw (DatabaseError "violates foreign key constraint"), σ)
        end) ;;;
      createNotification userId "Task Assigned" notice (Some taskId) (Some "Task") ;;;
      assign_and_notify taskId notice rest
  end.

(** [Mutation.createTask]; the task is returned with [assigned_to = []]. *)
Definition createTask (projectId : uuid) (ttitle : string) (description : option string)
    (assignedToIds : option (list uuid)) (context : Context) : M (uuid * task_row) :=
  caller <- authenticated context ;;
  requireProjectAccess caller projectId Contributor ;;;
  task <- insert_task projectId ttitle description caller ;;
  match assignedToIds with
  | Some ids =>
      assign_and_notify (fst task) ("You have been assigned to task: " ++ ttitle) ids
  | None => ret tt
  end ;;;
  log info "Task created" (Some caller) (ipAddress context) "TASK_CREATED" ;;;
  ret task.

(* ===================================================================== *)
(** ** A small store to run the handlers on *)
(* ===================================================================== *)

Definition alice : uuid := "a11ce000-0000-4000-8000-000000000001".
Definition bob : uuid := "b0b00000-0000-4000-8000-000000000002".
Definition carol : uuid := "ca401000-0000-4000-8000-000000000003".
Definition dave : uuid := "da7e0000-0000-4000-8000-000000000004".
Definition mallory : uuid := "4a110000-0000-4000-8000-000000000005".
Definition w1 : uuid := "11111111-0000-4000-8000-00000000000a".
Definition p1 : uuid := "22222222-0000-4000-8000-00000000000b".
Definition t1 : uuid := "33333333-0000-4000-8000-00000000000c".
Definition t2 : uuid := "33333333-0000-4000-8000-00000000000d".
Definition d1 : uuid := "44444444-0000-4000-8000-00000000000e".

Definition account (i e : string) (s : global_status) : user_row :=
  {| id := i; email := e; password_hash := "$2b$12$" ++ e; full_name := e;
     global_status_of := s |}.

(** Alice owns workspace [w1] and holds no role on its project [p1], which
    Dave leads.  Carol, a member of [w1], is banned.  Bob leads [p1] too
    but is no longer a member of [w1].  Mallory is a member of nothing.
    Task [t1] belongs to [p1]; no task has id [t2].  Alice has one live
    session, on device [d1]. *)
Definition demo : world :=
  {| users := [account alice "alice@example.com" ACTIVE;
               account bob "bob@example.com" ACTIVE;
               account carol "carol@example.com" BANNED;
               account dave "dave@example.com" ACTIVE;
               account mallory "mallory@example.com" ACTIVE];
     user_devices :=
       {[ (alice, d1) := {| ip_address := Some "10.0.0.7"; user_agent := None;
                            login_time := 900; is_revoked := false;
                            revoked_at := None |} ]};
     workspaces :=
       {[ w1 := {| w_name := "Platform"; w_description := None; w_created_by := alice |} ]};
     workspace_members :=
       <[ (w1, alice) := {| wm_role := Owner; wm_joined_at := 10 |} ]>
       (<[ (w1, carol) := {| wm_role := Member; wm_joined_at := 20 |} ]>
       {[ (w1, dave) := {| wm_role := Member; wm_joined_at := 30 |} ]});
     projects :=
       {[ p1 := {| workspace_id := w1; p_name := "Launch"; p_description := None;
                   p_created_by := dave |} ]};
     project_members :=
       <[ (p1, dave) := {| pm_role := ProjectLead; pm_joined_at := 40 |} ]>
       {[ (p1, bob) := {| pm_role := ProjectLead; pm_joined_at := 50 |} ]};
     tasks :=
       {[ t1 := {| project_id := p1; title := "Write the release notes";
                   t_description := None; status := TODO; t_created_by := dave |} ]};
     task_assignments := ∅;
     notifications := [];
     audit_logs := [];
     published := [];
     trace := [];
     now := 1000;
     drawn := 0 |}.

(** Stand-ins for the section's parameters: the spans of the default
    configuration, a password check that accepts the password the demo
    hashes were made from, a UUID source and an empty environment. *)
Definition demo_span (s : string) : Z :=
  if bool_decide (s = "15m") then 900
  else if bool_decide (s = "7d") then 604800
  else 3600.

Definition demo_bcrypt (password hash : string) : bool :=
  bool_decide (hash = "$2b$12$" ++ password).

Definition demo_uuid (n : nat) : uuid :=
  "55555555-0000-4000-8000-00000000000f".

Definition demo_env : gmap string string := ∅.

(** An environment that sets the two secrets apart. *)
Definition split_env : gmap string string :=
  <[ "JWT_SECRET" := "access-secret" ]> {[ "JWT_REFRESH_SECRET" := "refresh-secret" ]}.

Definition payload_of (u : user_row) : JWTPayload :=
  {| jwt_userId := id u; jwt_email := email u; jwt_globalStatus := global_status_of u |}.

(** An access token Carol obtained before she was banned, still valid at
    the demo clock. *)
Definition carol_token : jwt :=
  Signed (payload_of (account carol "carol@example.com" ACTIVE))
    "change-this-in-production" 1600.

(** The tokens [/login] hands Alice at the demo clock under the default
    configuration. *)
Definition alice_access_token : jwt :=
  Signed (payload_of (account alice "alice@example.com" ACTIVE))
    "change-this-in-production" 1900.

Definition alice_refresh_token : jwt :=
  Signed (payload_of (account alice "alice@example.com" ACTIVE))
    "change-this-in-production" 605800.

Definition bearer_request (t : jwt) : Request :=
  {| authorization := Some (Bearer t); cookies_refreshToken := None;
     x_refresh_token := None; x_device_id := None; ip := Some "10.0.0.9";
     header_user_agent := None; body_email := ""; body_password := "" |}.

Definition login_request : Request :=
  {| authorization := None; cookies_refreshToken := None; x_refresh_token := None;
     x_device_id := None; ip := Some "10.0.0.7"; header_user_agent := None;
     body_email := "alice@example.com"; body_password := "alice@example.com" |}.

(** The logout a browser sends after that login: the access token it was
    given, the refresh cookie, and no [x-device-id] header, since the
    device id never left the server. *)
Definition logout_request (accessToken refreshToken : jwt) : Request :=
  {| authorization := Some (Bearer accessToken);
     cookies_refreshToken := Some refreshToken; x_refresh_token := None;
     x_device_id := None; ip := Some "10.0.0.7"; header_user_agent := None;
     body_email := ""; body_password := "" |}.

(** The GraphQL context of a request authenticated as [caller]. *)
Definition context_of (caller : uuid) : Context :=
  {| userId := Some caller; user := None; ipAddress := Some "10.0.0.7";
     userAgent := None |}.

(** The demo store with one more user, Erin, who is an admin. *)
Definition erin : uuid := "e4140000-0000-4000-8000-000000000006".

Definition demo_admin : world :=
  set_users (fun l => (l ++ [account erin "erin@example.com" ADMIN])%list) demo.

(** Stand-ins for the two further parameters: three distinct ids that the
    demo store does not use, and a hash that [demo_bcrypt] accepts. *)
Definition demo_gen_uuid (n : nat) : uuid :=
  match n with
  | 0%nat => "66666666-0000-4000-8000-000000000010"
  | 1%nat => "66666666-0000-4000-8000-000000000011"
  | _ => "66666666-0000-4000-8000-000000000012"
  end.

Definition demo_hash (n : nat) (password : string) : string := "$2b$12$" ++ password.

(** The demo store after Alice's session on [d1] was revoked at 950. *)
Definition demo_revoked : world :=
  set_user_devices
    <[(alice, d1) := {| ip_address := Some "10.0.0.7"; user_agent := None;
                        login_time := 900; is_revoked := true;
                        revoked_at := Some 950 |}]> demo.

(** A request to [/refresh] that carries the token as cookie. *)
Definition refresh_request (t : jwt) : Request :=
  {| authorization := None; cookies_refreshToken := Some t; x_refresh_token := None;
     x_device_id := None; ip := Some "10.0.0.7"; header_user_agent := None;
     body_email := ""; body_password := "" |}.

(** Tokens of Erin and of Bob, valid at the demo clock under the default
    configuration. *)
Definition erin_token : jwt :=
  Signed (payload_of (account erin "erin@example.com" ADMIN))
    "change-this-in-production" 1900.

Definition bob_token : jwt :=
  Signed (payload_of (account bob "bob@example.com" ACTIVE))
    "change-this-in-production" 1900.

(* ===================================================================== *)
(** ** Who holds what, in a given store *)
(* ===================================================================== *)

(** The caller holds Project Lead on the project. *)
Definition project_lead (σ : world) (caller projectId : uuid) : Prop :=
  pm_role <$> project_members σ !! (projectId, caller) = Some ProjectLead.

(** The caller holds Owner on the workspace. *)
Definition workspace_owner (σ : world) (caller workspaceId : uuid) : Prop :=
  wm_role <$> workspace_members σ !! (workspaceId, caller) = Some Owner.

#[global] Instance project_lead_dec σ caller projectId :
  Decision (project_lead σ caller projectId).
Proof. unfold project_lead. apply _. Defined.

#[global] Instance workspace_owner_dec σ caller workspaceId :
  Decision (workspace_owner σ caller workspaceId).
Proof. unfold workspace_owner. apply _. Defined.

(** The caller holds Owner on the workspace the project belongs to. *)
Definition owner_of_parent (σ : world) (caller projectId : uuid) : Prop :=
  exists p, projects σ !! projectId = Some p /\ workspace_owner σ caller (workspace_id p).

(** The caller holds at least [minimumRole] on the workspace. *)
Definition workspace_access (σ : world) (caller workspaceId : uuid)
    (minimumRole : WorkspaceRole) : Prop :=
  exists row, workspace_members σ !! (workspaceId, caller) = Some row
              /\ workspace_roleHierarchy minimumRole <= workspace_roleHierarchy (wm_role row).

(** The caller holds at least [minimumRole] on the project. *)
Definition project_access (σ : world) (caller projectId : uuid)
    (minimumRole : ProjectRole) : Prop :=
  exists row, project_members σ !! (projectId, caller) = Some row
              /\ project_roleHierarchy minimumRole <= project_roleHierarchy (pm_role row).

(** The request context of an authenticated caller. *)
Definition caller_is (context : Context) (caller : uuid) : Prop :=
  userId context = Some caller /\ caller <> "".

(** An access check that answered, and granted access. *)
Definition passes {R} (o : outcome (access R)) : Prop :=
  exists a, o = Return a /\ hasAccess a = true.

(** A handler that ended by throwing. *)
Definition rejected {A} (o : outcome A) : Prop := exists e, o = Throw e.

Definition Unauthorized : exn := GraphQLError "Unauthorized".
Definition NotFound_task : exn := GraphQLError "Task not found".
Definition NotFound_project : exn := GraphQLError "Project not found".
Definition Forbidden : exn := GraphQLError "Forbidden".
Definition Forbidden_membership : exn :=
  GraphQLError "Forbidden: Project Lead or Workspace Owner access required".
Definition Forbidden_owner : exn := GraphQLError "Forbidden: Owner access required".
Definition PreconditionFailed : exn := GraphQLError "User must be a workspace member first".

(** The world after the statements [l] have been sent and nothing written. *)
Definition traced (l : list stmt) (σ : world) : world :=
  set_trace (fun t => (t ++ l)%list) σ.

(** The block [if (!isLead) { ... }] that [addProjectMember] and
    [removeProjectMember] both run after the lead check. *)
Definition ownership_fallback (caller projectId : uuid) (isLead : bool) : M unit :=
  if negb isLead
  then
    workspaceId <- select_project_workspace projectId ;;
    match workspaceId with
    | Some w =>
        if negb (truthy (Some w))
        then throw (GraphQLError "Project not found")
        else
          isWorkspaceOwner <- checkWorkspaceOwnership caller w ;;
          if negb isWorkspaceOwner
          then throw (GraphQLError
                 "Forbidden: Project Lead or Workspace Owner access required")
          else ret tt
    | None => throw (GraphQLError "Project not found")
    end
  else ret tt.

(** What the lead check followed by that block answers, and the statements
    it sends, read off the store. *)
Definition gate_outcome (σ : world) (caller projectId : uuid) : outcome unit * list stmt :=
  if bool_decide (project_lead σ caller projectId)
  then (Return tt, [SelectProjectLead projectId caller])
  else
    match projects σ !! projectId with
    | Some p =>
        if bool_decide (workspace_id p = "")
        then (Throw NotFound_project,
              [SelectProjectLead projectId caller; SelectProjectWorkspace projectId])
        else if bool_decide (workspace_owner σ caller (workspace_id p))
        then (Return tt,
              [SelectProjectLead projectId caller; SelectProjectWorkspace projectId;
               SelectWorkspaceOwner (workspace_id p) caller])
        else (Throw Forbidden_membership,
              [SelectProjectLead projectId caller; SelectProjectWorkspace projectId;
               SelectWorkspaceOwner (workspace_id p) caller])
    | None =>
        (Throw NotFound_project,
         [SelectProjectLead projectId caller; SelectProjectWorkspace projectId])
    end.

(** What [addProjectMember] does once the caller is through the gate. *)
Definition addProjectMember_body (projectId userId : uuid) (context : Context)
    (caller : uuid) : M bool :=
  workspaceId <- select_project_workspace projectId ;;
  a <- checkWorkspaceAccess userId workspaceId Viewer ;;
  if negb (hasAccess a)
  then throw (GraphQLError "User must be a workspace member first")
  else
    insert_project_member projectId userId Contributor ;;;
    log info "Project member added" (Some caller) (ipAddress context)
      "PROJECT_MEMBER_ADDED" ;;;
    ret true.

(** What [removeProjectMember] does once the caller is through the gate. *)
Definition removeProjectMember_body (projectId userId : uuid) (context : Context)
    (caller : uuid) : M bool :=
  query (DeleteProjectMember projectId userId)
    (modify (set_project_members (delete (projectId, userId)))) ;;;
  log info "Project member removed" (Some caller) (ipAddress context)
    "PROJECT_MEMBER_REMOVED" ;;;
  ret true.

(** Stored workspace ids are UUID texts, never the empty string. *)
Definition workspace_ids_wf (σ : world) : Prop :=
  forall projectId p, projects σ !! projectId = Some p -> workspace_id p <> "".

#[global] Instance workspace_ids_wf_dec σ : Decision (workspace_ids_wf σ).
Proof.
  exact (map_Forall_dec (fun (_ : uuid) (p : project_row) => workspace_id p <> "")
           (projects σ)).
Defined.

(** No statement of [l] asks the store about workspace ownership. *)
Definition no_ownership_query (l : list stmt) : Prop :=
  forall w c, SelectWorkspaceOwner w c ∉ l.

(** The two ways the membership gate turns a caller away. *)
Definition turned_away {A} (o : outcome A) : Prop :=
  o = Throw Forbidden_membership \/ o = Throw NotFound_project.

(** The request carries an access token that verifies at the store's clock. *)
Definition valid_access (σ : world) (req : Request) (payload : JWTPayload) : Prop :=
  exists exp,
    authorization req = Some (Bearer (Signed payload (secret config) exp)) /\ now σ < exp.

(** [σ'] differs from [σ] at most in the audit log and the trace. *)
Definition audit_only (σ σ' : world) : Prop :=
  users σ' = users σ /\ user_devices σ' = user_devices σ
  /\ workspaces σ' = workspaces σ /\ workspace_members σ' = workspace_members σ
  /\ projects σ' = projects σ /\ project_members σ' = project_members σ
  /\ tasks σ' = tasks σ /\ task_assignments σ' = task_assignments σ
  /\ notifications σ' = notifications σ /\ published σ' = published σ
  /\ now σ' = now σ /\ drawn σ' = drawn σ.

(** The request carries a refresh token, in the cookie or else in the
    [x-refresh-token] header, that verifies at the store's clock. *)
Definition valid_refresh (σ : world) (req : Request) (payload : JWTPayload) : Prop :=
  exists exp,
    or_jwt (cookies_refreshToken req) (x_refresh_token req)
    = Some (Signed payload (refreshSecret config) exp)
    /\ now σ < exp.

(** The first user row with the caller's id carries status ADMIN. *)
Definition admin (σ : world) (caller : uuid) : Prop :=
  exists a, head (filter (fun r => id r = caller) (users σ)) = Some a
            /\ global_status_of a = ADMIN.

(* ===================================================================== *)
(** ** Properties of the authorization service *)
(* ===================================================================== *)

(** Drop the section's parameters from a goal that does not mention them. *)
Ltac store_only :=
  try clear span; try clear bcrypt_compare; try clear randomUUID; try clear process_env.

Ltac run_handler :=
  unfold run, exec, query, bind, ret, throw, gets, modify, try_catch; simpl.

Lemma checkWorkspaceAccess_eq (σ : world) (caller : uuid) (w : uuid) (minimumRole : WorkspaceRole) :
  checkWorkspaceAccess caller (Some w) minimumRole σ
  = (Return
       match workspace_members σ !! (w, caller) with
       | Some row =>
           {| hasAccess := workspace_roleHierarchy (wm_role row)
                           >=? workspace_roleHierarchy minimumRole;
              role := Some (wm_role row) |}
       | None => {| hasAccess := false; role := None |}
       end,
     set_trace (fun t => (t ++ [SelectWorkspaceRole (Some w) caller])%list) σ).
Proof.
  unfold checkWorkspaceAccess, select_workspace_role. run_handler.
  destruct (workspace_members σ !! (w, caller)); reflexivity.
Qed.

(** C3.  [checkWorkspaceAccess] denies access, with no role, when the
    (user, workspace) pair has no membership row, whatever minimum is asked;
    with a row of role [r] it answers [level r >= level minimumRole]
    together with [r], under Owner = 3, Member = 2, Viewer = 1; hence a
    member whose role is at least the minimum passes. *)
Theorem checkWorkspaceAccess_spec (σ : world) (caller w : uuid) (minimumRole : WorkspaceRole) :
  (workspace_members σ !! (w, caller) = None ->
   run (checkWorkspaceAccess caller (Some w) minimumRole) σ
   = Return {| hasAccess := false; role := None |})
  /\ (forall row, workspace_members σ !! (w, caller) = Some row ->
      run (checkWorkspaceAccess caller (Some w) minimumRole) σ
      = Return {| hasAccess := bool_decide (workspace_roleHierarchy (wm_role row)
                                            >= workspace_roleHierarchy minimumRole);
                  role := Some (wm_role row) |})
  /\ (workspace_roleHierarchy Owner = 3 /\ workspace_roleHierarchy Member = 2
      /\ workspace_roleHierarchy Viewer = 1)
  /\ (forall row, workspace_members σ !! (w, caller) = Some row ->
      workspace_roleHierarchy (wm_role row) >= workspace_roleHierarchy minimumRole ->
      passes (run (checkWorkspaceAccess caller (Some w) minimumRole) σ)).
Proof.
  unfold run. rewrite checkWorkspaceAccess_eq. simpl.
  split; [|split; [|split; [|]]].
  - intros ->. reflexivity.
  - intros row ->. do 2 f_equal.
    rewrite Z.geb_leb.
    case_bool_decide; [apply Z.leb_le | apply Z.leb_gt]; lia.
  - repeat split.
  - intros row -> Hge. eexists. split; [reflexivity|]. simpl.
    rewrite Z.geb_leb. apply Z.leb_le. lia.
Qed.


Lemma checkProjectLeadAccess_eq (σ : world) (caller p : uuid) :
  checkProjectLeadAccess caller p σ
  = (Return (bool_decide (project_lead σ caller p)),
     set_trace (fun t => (t ++ [SelectProjectLead p caller])%list) σ).
Proof.
  unfold checkProjectLeadAccess, select_project_lead. run_handler. do 2 f_equal.
  case_bool_decide as H; unfold project_lead in H;
    destruct (project_members σ !! (p, caller)) as [[[] ?]|]; simpl in *;
    first [reflexivity | congruence].
Qed.

Lemma checkWorkspaceOwnership_eq (σ : world) (caller w : uuid) :
  checkWorkspaceOwnership caller w σ
  = (Return (bool_decide (workspace_owner σ caller w)),
     set_trace (fun t => (t ++ [SelectWorkspaceOwner w caller])%list) σ).
Proof.
  unfold checkWorkspaceOwnership, select_workspace_owner. run_handler. do 2 f_equal.
  case_bool_decide as H; unfold workspace_owner in H;
    destruct (workspace_members σ !! (w, caller)) as [[[] ?]|]; simpl in *;
    first [reflexivity | congruence].
Qed.

Lemma checkProjectAccess_eq (σ : world) (caller p : uuid) (minimumRole : ProjectRole) :
  checkProjectAccess caller p minimumRole σ
  = (Return
       match project_members σ !! (p, caller) with
       | Some row =>
           {| hasAccess := project_roleHierarchy (pm_role row)
                           >=? project_roleHierarchy minimumRole;
              role := Some (pm_role row) |}
       | None => {| hasAccess := false; role := None |}
       end,
     set_trace (fun t => (t ++ [SelectProjectRole p caller])%list) σ).
Proof.
  unfold checkProjectAccess, select_project_role. run_handler.
  destruct (project_members σ !! (p, caller)); reflexivity.
Qed.

Lemma checkWorkspaceAccess_undefined (σ : world) (caller : uuid) (minimumRole : WorkspaceRole) :
  checkWorkspaceAccess caller None minimumRole σ
  = (Return {| hasAccess := false; role := None |},
     set_trace (fun t => (t ++ [SelectWorkspaceRole None caller])%list) σ).
Proof. reflexivity. Qed.

Lemma authenticated_eq (context : Context) (caller : uuid) (σ : world) :
  caller_is context caller -> authenticated context σ = (Return caller, σ).
Proof.
  intros [H1 H2]. unfold authenticated. rewrite H1. simpl.
  rewrite bool_decide_false by assumption. reflexivity.
Qed.



Lemma traced_traced (l1 l2 : list stmt) (σ : world) :
  traced l2 (traced l1 σ) = traced (l1 ++ l2) σ.
Proof. unfold traced, set_trace. simpl. f_equal. apply eq_sym, app_assoc. Qed.

Lemma traced_one (a : stmt) (σ : world) :
  set_trace (fun t => (t ++ [a])%list) σ = traced [a] σ.
Proof. reflexivity. Qed.

Arguments checkWorkspaceAccess : simpl never.
Arguments checkProjectAccess : simpl never.
Arguments checkWorkspaceOwnership : simpl never.
Arguments checkProjectLeadAccess : simpl never.
Arguments log : simpl never.
Arguments insert_workspace_member : simpl never.
Arguments insert_project_member : simpl never.

Ltac norm_trace := rewrite ?traced_one, ?traced_traced; simpl app.

Lemma gate_eq (σ : world) (caller projectId : uuid) :
  (isLead <- checkProjectLeadAccess caller projectId ;;
   ownership_fallback caller projectId isLead) σ
  = (fst (gate_outcome σ caller projectId), traced (snd (gate_outcome σ caller projectId)) σ).
Proof.
  unfold bind at 1. rewrite checkProjectLeadAccess_eq.
  unfold gate_outcome, ownership_fallback.
  destruct (bool_decide (project_lead σ caller projectId)); simpl; [reflexivity|].
  unfold select_project_workspace. run_handler.
  destruct (projects σ !! projectId) as [p|]; simpl; [|norm_trace; reflexivity].
  destruct (bool_decide (workspace_id p = "")); simpl; [norm_trace; reflexivity|].
  case_bool_decide as H; unfold workspace_owner in H;
    destruct (workspace_members σ !! (workspace_id p, caller)) as [[[] ?]|];
    simpl in *; try congruence; norm_trace; reflexivity.
Qed.

Lemma bind_assoc {A B C} (m : M A) (f : A -> M B) (g : B -> M C) (σ : world) :
  bind m (fun x => bind (f x) g) σ = bind (bind m f) g σ.
Proof. unfold bind. destruct (m σ) as [[a|e] σ']; reflexivity. Qed.

Lemma addProjectMember_eq (σ : world) (projectId target : uuid) (context : Context)
    (caller : uuid) :
  caller_is context caller ->
  addProjectMember projectId target context σ
  = match fst (gate_outcome σ caller projectId) with
    | Return _ =>
        addProjectMember_body projectId target context caller
          (traced (snd (gate_outcome σ caller projectId)) σ)
    | Throw e => (Throw e, traced (snd (gate_outcome σ caller projectId)) σ)
    end.
Proof.
  intros Hc.
  change (addProjectMember projectId target context)
    with (c <- authenticated context ;;
          isLead <- checkProjectLeadAccess c projectId ;;
          ownership_fallback c projectId isLead ;;;
          addProjectMember_body projectId target context c).
  unfold bind at 1. rewrite (authenticated_eq _ _ _ Hc).
  rewrite bind_assoc. unfold bind at 1. rewrite gate_eq.
  destruct (gate_outcome σ caller projectId).1; reflexivity.
Qed.

Lemma removeProjectMember_eq (σ : world) (projectId target : uuid) (context : Context)
    (caller : uuid) :
  caller_is context caller ->
  removeProjectMember projectId target context σ
  = match fst (gate_outcome σ caller projectId) with
    | Return _ =>
        removeProjectMember_body projectId target context caller
          (traced (snd (gate_outcome σ caller projectId)) σ)
    | Throw e => (Throw e, traced (snd (gate_outcome σ caller projectId)) σ)
    end.
Proof.
  intros Hc.
  change (removeProjectMember projectId target context)
    with (c <- authenticated context ;;
          isLead <- checkProjectLeadAccess c projectId ;;
          ownership_fallback c projectId isLead ;;;
          removeProjectMember_body projectId target context c).
  unfold bind at 1. rewrite (authenticated_eq _ _ _ Hc).
  rewrite bind_assoc. unfold bind at 1. rewrite gate_eq.
  destruct (gate_outcome σ caller projectId).1; reflexivity.
Qed.

(** The gate lets the caller through exactly when the caller is Project
    Lead or owns the parent workspace. *)
Lemma gate_outcome_passes (σ : world) (caller projectId : uuid) :
  workspace_ids_wf σ ->
  (fst (gate_outcome σ caller projectId) = Return tt
   <-> project_lead σ caller projectId \/ owner_of_parent σ caller projectId)
  /\ (fst (gate_outcome σ caller projectId) <> Return tt ->
      turned_away (fst (gate_outcome σ caller projectId))).
Proof.
  store_only.
  intros Hwf. unfold gate_outcome, owner_of_parent, turned_away.
  case_bool_decide as Hlead; simpl.
  { split; [tauto | congruence]. }
  destruct (projects σ !! projectId) as [p|] eqn:Hp; simpl.
  2: { split; [|tauto]. split; [discriminate|]. intros [?|(p & ? & _)]; [tauto|discriminate]. }
  rewrite bool_decide_false by eauto.
  case_bool_decide as Hown; simpl.
  - split; [|congruence]. split; [|reflexivity]. intros _. right. eauto.
  - split; [|tauto]. split; [discriminate|].
    intros [?|(p' & Hp' & ?)]; [tauto|]. congruence.
Qed.

Lemma addProjectMember_body_precondition (σ : world) (projectId target : uuid)
    (context : Context) (caller : uuid) :
  (forall p, projects σ !! projectId = Some p ->
             workspace_members σ !! (workspace_id p, target) = None) ->
  addProjectMember_body projectId target context caller σ
  = (Throw PreconditionFailed,
     traced [SelectProjectWorkspace projectId;
             SelectWorkspaceRole (workspace_id <$> projects σ !! projectId) target] σ).
Proof.
  intros Hnone.
  unfold addProjectMember_body, select_project_workspace, checkWorkspaceAccess,
    select_workspace_role.
  run_handler.
  destruct (projects σ !! projectId) as [p|] eqn:Hp; simpl.
  - rewrite (Hnone p eq_refl). simpl. norm_trace. reflexivity.
  - norm_trace. reflexivity.
Qed.

Ltac split_cases :=
  repeat match goal with
         | |- context [ ?m !! ?k ] => destruct (m !! k) eqn:?; simpl
         | |- context [ bool_decide ?P ] => destruct (bool_decide P) eqn:?; simpl
         | |- context [ user_exists ?s ?u ] => destruct (user_exists s u) eqn:?; simpl
         | |- context [ ?a >=? ?b ] => destruct (a >=? b) eqn:?; simpl
         | |- context [ truthy ?a ] => destruct (truthy a) eqn:?; simpl
         | |- context [ userId ?c ] => destruct (userId c) eqn:?; simpl
         | |- context [ decide ?P ] => destruct (decide P); simpl
         end.

Ltac trace_suffix :=
  eexists; split;
  [ simpl; try (match goal with H : trace _ = _ |- _ => rewrite H end); simpl;
    rewrite <- ?app_assoc; simpl; reflexivity
  | intros ? ?; rewrite ?elem_of_cons, elem_of_nil; intros ?; intuition discriminate ].

(** [log] never throws and writes nothing but an audit row. *)
Lemma log_facts (level : log_level) (message : string) (u i : option string)
    (action : string) (σ : world) :
  exists σ',
    log level message u i action σ = (Return tt, σ')
    /\ trace σ' = (trace σ ++ [InsertAuditLog action])%list
    /\ users σ' = users σ
    /\ user_devices σ' = user_devices σ
    /\ workspace_members σ' = workspace_members σ
    /\ project_members σ' = project_members σ
    /\ now σ' = now σ.
Proof.
  unfold log. run_handler.
  match goal with |- context [if ?b then _ else _] => destruct b end;
    eexists; repeat split.
Qed.

Ltac step_log :=
  match goal with
  | |- context [log ?a ?b ?c ?d ?e ?s] =>
      let σ' := fresh "σ" in
      let E := fresh "Elog" in
      destruct (log_facts a b c d e s) as (σ' & E & ? & ? & ? & ? & ? & ?);
      rewrite E; simpl
  end.

Lemma addProjectMember_body_facts (σ : world) (projectId target : uuid)
    (context : Context) (caller : uuid) :
  ~ turned_away (fst (addProjectMember_body projectId target context caller σ))
  /\ exists l,
       trace (snd (addProjectMember_body projectId target context caller σ))
       = (trace σ ++ l)%list
       /\ no_ownership_query l.
Proof.
  store_only.
  unfold addProjectMember_body, select_project_workspace, checkWorkspaceAccess,
    select_workspace_role, insert_project_member, turned_away, no_ownership_query.
  run_handler. split_cases; try step_log.
  all: split; [intros [?|?]; discriminate | ].
  all: trace_suffix.
Qed.

Lemma removeProjectMember_body_facts (σ : world) (projectId target : uuid)
    (context : Context) (caller : uuid) :
  fst (removeProjectMember_body projectId target context caller σ) = Return true
  /\ exists l,
       trace (snd (removeProjectMember_body projectId target context caller σ))
       = (trace σ ++ l)%list
       /\ no_ownership_query l.
Proof.
  store_only.
  unfold removeProjectMember_body, no_ownership_query.
  run_handler. step_log.
  split; [reflexivity | trace_suffix].
Qed.


Lemma gate_outcome_trace (σ : world) (caller projectId : uuid) :
  exists rest,
    snd (gate_outcome σ caller projectId) = SelectProjectLead projectId caller :: rest
    /\ (project_lead σ caller projectId -> rest = []).
Proof.
  store_only.
  unfold gate_outcome. case_bool_decide as Hlead; simpl.
  { eexists. split; [reflexivity|]. reflexivity. }
  destruct (projects σ !! projectId) as [p|]; simpl.
  2: { eexists. split; [reflexivity|]. tauto. }
  destruct (bool_decide (workspace_id p = "")); simpl.
  { eexists. split; [reflexivity|]. tauto. }
  destruct (bool_decide (workspace_owner σ caller (workspace_id p))); simpl;
    eexists; (split; [reflexivity|]); tauto.
Qed.

Lemma turned_away_dec_gate (σ : world) (caller projectId : uuid) :
  fst (gate_outcome σ caller projectId) = Return tt
  \/ turned_away (fst (gate_outcome σ caller projectId)).
Proof.
  unfold gate_outcome, turned_away.
  repeat (case_bool_decide || case_match); simpl; auto.
Qed.

(** C4.  For [addProjectMember] and [removeProjectMember] an authenticated
    caller gets through the authorization gate if and only if the caller
    holds Project Lead on the project or Owner on the project's parent
    workspace.  The first statement either mutation sends is the
    project-lead check, and a workspace-ownership check is sent afterwards
    only when the lead check found no Project Lead row. *)
Theorem membership_gate_spec (σ : world) (projectId target : uuid) (context : Context)
    (caller : uuid) :
  caller_is context caller ->
  workspace_ids_wf σ ->
  (~ turned_away (run (addProjectMember projectId target context) σ)
   <-> project_lead σ caller projectId \/ owner_of_parent σ caller projectId)
  /\ (~ turned_away (run (removeProjectMember projectId target context) σ)
      <-> project_lead σ caller projectId \/ owner_of_parent σ caller projectId)
  /\ (exists rest,
        trace (exec (addProjectMember projectId target context) σ)
        = (trace σ ++ SelectProjectLead projectId caller :: rest)%list
        /\ ((exists w, SelectWorkspaceOwner w caller ∈ rest)
            -> ~ project_lead σ caller projectId))
  /\ (exists rest,
        trace (exec (removeProjectMember projectId target context) σ)
        = (trace σ ++ SelectProjectLead projectId caller :: rest)%list
        /\ ((exists w, SelectWorkspaceOwner w caller ∈ rest)
            -> ~ project_lead σ caller projectId)).
Proof.
  store_only.
  intros Hc Hwf.
  destruct (gate_outcome_passes σ caller projectId Hwf) as [Hiff Haway].
  destruct (gate_outcome_trace σ caller projectId) as (rest & Hrest & Hlead).
  pose proof (addProjectMember_body_facts
                (traced (snd (gate_outcome σ caller projectId)) σ)
                projectId target context caller) as (Hadd & la & Hla & Hna).
  pose proof (removeProjectMember_body_facts
                (traced (snd (gate_outcome σ caller projectId)) σ)
                projectId target context caller) as (Hrem & lr & Hlr & Hnr).
  unfold run, exec.
  rewrite (addProjectMember_eq _ _ _ _ _ Hc), (removeProjectMember_eq _ _ _ _ _ Hc).
  rewrite Hrest in *.
  destruct (turned_away_dec_gate σ caller projectId) as [Hok|Hno].
  - rewrite Hok in *. rewrite Hrem, Hla, Hlr. simpl.
    assert (Hauth : project_lead σ caller projectId \/ owner_of_parent σ caller projectId)
      by (apply Hiff; reflexivity).
    split; [tauto|]. split.
    { split; [tauto|]. intros _ [?|?]; discriminate. }
    split.
    + exists (rest ++ la)%list. split.
      { rewrite <- app_assoc. reflexivity. }
      intros [w Hw] Hl. rewrite (Hlead Hl) in Hw. simpl in Hw. exact (Hna _ _ Hw).
    + exists (rest ++ lr)%list. split.
      { rewrite <- app_assoc. reflexivity. }
      intros [w Hw] Hl. rewrite (Hlead Hl) in Hw. simpl in Hw. exact (Hnr _ _ Hw).
  - assert (Hne : fst (gate_outcome σ caller projectId) <> Return tt).
    { intros E. rewrite E in Hno. destruct Hno; discriminate. }
    assert (Hnauth : ~ (project_lead σ caller projectId \/ owner_of_parent σ caller projectId))
      by (intros H; apply Hne, Hiff, H).
    destruct (fst (gate_outcome σ caller projectId)) as [[]|e] eqn:Eg; [congruence|].
    simpl.
    assert (Hno' : @turned_away bool (Throw e)).
    { destruct Hno as [H|H]; injection H as ->; [left|right]; reflexivity. }
    split; [tauto|]. split; [tauto|].
    split; exists rest; (split; [reflexivity|]); intros _ Hl; apply Hnauth; auto.
Qed.

(** C5.  For every authorized caller (Project Lead, or Owner of the parent
    workspace), [addProjectMember] on a target with no membership row in
    the project's parent workspace throws the precondition error, which is
    not a permissions error, and the table of project memberships is left
    as it was. *)
Theorem addProjectMember_precondition (σ : world) (projectId target : uuid)
    (context : Context) (caller : uuid) :
  caller_is context caller ->
  workspace_ids_wf σ ->
  project_lead σ caller projectId \/ owner_of_parent σ caller projectId ->
  (forall p, projects σ !! projectId = Some p ->
             workspace_members σ !! (workspace_id p, target) = None) ->
  run (addProjectMember projectId target context) σ = Throw PreconditionFailed
  /\ PreconditionFailed <> Forbidden_membership
  /\ PreconditionFailed <> Forbidden_owner
  /\ (forall r, PreconditionFailed <> insufficient_permissions r)
  /\ project_members (exec (addProjectMember projectId target context) σ)
     = project_members σ.
Proof.
  intros Hc Hwf Hauth Hnone.
  destruct (gate_outcome_passes σ caller projectId Hwf) as [Hiff _].
  apply Hiff in Hauth.
  unfold run, exec. rewrite (addProjectMember_eq _ _ _ _ _ Hc), Hauth.
  rewrite addProjectMember_body_precondition by exact Hnone.
  repeat split; try discriminate.
Qed.

Lemma addWorkspaceMember_frame (σ : world) (w target : uuid) (context : Context)
    (row : workspace_member_row) :
  workspace_members σ !! (w, target) = Some row ->
  workspace_members (exec (addWorkspaceMember w target context) σ) = workspace_members σ.
Proof.
  intros Hrow.
  unfold exec, addWorkspaceMember, authenticated, checkWorkspaceOwnership,
    select_workspace_owner, insert_workspace_member.
  run_handler.
  destruct (userId context) as [c|]; simpl; [|reflexivity].
  destruct (bool_decide (c = "")); simpl; [reflexivity|].
  destruct (workspace_members σ !! (w, c)) as [[[] ?]|]; simpl; try reflexivity.
  rewrite Hrow. step_log. assumption.
Qed.

Lemma addWorkspaceMember_existing (σ : world) (w target : uuid) (context : Context)
    (row : workspace_member_row) (caller : uuid) :
  workspace_members σ !! (w, target) = Some row ->
  caller_is context caller ->
  workspace_owner σ caller w ->
  run (addWorkspaceMember w target context) σ = Return true.
Proof.
  intros Hrow Hc Hown.
  unfold run, addWorkspaceMember. unfold bind at 1. rewrite (authenticated_eq _ _ _ Hc).
  unfold bind at 1. rewrite checkWorkspaceOwnership_eq.
  rewrite bool_decide_true by assumption. simpl negb. cbv iota.
  unfold insert_workspace_member. run_handler. rewrite Hrow. step_log. reflexivity.
Qed.

Lemma addProjectMember_body_frame (σ : world) (projectId target : uuid)
    (context : Context) (caller : uuid) (row : project_member_row) :
  project_members σ !! (projectId, target) = Some row ->
  project_members (snd (addProjectMember_body projectId target context caller σ))
  = project_members σ.
Proof.
  intros Hrow.
  unfold addProjectMember_body, select_project_workspace, checkWorkspaceAccess,
    select_workspace_role, insert_project_member.
  run_handler.
  split_cases; try step_log; first [reflexivity | assumption | congruence].
Qed.

Lemma addProjectMember_body_existing (σ : world) (projectId target : uuid)
    (context : Context) (caller : uuid) (row : project_member_row) (p : project_row) :
  project_members σ !! (projectId, target) = Some row ->
  projects σ !! projectId = Some p ->
  is_Some (workspace_members σ !! (workspace_id p, target)) ->
  fst (addProjectMember_body projectId target context caller σ) = Return true.
Proof.
  intros Hrow Hp [m Hm].
  unfold addProjectMember_body, select_project_workspace, checkWorkspaceAccess,
    select_workspace_role, insert_project_member.
  run_handler. rewrite Hp. simpl. rewrite Hm. simpl.
  destruct (wm_role m); simpl; rewrite Hrow; step_log; reflexivity.
Qed.

Lemma unauthenticated_addProjectMember (σ : world) (projectId target : uuid)
    (context : Context) :
  (forall caller, ~ caller_is context caller) ->
  addProjectMember projectId target context σ = (Throw Unauthorized, σ).
Proof.
  intros Hno. unfold addProjectMember, authenticated, caller_is in *. unfold bind at 1.
  destruct (userId context) as [c|]; [|reflexivity].
  simpl. case_bool_decide as Hc; [reflexivity|].
  exfalso. apply (Hno c). auto.
Qed.

Lemma caller_is_dec (context : Context) :
  (exists caller, caller_is context caller) \/ (forall caller, ~ caller_is context caller).
Proof.
  unfold caller_is. destruct (userId context) as [c|].
  - destruct (decide (c = "")) as [->|Hne].
    + right. intros c [[= <-] H]. congruence.
    + left. eauto.
  - right. intros c [[=] _].
Qed.

Lemma addProjectMember_frame (σ : world) (projectId target : uuid) (context : Context)
    (row : project_member_row) :
  project_members σ !! (projectId, target) = Some row ->
  project_members (exec (addProjectMember projectId target context) σ)
  = project_members σ.
Proof.
  intros Hrow. unfold exec.
  destruct (caller_is_dec context) as [[caller Hc]|Hno].
  - rewrite (addProjectMember_eq _ _ _ _ _ Hc).
    destruct (fst (gate_outcome σ caller projectId)); [|reflexivity].
    rewrite (addProjectMember_body_frame _ _ _ _ _ row) by exact Hrow. reflexivity.
  - rewrite unauthenticated_addProjectMember by exact Hno. reflexivity.
Qed.

(** C10, amended.  When the target already holds a membership in the
    workspace (respectively the project), [addWorkspaceMember]
    (respectively [addProjectMember]) leaves the membership table, and so
    the existing row and its role, unchanged, whatever the outcome of the
    call.  The mutation returns [true] when the call passes its guards: the
    caller owns the workspace; respectively the caller is Project Lead or
    owns the parent workspace, and the target is a member of the project's
    parent workspace. *)
Theorem add_member_keeps_existing_row (σ : world) (context : Context) :
  (forall w target row,
     workspace_members σ !! (w, target) = Some row ->
     workspace_members (exec (addWorkspaceMember w target context) σ)
     = workspace_members σ
     /\ (forall caller,
           caller_is context caller ->
           workspace_owner σ caller w ->
           run (addWorkspaceMember w target context) σ = Return true))
  /\ (forall projectId target row,
        project_members σ !! (projectId, target) = Some row ->
        project_members (exec (addProjectMember projectId target context) σ)
        = project_members σ
        /\ (forall caller p,
              caller_is context caller ->
              workspace_ids_wf σ ->
              project_lead σ caller projectId \/ owner_of_parent σ caller projectId ->
              projects σ !! projectId = Some p ->
              is_Some (workspace_members σ !! (workspace_id p, target)) ->
              run (addProjectMember projectId target context) σ = Return true)).
Proof.
  split.
  - intros w target row Hrow. split.
    + exact (addWorkspaceMember_frame _ _ _ _ _ Hrow).
    + intros caller Hc Hown. exact (addWorkspaceMember_existing _ _ _ _ _ _ Hrow Hc Hown).
  - intros projectId target row Hrow. split.
    + exact (addProjectMember_frame _ _ _ _ _ Hrow).
    + intros caller p Hc Hwf Hauth Hp Hmem.
      destruct (gate_outcome_passes σ caller projectId Hwf) as [Hiff _].
      apply Hiff in Hauth.
      unfold run. rewrite (addProjectMember_eq _ _ _ _ _ Hc), Hauth.
      exact (addProjectMember_body_existing
               (traced (snd (gate_outcome σ caller projectId)) σ)
               _ _ _ _ row p Hrow Hp Hmem).
Qed.

(** C2.  [updateProjectMemberRole] hands the project id to the ownership
    check.  A caller who is not Project Lead is therefore refused unless
    [workspace_members] has an Owner row for the caller under the project's
    own id; owning the project's parent workspace does not help, although
    it lets the same caller through [addProjectMember] and
    [removeProjectMember]. *)
Theorem updateProjectMemberRole_refuses_parent_owner (σ : world) (projectId target : uuid)
    (newRole : string) (context : Context) (caller : uuid) :
  caller_is context caller ->
  workspace_ids_wf σ ->
  ~ project_lead σ caller projectId ->
  owner_of_parent σ caller projectId ->
  ~ workspace_owner σ caller projectId ->
  run (updateProjectMemberRole projectId target newRole context) σ
  = Throw Forbidden_membership
  /\ run (removeProjectMember projectId target context) σ = Return true
  /\ ~ turned_away (run (addProjectMember projectId target context) σ).
Proof.
  intros Hc Hwf Hlead Hparent Hown.
  split; [|split].
  - unfold run, updateProjectMemberRole. unfold bind at 1.
    rewrite (authenticated_eq _ _ _ Hc).
    unfold bind at 1. rewrite checkProjectLeadAccess_eq.
    rewrite bool_decide_false by assumption. simpl negb. cbv iota.
    unfold bind at 1. unfold bind at 1. rewrite checkWorkspaceOwnership_eq.
    rewrite bool_decide_false by assumption. reflexivity.
  - destruct (gate_outcome_passes σ caller projectId Hwf) as [Hiff _].
    assert (Hok : fst (gate_outcome σ caller projectId) = Return tt) by (apply Hiff; auto).
    unfold run. rewrite (removeProjectMember_eq _ _ _ _ _ Hc), Hok.
    apply removeProjectMember_body_facts.
  - destruct (gate_outcome_passes σ caller projectId Hwf) as [Hiff _].
    assert (Hok : fst (gate_outcome σ caller projectId) = Return tt) by (apply Hiff; auto).
    unfold run. rewrite (addProjectMember_eq _ _ _ _ _ Hc), Hok.
    apply addProjectMember_body_facts.
Qed.

(** C6.  [isDeviceRevoked] answers [true] for every user and device: the
    stored flag is or-ed with the literal [true], so a session row that
    exists and is not marked revoked is reported revoked as well. *)
Theorem isDeviceRevoked_always_true (σ : world) (u deviceId : string) :
  run (isDeviceRevoked u deviceId) σ = Return true.
Proof.
  unfold isDeviceRevoked. run_handler.
  destruct (user_devices σ !! (u, deviceId)) as [[? ? ? [] ?]|]; reflexivity.
Qed.

Lemma requireProjectAccess_denied (σ : world) (caller projectId : uuid)
    (minimumRole : ProjectRole) :
  ~ project_access σ caller projectId minimumRole ->
  requireProjectAccess caller projectId minimumRole σ
  = (Throw (insufficient_permissions (ProjectRole_text minimumRole)),
     traced [SelectProjectRole projectId caller] σ).
Proof.
  intros Hno. unfold requireProjectAccess. unfold bind at 1.
  rewrite checkProjectAccess_eq.
  destruct (project_members σ !! (projectId, caller)) as [row|] eqn:Hrow; simpl.
  - destruct (Z.geb_spec (project_roleHierarchy (pm_role row))
                (project_roleHierarchy minimumRole)) as [Hge|Hlt]; simpl.
    + exfalso. apply Hno. exists row. split; [assumption | lia].
    + reflexivity.
  - reflexivity.
Qed.

Lemma requireWorkspaceAccess_denied (σ : world) (caller workspaceId : uuid)
    (minimumRole : WorkspaceRole) :
  ~ workspace_access σ caller workspaceId minimumRole ->
  requireWorkspaceAccess caller (Some workspaceId) minimumRole σ
  = (Throw (insufficient_permissions (WorkspaceRole_text minimumRole)),
     traced [SelectWorkspaceRole (Some workspaceId) caller] σ).
Proof.
  intros Hno. unfold requireWorkspaceAccess. unfold bind at 1.
  rewrite checkWorkspaceAccess_eq.
  destruct (workspace_members σ !! (workspaceId, caller)) as [row|] eqn:Hrow; simpl.
  - destruct (Z.geb_spec (workspace_roleHierarchy (wm_role row))
                (workspace_roleHierarchy minimumRole)) as [Hge|Hlt]; simpl.
    + exfalso. apply Hno. exists row. split; [assumption | lia].
    + reflexivity.
  - reflexivity.
Qed.

Lemma select_task_eq (σ : world) (taskId : uuid) :
  select_task taskId σ = (Return (tasks σ !! taskId), traced [SelectTask taskId] σ).
Proof. reflexivity. Qed.

Arguments select_task : simpl never.
Arguments requireProjectAccess : simpl never.
Arguments requireWorkspaceAccess : simpl never.

Lemma task_handlers_missing (σ : world) (taskId : uuid) (context : Context) (caller : uuid)
    (newTitle newDescription newStatus : option string) (ids : option (list uuid)) :
  caller_is context caller ->
  tasks σ !! taskId = None ->
  run (getTask taskId context) σ = Throw NotFound_task
  /\ run (updateTask taskId newTitle newDescription newStatus ids context) σ
     = Throw NotFound_task
  /\ run (deleteTask taskId context) σ = Throw NotFound_task.
Proof.
  intros Hc Hnone. unfold run, getTask, updateTask, deleteTask.
  repeat split.
  all: unfold bind at 1; rewrite (authenticated_eq _ _ _ Hc).
  all: unfold bind at 1; rewrite select_task_eq, Hnone; reflexivity.
Qed.

Lemma task_handlers_denied (σ : world) (taskId : uuid) (context : Context) (caller : uuid)
    (task : task_row)
    (newTitle newDescription newStatus : option string) (ids : option (list uuid)) :
  caller_is context caller ->
  tasks σ !! taskId = Some task ->
  (~ project_access σ caller (project_id task) ProjectViewer ->
   run (getTask taskId context) σ = Throw Forbidden)
  /\ (~ project_access σ caller (project_id task) Contributor ->
      run (updateTask taskId newTitle newDescription newStatus ids context) σ
      = Throw (insufficient_permissions "Contributor")
      /\ run (deleteTask taskId context) σ = Throw (insufficient_permissions "Contributor")).
Proof.
  intros Hc Htask. unfold run, getTask, updateTask, deleteTask.
  split; [intros Hno | intros Hno; split].
  all: unfold bind at 1; rewrite (authenticated_eq _ _ _ Hc).
  all: unfold bind at 1; rewrite select_task_eq, Htask.
  - unfold bind at 1. rewrite checkProjectAccess_eq.
    change (project_members (traced _ σ)) with (project_members σ).
    destruct (project_members σ !! (project_id task, caller)) as [row|] eqn:Hrow; simpl.
    + destruct (Z.geb_spec (project_roleHierarchy (pm_role row)) 1) as [Hge|Hlt]; simpl.
      * exfalso. apply Hno. exists row. split; [assumption | simpl; lia].
      * reflexivity.
    + reflexivity.
  - unfold bind at 1. rewrite requireProjectAccess_denied by exact Hno. reflexivity.
  - unfold bind at 1. rewrite requireProjectAccess_denied by exact Hno. reflexivity.
Qed.

(** C9.  The task handlers tell a caller without access whether a task
    exists.  [getWorkspace] and [getProject] check the caller's role
    first: a caller without the required role gets the permissions error
    whatever the workspace or project table holds.  [getTask],
    [updateTask] and [deleteTask] read the task row first: a missing task
    is reported as not found to every authenticated caller, and the
    authorization error comes only for a task that exists.  So for a task
    of a project the caller has no role on, each of the three answers one
    thing while the row is there and another once it is gone. *)
Theorem existence_then_authorization (σ : world) (context : Context) (caller : uuid) :
  caller_is context caller ->
  (forall w, ~ workspace_access σ caller w Viewer ->
             run (getWorkspace w context) σ = Throw (insufficient_permissions "Viewer"))
  /\ (forall p, ~ project_access σ caller p ProjectViewer ->
                run (getProject p context) σ
                = Throw (insufficient_permissions "Project Viewer"))
  /\ (forall t a b c d,
        tasks σ !! t = None ->
        run (getTask t context) σ = Throw NotFound_task
        /\ run (updateTask t a b c d context) σ = Throw NotFound_task
        /\ run (deleteTask t context) σ = Throw NotFound_task)
  /\ (forall t task a b c d,
        tasks σ !! t = Some task ->
        (~ project_access σ caller (project_id task) ProjectViewer ->
         run (getTask t context) σ = Throw Forbidden)
        /\ (~ project_access σ caller (project_id task) Contributor ->
            run (updateTask t a b c d context) σ
            = Throw (insufficient_permissions "Contributor")
            /\ run (deleteTask t context) σ
               = Throw (insufficient_permissions "Contributor")))
  /\ (forall t task a b c d,
        tasks σ !! t = Some task ->
        ~ project_access σ caller (project_id task) ProjectViewer ->
        let gone := set_tasks (delete t) σ in
        run (getTask t context) σ <> run (getTask t context) gone
        /\ run (updateTask t a b c d context) σ <> run (updateTask t a b c d context) gone
        /\ run (deleteTask t context) σ <> run (deleteTask t context) gone)
  /\ (forall w f,
        ~ workspace_access σ caller w Viewer ->
        run (getWorkspace w context) (set_workspaces f σ)
        = run (getWorkspace w context) σ)
  /\ (forall p f,
        ~ project_access σ caller p ProjectViewer ->
        run (getProject p context) (set_projects f σ) = run (getProject p context) σ).
Proof.
  intros Hc.
  assert (Hworkspace : forall τ w, ~ workspace_access τ caller w Viewer ->
            run (getWorkspace w context) τ = Throw (insufficient_permissions "Viewer")).
  { intros τ w Hno. unfold run, getWorkspace. unfold bind at 1.
    rewrite (authenticated_eq _ _ _ Hc).
    unfold bind at 1. rewrite requireWorkspaceAccess_denied by exact Hno. reflexivity. }
  assert (Hproject : forall τ p, ~ project_access τ caller p ProjectViewer ->
            run (getProject p context) τ
            = Throw (insufficient_permissions "Project Viewer")).
  { intros τ p Hno. unfold run, getProject. unfold bind at 1.
    rewrite (authenticated_eq _ _ _ Hc).
    unfold bind at 1. rewrite requireProjectAccess_denied by exact Hno. reflexivity. }
  split; [|split; [|split; [|split; [|split; [|split]]]]].
  - apply Hworkspace.
  - apply Hproject.
  - intros t a b c d Hnone. exact (task_handlers_missing σ t context caller a b c d Hc Hnone).
  - intros t task a b c d Htask.
    exact (task_handlers_denied σ t context caller task a b c d Hc Htask).
  - intros t task a b c d Htask Hviewer gone.
    assert (Hno : ~ project_access σ caller (project_id task) Contributor).
    { intros (row & Hrow & Hle). apply Hviewer. exists row. split; [exact Hrow|].
      destruct (pm_role row); simpl in *; lia. }
    destruct (task_handlers_denied σ t context caller task a b c d Hc Htask)
      as (Hget & Hrest).
    destruct (Hrest Hno) as (Hupd & Hdel).
    destruct (task_handlers_missing gone t context caller a b c d Hc
                (lookup_delete_eq (tasks σ) t)) as (Hget' & Hupd' & Hdel').
    rewrite (Hget Hviewer), Hupd, Hdel, Hget', Hupd', Hdel'.
    repeat split; discriminate.
  - intros w f Hno. rewrite (Hworkspace σ w Hno). apply Hworkspace. exact Hno.
  - intros p f Hno. rewrite (Hproject σ p Hno). apply Hproject. exact Hno.
Qed.

(* ===================================================================== *)
(** ** Properties of the credential store and the request gates *)
(* ===================================================================== *)

Lemma getUserById_eq (σ : world) (i : uuid) :
  getUserById i σ
  = (Return (head (filter (fun u => id u = i) (users σ))), traced [SelectUserById i] σ).
Proof. reflexivity. Qed.

Lemma verify_valid (σ : world) (payload : JWTPayload) (key : string) (exp : timestamp) :
  now σ < exp ->
  jwt_verify (Signed payload key exp) key σ = (Return payload, σ).
Proof.
  intros Hlt. unfold jwt_verify. rewrite bool_decide_true by reflexivity.
  run_handler. destruct (Z.geb_spec (now σ) exp); [lia | reflexivity].
Qed.

(** The REST middleware turns a banned user away with 403. *)
Lemma authenticate_banned (σ : world) (req : Request) (payload : JWTPayload)
    (exp : timestamp) (u : user_row) :
  authorization req = Some (Bearer (Signed payload (secret config) exp)) ->
  now σ < exp ->
  head (filter (fun r => id r = jwt_userId payload) (users σ)) = Some u ->
  global_status_of u = BANNED ->
  run (authenticate req) σ
  = Return (inl (error_response 403 "Access denied: Account is banned")).
Proof.
  intros Hh Hlt Hu Hb.
  unfold run, authenticate, try_catch. rewrite Hh.
  unfold verifyAccessToken. unfold bind at 1.
  cbn [startsWith_Bearer substring_7 negb]. rewrite (verify_valid _ _ _ _ Hlt).
  unfold bind at 1. rewrite getUserById_eq, Hu.
  rewrite bool_decide_true by assumption.
  unfold bind at 1. step_log. reflexivity.
Qed.

(** C1.  A banned user who presents a valid, unexpired access token is
    turned away with 403 by the REST middleware, but not by the GraphQL
    gate: [getContext] builds the same authenticated context as for any
    other user, and a resolver such as [me] then runs and answers. *)
Theorem graphql_lets_banned_user_in (σ : world) (req : Request) (payload : JWTPayload)
    (exp : timestamp) (u : user_row) :
  authorization req = Some (Bearer (Signed payload (secret config) exp)) ->
  now σ < exp ->
  jwt_userId payload <> "" ->
  head (filter (fun r => id r = jwt_userId payload) (users σ)) = Some u ->
  global_status_of u = BANNED ->
  run (authenticate req) σ
  = Return (inl (error_response 403 "Access denied: Account is banned"))
  /\ run (getContext req) σ
     = Return {| userId := Some (jwt_userId payload); user := Some u;
                 ipAddress := ip req; userAgent := header_user_agent req |}
  /\ run (context <- getContext req ;; me context) σ = Return (Some u).
Proof.
  intros Hh Hlt Hne Hu Hb.
  split; [exact (authenticate_banned σ req payload exp u Hh Hlt Hu Hb)|].
  assert (Hctx : getContext req σ
                 = (Return {| userId := Some (jwt_userId payload); user := Some u;
                              ipAddress := ip req; userAgent := header_user_agent req |},
                    traced [SelectUserById (jwt_userId payload)] σ)).
  { unfold getContext, try_catch. unfold bind at 1. rewrite Hh.
    unfold bind at 1.
    cbn [startsWith_Bearer substring_7 negb]. rewrite (verify_valid _ _ _ _ Hlt).
    unfold bind at 1. rewrite getUserById_eq, Hu. reflexivity. }
  split.
  - unfold run. rewrite Hctx. reflexivity.
  - unfold run. unfold bind at 1. rewrite Hctx.
    unfold me. unfold bind at 1.
    rewrite (authenticated_eq _ (jwt_userId payload)) by (split; [reflexivity | assumption]).
    rewrite getUserById_eq. simpl. rewrite Hu. reflexivity.
Qed.

(** A token verifies under the secret it was signed with, until it expires. *)
Lemma access_token_verifies (payload : JWTPayload) (σ : world) :
  0 < span (expiresIn config) ->
  run (t <- generateAccessToken payload ;; verifyAccessToken t) σ = Return payload.
Proof.
  intros Hpos. unfold run, generateAccessToken, verifyAccessToken, jwt_sign.
  unfold bind, gets. rewrite verify_valid by lia. reflexivity.
Qed.

(** C8, amended.  When the configured access and refresh secrets differ,
    [verifyAccessToken] rejects every token made by [generateRefreshToken]
    and [verifyRefreshToken] rejects every token made by
    [generateAccessToken]. *)
Theorem distinct_secrets_separate_tokens (payload : JWTPayload) (σ : world) :
  secret config <> refreshSecret config ->
  run (t <- generateRefreshToken payload ;; verifyAccessToken t) σ
  = Throw (JsonWebTokenError "invalid signature")
  /\ run (t <- generateAccessToken payload ;; verifyRefreshToken t) σ
     = Throw (JsonWebTokenError "invalid signature").
Proof.
  intros Hne.
  unfold run, generateRefreshToken, generateAccessToken, verifyAccessToken,
    verifyRefreshToken, jwt_sign, jwt_verify.
  unfold bind, gets.
  rewrite (bool_decide_false (refreshSecret config = secret config)) by congruence.
  rewrite (bool_decide_false (secret config = refreshSecret config)) by congruence.
  split; reflexivity.
Qed.

(** [/logout] touches no session row but the one named by the
    [x-device-id] header, or by the placeholder when the header is absent. *)
Lemma logout_spares_other_devices (σ : world) (req : AuthRequest) (deviceId : string) :
  deviceId <> or_default (x_device_id (request req)) "unknown" ->
  user_devices (exec (logout_handler req) σ) !! (req_userId req, deviceId)
  = user_devices σ !! (req_userId req, deviceId).
Proof.
  intros Hne. unfold exec, logout_handler, revokeDevice, try_catch.
  run_handler.
  destruct (jwt_truthy _); simpl; step_log.
  - match goal with H : user_devices _ = _ |- _ => rewrite H end. simpl.
    apply lookup_alter_ne. congruence.
  - match goal with H : user_devices _ = _ |- _ => rewrite H end. reflexivity.
Qed.

Lemma found_user_exists (σ : world) (P : user_row -> Prop) `{forall r, Decision (P r)}
    (u : user_row) :
  head (filter P (users σ)) = Some u -> user_exists σ (id u) = true.
Proof.
  intros Hu. unfold user_exists. apply bool_decide_eq_true. apply Exists_exists.
  exists u. split; [|reflexivity].
  apply head_Some_elem_of in Hu. apply list_elem_of_filter in Hu. apply Hu.
Qed.

(** A login with good credentials: what it answers and what it records. *)
Lemma post_login_accepted (σ : world) (login : Request) (u : user_row) :
  head (filter (fun r => email r = body_email login) (users σ)) = Some u ->
  global_status_of u <> BANNED ->
  bcrypt_compare (body_password login) (password_hash u) = true ->
  exists σ1,
    post_login login σ
    = (Return {| res_status := 200;
                 res_cookies :=
                   [SetCookie "refreshToken"
                      (Signed (payload_of u) (refreshSecret config)
                         (now σ + span (refreshExpiresIn config)))];
                 res_body :=
                   LoginBody
                     (Signed (payload_of u) (secret config)
                        (now σ + span (expiresIn config)))
                     (Signed (payload_of u) (refreshSecret config)
                        (now σ + span (refreshExpiresIn config)))
                     {| lu_id := id u; lu_email := email u; lu_full_name := full_name u;
                        lu_global_status := global_status_of u |} |}, σ1)
    /\ users σ1 = users σ
    /\ now σ1 = now σ
    /\ user_devices σ1
       = <[(id u, randomUUID (drawn σ)) :=
             {| ip_address := ip login; user_agent := header_user_agent login;
                login_time := now σ; is_revoked := false; revoked_at := None |}]>
           (user_devices σ).
Proof.
  intros Hu Hstatus Hpw.
  unfold post_login, getUserByEmail, comparePassword, generateDeviceId, saveDevice,
    generateAccessToken, generateRefreshToken, jwt_sign.
  run_handler. rewrite Hu.
  rewrite bool_decide_false by assumption. rewrite Hpw. simpl.
  change (users (set_trace _ (set_drawn S (set_trace _ σ)))) with (users σ).
  unfold user_exists at 1.
  change (users (set_trace _ (set_drawn S (set_trace _ σ)))) with (users σ).
  fold (user_exists σ (id u)).
  rewrite (found_user_exists σ _ u Hu), orb_true_r.
  step_log. eexists. split; [reflexivity|].
  repeat split; assumption.
Qed.

(** The REST middleware lets a known, unbanned user with a valid token
    through, and reads the store without writing to it. *)
Lemma authenticate_accepted (σ : world) (req : Request) (payload : JWTPayload)
    (exp : timestamp) (u : user_row) :
  authorization req = Some (Bearer (Signed payload (secret config) exp)) ->
  now σ < exp ->
  head (filter (fun r => id r = jwt_userId payload) (users σ)) = Some u ->
  global_status_of u <> BANNED ->
  authenticate req σ
  = (Return (inr {| request := req; req_userId := jwt_userId payload; req_user := u |}),
     traced [SelectUserById (jwt_userId payload)] σ).
Proof.
  intros Hh Hlt Hu Hb.
  unfold authenticate, try_catch. rewrite Hh.
  unfold verifyAccessToken. unfold bind at 1.
  cbn [startsWith_Bearer substring_7 negb]. rewrite (verify_valid _ _ _ _ Hlt).
  unfold bind at 1. rewrite getUserById_eq, Hu.
  rewrite bool_decide_false by assumption. reflexivity.
Qed.

Lemma logout_handler_response (σ : world) (req : AuthRequest) :
  run (logout_handler req) σ
  = Return {| res_status := 200; res_cookies := [ClearCookie "refreshToken"];
              res_body := MessageBody "Logged out successfully" |}.
Proof.
  unfold run, logout_handler, revokeDevice, try_catch. run_handler.
  destruct (jwt_truthy _); simpl; step_log; reflexivity.
Qed.

(** C7.  A user logs in with good credentials, which records a session row
    under a freshly drawn device id, and then logs out with the access
    token and the refresh cookie the login handed out.  The logout answers
    200 and clears the refresh cookie, but the row recorded at login is
    still not revoked afterwards: [/logout] revokes the device named by the
    [x-device-id] header, or the placeholder ["unknown"] without it, and
    the id drawn at login never reaches the client. *)
Theorem logout_leaves_login_session_live (σ : world) (login logout : Request)
    (u : user_row) :
  head (filter (fun r => email r = body_email login) (users σ)) = Some u ->
  head (filter (fun r => id r = id u) (users σ)) = Some u ->
  global_status_of u <> BANNED ->
  bcrypt_compare (body_password login) (password_hash u) = true ->
  0 < span (expiresIn config) ->
  randomUUID (drawn σ) <> "unknown" ->
  authorization logout
  = Some (Bearer (Signed (payload_of u) (secret config) (now σ + span (expiresIn config)))) ->
  cookies_refreshToken logout
  = Some (Signed (payload_of u) (refreshSecret config)
            (now σ + span (refreshExpiresIn config))) ->
  x_device_id logout = None ->
  run (post_login login) σ
  = Return {| res_status := 200;
              res_cookies :=
                [SetCookie "refreshToken"
                   (Signed (payload_of u) (refreshSecret config)
                      (now σ + span (refreshExpiresIn config)))];
              res_body :=
                LoginBody
                  (Signed (payload_of u) (secret config) (now σ + span (expiresIn config)))
                  (Signed (payload_of u) (refreshSecret config)
                     (now σ + span (refreshExpiresIn config)))
                  {| lu_id := id u; lu_email := email u; lu_full_name := full_name u;
                     lu_global_status := global_status_of u |} |}
  /\ is_revoked <$> user_devices (exec (post_login login) σ)
                    !! (id u, randomUUID (drawn σ)) = Some false
  /\ run (post_logout logout) (exec (post_login login) σ)
     = Return {| res_status := 200; res_cookies := [ClearCookie "refreshToken"];
                 res_body := MessageBody "Logged out successfully" |}
  /\ is_revoked <$> user_devices (exec (post_logout logout) (exec (post_login login) σ))
                    !! (id u, randomUUID (drawn σ)) = Some false.
Proof.
  intros Hu Hid Hstatus Hpw Hspan Hdev Hauth Hcookie Hheader.
  destruct (post_login_accepted σ login u Hu Hstatus Hpw)
    as (σ1 & Hlogin & Husers & Hnow & Hdevices).
  unfold run, exec. rewrite Hlogin. simpl fst. simpl snd.
  assert (Hrow : is_revoked <$> user_devices σ1 !! (id u, randomUUID (drawn σ)) = Some false).
  { rewrite Hdevices, lookup_insert_eq. reflexivity. }
  assert (Hgate : authenticate logout σ1
                  = (Return (inr {| request := logout; req_userId := id u; req_user := u |}),
                     traced [SelectUserById (id u)] σ1)).
  { apply (authenticate_accepted σ1 logout (payload_of u)
             (now σ + span (expiresIn config)) u).
    - exact Hauth.
    - rewrite Hnow. lia.
    - rewrite Husers. exact Hid.
    - exact Hstatus. }
  split; [reflexivity|]. split; [exact Hrow|].
  unfold post_logout, guarded. unfold bind. rewrite Hgate.
  split.
  - apply logout_handler_response.
  - pose proof (logout_spares_other_devices (traced [SelectUserById (id u)] σ1)
                  {| request := logout; req_userId := id u; req_user := u |}
                  (randomUUID (drawn σ))) as Hspare.
    simpl in Hspare. rewrite Hheader in Hspare.
    unfold exec in Hspare. rewrite Hspare by exact Hdev. exact Hrow.
Qed.

(* ===================================================================== *)
(** ** Further properties of the authorization service *)
(* ===================================================================== *)

(** X1.  [checkProjectAccess] is the twin of [checkWorkspaceAccess] on
    project roles: no membership row gives no access and no role; a row of
    role [r] gives access exactly when [level r >= level minimumRole], under
    Project Lead = 3, Contributor = 2, Project Viewer = 1, and reports [r].
    The check writes nothing: it leaves the store as it was, one statement
    longer in the trace. *)
Theorem checkProjectAccess_spec (σ : world) (caller p : uuid) (minimumRole : ProjectRole) :
  (project_members σ !! (p, caller) = None ->
   run (checkProjectAccess caller p minimumRole) σ
   = Return {| hasAccess := false; role := None |})
  /\ (forall row, project_members σ !! (p, caller) = Some row ->
      run (checkProjectAccess caller p minimumRole) σ
      = Return {| hasAccess := bool_decide (project_roleHierarchy (pm_role row)
                                            >= project_roleHierarchy minimumRole);
                  role := Some (pm_role row) |})
  /\ (project_roleHierarchy ProjectLead = 3 /\ project_roleHierarchy Contributor = 2
      /\ project_roleHierarchy ProjectViewer = 1)
  /\ (passes (run (checkProjectAccess caller p minimumRole) σ)
      <-> project_access σ caller p minimumRole)
  /\ exec (checkProjectAccess caller p minimumRole) σ
     = traced [SelectProjectRole p caller] σ.
Proof.
  unfold run, exec. rewrite checkProjectAccess_eq. simpl.
  split; [|split; [|split; [|split]]].
  - intros ->. reflexivity.
  - intros row ->. do 2 f_equal. rewrite Z.geb_leb.
    case_bool_decide; [apply Z.leb_le | apply Z.leb_gt]; lia.
  - repeat split.
  - unfold passes, project_access.
    destruct (project_members σ !! (p, caller)) as [row|]; split.
    + intros (a & [= <-] & Ha). simpl in Ha. exists row. split; [reflexivity|].
      rewrite Z.geb_leb in Ha. apply Z.leb_le. exact Ha.
    + intros (row' & [= <-] & Hle). eexists. split; [reflexivity|]. simpl.
      rewrite Z.geb_leb. apply Z.leb_le. exact Hle.
    + intros (a & [= <-] & Ha). discriminate.
    + intros (row' & [=] & _).
  - reflexivity.
Qed.

Lemma workspace_owner_level (σ : world) (caller w : uuid) :
  bool_decide (workspace_owner σ caller w)
  = match workspace_members σ !! (w, caller) with
    | Some row => workspace_roleHierarchy (wm_role row) >=? 3
    | None => false
    end.
Proof.
  case_bool_decide as H; unfold workspace_owner in H;
    destruct (workspace_members σ !! (w, caller)) as [[[] ?]|]; simpl in *;
    first [reflexivity | congruence].
Qed.

Lemma project_lead_level (σ : world) (caller p : uuid) :
  bool_decide (project_lead σ caller p)
  = match project_members σ !! (p, caller) with
    | Some row => project_roleHierarchy (pm_role row) >=? 3
    | None => false
    end.
Proof.
  case_bool_decide as H; unfold project_lead in H;
    destruct (project_members σ !! (p, caller)) as [[[] ?]|]; simpl in *;
    first [reflexivity | congruence].
Qed.

(** X2.  The dedicated ownership checks agree with the general ones:
    [checkWorkspaceOwnership] answers what [checkWorkspaceAccess] answers
    for minimum Owner, and [checkProjectLeadAccess] what
    [checkProjectAccess] answers for minimum Project Lead.  So a caller who
    passes an ownership check passes [requireWorkspaceAccess]
    (respectively [requireProjectAccess]) for every minimum role. *)
Theorem ownership_checks_agree (σ : world) (caller w p : uuid) :
  (exists a, run (checkWorkspaceAccess caller (Some w) Owner) σ = Return a
             /\ run (checkWorkspaceOwnership caller w) σ = Return (hasAccess a))
  /\ (exists a, run (checkProjectAccess caller p ProjectLead) σ = Return a
                /\ run (checkProjectLeadAccess caller p) σ = Return (hasAccess a))
  /\ (run (checkWorkspaceOwnership caller w) σ = Return true ->
      forall minimumRole,
        run (requireWorkspaceAccess caller (Some w) minimumRole) σ = Return tt)
  /\ (run (checkProjectLeadAccess caller p) σ = Return true ->
      forall minimumRole,
        run (requireProjectAccess caller p minimumRole) σ = Return tt).
Proof.
  unfold run, requireWorkspaceAccess, requireProjectAccess.
  unfold bind. 
  rewrite checkWorkspaceOwnership_eq, checkProjectLeadAccess_eq.
  split; [|split; [|split]].
  - rewrite checkWorkspaceAccess_eq. eexists. split; [reflexivity|]. simpl. f_equal.
    rewrite workspace_owner_level.
    destruct (workspace_members σ !! (w, caller)); reflexivity.
  - rewrite checkProjectAccess_eq. eexists. split; [reflexivity|]. simpl. f_equal.
    rewrite project_lead_level.
    destruct (project_members σ !! (p, caller)); reflexivity.
  - simpl. intros [= Hown] minimumRole. apply bool_decide_eq_true in Hown.
    rewrite checkWorkspaceAccess_eq. unfold workspace_owner in Hown.
    destruct (workspace_members σ !! (w, caller)) as [[r ?]|]; [|discriminate].
    simpl in *. injection Hown as ->. destruct minimumRole; reflexivity.
  - simpl. intros [= Hlead] minimumRole. apply bool_decide_eq_true in Hlead.
    rewrite checkProjectAccess_eq. unfold project_lead in Hlead.
    destruct (project_members σ !! (p, caller)) as [[r ?]|]; [|discriminate].
    simpl in *. injection Hlead as ->. destruct minimumRole; reflexivity.
Qed.

(* ===================================================================== *)
(** ** Further properties of the request gates *)
(* ===================================================================== *)

Lemma audit_only_refl (σ : world) : audit_only σ σ.
Proof. repeat split. Qed.

Lemma audit_only_traced (l : list stmt) (σ : world) : audit_only σ (traced l σ).
Proof. repeat split. Qed.

Lemma log_audit_only (level : log_level) (message : string) (u i : option string)
    (action : string) (σ : world) :
  exists σ', log level message u i action σ = (Return tt, σ') /\ audit_only σ σ'.
Proof.
  unfold log. run_handler.
  match goal with |- context [if ?b then _ else _] => destruct b end;
    eexists; (split; [reflexivity|]); repeat split.
Qed.

Arguments config : simpl never.

Ltac step_audit :=
  match goal with
  | |- context [log ?a ?b ?c ?d ?e ?s] =>
      let σ' := fresh "σ" in
      let E := fresh "Elog" in
      let F := fresh "Hframe" in
      destruct (log_audit_only a b c d e s) as (σ' & E & F);
      rewrite E; simpl
  end.

Ltac use_valid Hh :=
  repeat match goal with
         | H : valid_access _ _ _ |- _ =>
             let Hv := fresh "Hv" in
             destruct H as (? & Hv & ?); rewrite Hh in Hv;
             try discriminate Hv; injection Hv as ? ? ?; subst
         | H : _ /\ _ |- _ => destruct H
         | H : exists _, _ |- _ => destruct H
         end.

(** X3.  The REST middleware never throws and writes nothing but audit
    rows.  It hands the request on exactly when the bearer token verifies
    under the access secret and is unexpired, its user exists, and that user
    is not banned; the request then carries the token's user id and the
    user's row.  Otherwise it answers itself: 403 exactly when such a user
    is banned, 401 in every other case. *)
Theorem authenticate_outcomes (σ : world) (req : Request) :
  exists r σ',
    authenticate req σ = (Return r, σ')
    /\ audit_only σ σ'
    /\ (forall areq,
          r = inr areq
          <-> exists payload u,
                valid_access σ req payload
                /\ head (filter (fun x => id x = jwt_userId payload) (users σ)) = Some u
                /\ global_status_of u <> BANNED
                /\ areq = {| request := req; req_userId := jwt_userId payload;
                             req_user := u |})
    /\ (forall res,
          r = inl res ->
          (res_status res = 401 \/ res_status res = 403)
          /\ (res_status res = 403
              <-> exists payload u,
                    valid_access σ req payload
                    /\ head (filter (fun x => id x = jwt_userId payload) (users σ)) = Some u
                    /\ global_status_of u = BANNED)).
Proof.
  unfold authenticate, try_catch, verifyAccessToken, jwt_verify, getUserById.
  run_handler.
  destruct (authorization req) as [[[payload k exp|raw]|value]|] eqn:Hh; simpl.
  - case_bool_decide as Hk; simpl.
    + destruct (Z.geb_spec (now σ) exp) as [Hexp|Hexp]; simpl.
      * do 2 eexists. split; [reflexivity|]. split; [repeat split|]. split.
        -- intros areq. split; [discriminate|]. intros H. use_valid Hh. lia.
        -- intros res [= <-]. split; [left; reflexivity|].
           split; [discriminate|]. intros H. use_valid Hh. lia.
      * destruct (head (filter (fun u => id u = jwt_userId payload) (users σ)))
          as [u|] eqn:Hu; simpl.
        -- case_bool_decide as Hb; simpl.
           ++ destruct (log_audit_only warn "Banned user attempted access"
                          (Some (jwt_userId payload)) (ip req) "ACCESS_DENIED_BANNED"
                          (set_trace (fun t => (t ++ [SelectUserById (jwt_userId payload)])%list) σ))
                as (σ1 & -> & Hframe).
              do 2 eexists. split; [reflexivity|]. split; [exact Hframe|]. split.
              ** intros areq. split; [discriminate|]. intros H. use_valid Hh. congruence.
              ** intros res [= <-]. split; [right; reflexivity|].
                 split; [|reflexivity]. intros _. exists payload, u.
                 split; [exists exp; subst k; split; [exact Hh | lia]|]. auto.
           ++ do 2 eexists. split; [reflexivity|]. split; [repeat split|]. split.
              ** intros areq. split.
                 --- intros [= <-]. exists payload, u.
                     split; [exists exp; subst k; split; [exact Hh | lia]|]. auto.
                 --- intros H. use_valid Hh. congruence.
              ** intros res [=].
        -- do 2 eexists. split; [reflexivity|]. split; [repeat split|]. split.
           ++ intros areq. split; [discriminate|]. intros H. use_valid Hh. congruence.
           ++ intros res [= <-]. split; [left; reflexivity|].
              split; [discriminate|]. intros H. use_valid Hh. congruence.
    + do 2 eexists. split; [reflexivity|]. split; [repeat split|]. split.
      * intros areq. split; [discriminate|]. intros H. use_valid Hh. congruence.
      * intros res [= <-]. split; [left; reflexivity|].
        split; [discriminate|]. intros H. use_valid Hh. congruence.
  - do 2 eexists. split; [reflexivity|]. split; [repeat split|]. split.
    + intros areq. split; [discriminate|]. intros H. use_valid Hh.
    + intros res [= <-]. split; [left; reflexivity|].
      split; [discriminate|]. intros H. use_valid Hh.
  - destruct (String.prefix "Bearer " value); simpl.
    + do 2 eexists. split; [reflexivity|]. split; [repeat split|]. split.
      * intros areq. split; [discriminate|]. intros H. use_valid Hh.
      * intros res [= <-]. split; [left; reflexivity|].
        split; [discriminate|]. intros H. use_valid Hh.
    + do 2 eexists. split; [reflexivity|]. split; [repeat split|]. split.
      * intros areq. split; [discriminate|]. intros H. use_valid Hh.
      * intros res [= <-]. split; [left; reflexivity|].
        split; [discriminate|]. intros H. use_valid Hh.
  - do 2 eexists. split; [reflexivity|]. split; [repeat split|]. split.
    + intros areq. split; [discriminate|]. intros H. use_valid Hh.
    + intros res [= <-]. split; [left; reflexivity|].
      split; [discriminate|]. intros H. use_valid Hh.
Qed.


(** X4.  [getContext] never throws and writes nothing.  With a bearer
    token that verifies and is unexpired, the context carries the token's
    user id and whatever row [users] holds for it, present or not, banned
    or not; with any other header, or none, the context is anonymous. *)
Theorem getContext_outcomes (σ : world) (req : Request) :
  exists context σ',
    getContext req σ = (Return context, σ')
    /\ (σ' = σ \/ exists i, σ' = traced [SelectUserById i] σ)
    /\ ipAddress context = ip req
    /\ userAgent context = header_user_agent req
    /\ (forall payload,
          valid_access σ req payload ->
          userId context = Some (jwt_userId payload)
          /\ user context
             = head (filter (fun x => id x = jwt_userId payload) (users σ)))
    /\ ((forall payload, ~ valid_access σ req payload) ->
        userId context = None /\ user context = None).
Proof.
  unfold getContext, try_catch, jwt_verify, getUserById.
  run_handler.
  destruct (authorization req) as [[[payload k exp|raw]|value]|] eqn:Hh; simpl.
  - case_bool_decide as Hk; simpl.
    + destruct (Z.geb_spec (now σ) exp) as [Hexp|Hexp]; simpl.
      * do 2 eexists. split; [reflexivity|]. split; [left; reflexivity|].
        do 2 (split; [reflexivity|]). split; [|auto].
        intros p H. use_valid Hh. lia.
      * do 2 eexists. split; [reflexivity|]. split; [right; eexists; reflexivity|].
        do 2 (split; [reflexivity|]). split.
        -- intros p H. use_valid Hh. auto.
        -- intros H. exfalso. apply (H payload). exists exp. subst k. auto.
    + do 2 eexists. split; [reflexivity|]. split; [left; reflexivity|].
      do 2 (split; [reflexivity|]). split; [|auto].
      intros p H. use_valid Hh. congruence.
  - do 2 eexists. split; [reflexivity|]. split; [left; reflexivity|].
    do 2 (split; [reflexivity|]). split; [|auto]. intros p H. use_valid Hh.
  - destruct (String.prefix "Bearer " value); simpl.
    + do 2 eexists. split; [reflexivity|]. split; [left; reflexivity|].
      do 2 (split; [reflexivity|]). split; [|auto]. intros p H. use_valid Hh.
    + do 2 eexists. split; [reflexivity|]. split; [left; reflexivity|].
      do 2 (split; [reflexivity|]). split; [|auto]. intros p H. use_valid Hh.
  - do 2 eexists. split; [reflexivity|]. split; [left; reflexivity|].
    do 2 (split; [reflexivity|]). split; [|auto]. intros p H. use_valid Hh.
Qed.

(** X5.  A context without a caller (no user id, or the empty one) is
    refused by every resolver that asks for a caller, with [Unauthorized]
    and before anything is read or written: the store, trace included, is
    unchanged. *)
Theorem anonymous_context_refused (σ : world) (context : Context) :
  (forall caller, ~ caller_is context caller) ->
  me context σ = (Throw Unauthorized, σ)
  /\ (forall w, getWorkspace w context σ = (Throw Unauthorized, σ))
  /\ (forall p, getProject p context σ = (Throw Unauthorized, σ))
  /\ (forall t, getTask t context σ = (Throw Unauthorized, σ))
  /\ (forall w u, addWorkspaceMember w u context σ = (Throw Unauthorized, σ))
  /\ (forall p u, addProjectMember p u context σ = (Throw Unauthorized, σ))
  /\ (forall p u, removeProjectMember p u context σ = (Throw Unauthorized, σ))
  /\ (forall p u r, updateProjectMemberRole p u r context σ = (Throw Unauthorized, σ))
  /\ (forall t a b c d, updateTask t a b c d context σ = (Throw Unauthorized, σ))
  /\ (forall t, deleteTask t context σ = (Throw Unauthorized, σ))
  /\ (forall w, taskStatusUpdated_subscribe w context σ = (Throw Unauthorized, σ))
  /\ (forall i, getUser i context σ = (Throw Unauthorized, σ))
  /\ (forall o n, updatePassword o n context σ = (Throw Unauthorized, σ))
  /\ (forall u, banUser u context σ = (Throw Unauthorized, σ))
  /\ (forall u, unbanUser u context σ = (Throw Unauthorized, σ))
  /\ (forall u n, adminResetPassword u n context σ = (Throw Unauthorized, σ))
  /\ (forall n d, createWorkspace n d context σ = (Throw Unauthorized, σ))
  /\ (forall w u, removeWorkspaceMember w u context σ = (Throw Unauthorized, σ))
  /\ (forall w u r, updateWorkspaceMemberRole w u r context σ = (Throw Unauthorized, σ))
  /\ (forall w n d, createProject w n d context σ = (Throw Unauthorized, σ))
  /\ (forall p n d, updateProject p n d context σ = (Throw Unauthorized, σ))
  /\ (forall p, deleteProject p context σ = (Throw Unauthorized, σ))
  /\ (forall p n d a, createTask p n d a context σ = (Throw Unauthorized, σ)).
Proof.
  intros Hno.
  assert (Hauth : authenticated context σ = (Throw Unauthorized, σ)).
  { unfold authenticated, caller_is in *.
    destruct (userId context) as [c|]; [|reflexivity].
    simpl. case_bool_decide as Hc; [reflexivity|].
    exfalso. apply (Hno c). auto. }
  unfold me, getWorkspace, getProject, getTask, addWorkspaceMember, addProjectMember,
    removeProjectMember, updateProjectMemberRole, updateTask, deleteTask,
    taskStatusUpdated_subscribe, getUser, updatePassword, banUser, unbanUser,
    adminResetPassword, createWorkspace, removeWorkspaceMember,
    updateWorkspaceMemberRole, createProject, updateProject, deleteProject, createTask.
  repeat split; intros; unfold bind at 1; rewrite Hauth; reflexivity.
Qed.

(* ===================================================================== *)
(** ** Further properties of the device registry *)
(* ===================================================================== *)

Lemma revokeDevice_eq (σ : world) (u d : string) :
  revokeDevice u d σ
  = (Return tt,
     set_user_devices
       (alter (fun r =>
          {| ip_address := ip_address r; user_agent := user_agent r;
             login_time := login_time r; is_revoked := true;
             revoked_at := Some (now σ) |}) (u, d))
       (traced [RevokeDevice u d] σ)).
Proof. reflexivity. Qed.

(** X6.  [revokeDevice] never throws.  It marks the session row of the
    (user, device) pair revoked, stamped with the clock, and keeps the
    row's origin, client and login time; a pair without a row gets none;
    every other row, those of the same user's other devices included, is
    untouched.  The update does not look at [is_revoked]: a row that was
    revoked before is stamped again, so its [revoked_at] becomes the clock
    of the later call and the time of the first revocation is lost. *)
Theorem revokeDevice_spec (σ : world) (u d : string) :
  run (revokeDevice u d) σ = Return tt
  /\ (forall row,
        user_devices σ !! (u, d) = Some row ->
        user_devices (exec (revokeDevice u d) σ) !! (u, d)
        = Some {| ip_address := ip_address row; user_agent := user_agent row;
                  login_time := login_time row; is_revoked := true;
                  revoked_at := Some (now σ) |})
  /\ (user_devices σ !! (u, d) = None ->
      user_devices (exec (revokeDevice u d) σ) = user_devices σ)
  /\ (forall u' d', (u', d') <> (u, d) ->
        user_devices (exec (revokeDevice u d) σ) !! (u', d')
        = user_devices σ !! (u', d'))
  /\ (forall row,
        user_devices σ !! (u, d) = Some row ->
        is_revoked row = true ->
        revoked_at row <> Some (now σ) ->
        revoked_at <$> user_devices (exec (revokeDevice u d) σ) !! (u, d)
        = Some (Some (now σ))
        /\ user_devices (exec (revokeDevice u d) σ) !! (u, d) <> Some row).
Proof.
  unfold run, exec. rewrite !revokeDevice_eq. simpl.
  split; [reflexivity|]. split; [|split; [|split]].
  - intros row Hrow. rewrite lookup_alter_eq, Hrow. reflexivity.
  - intros Hnone. apply map_eq. intros [u' d'].
    destruct (decide ((u, d) = (u', d'))) as [<-|Hne].
    + rewrite lookup_alter_eq, Hnone. reflexivity.
    + rewrite lookup_alter_ne by assumption. reflexivity.
  - intros u' d' Hne. apply lookup_alter_ne. congruence.
  - intros row Hrow _ Hstamp. rewrite lookup_alter_eq, Hrow. simpl.
    split; [reflexivity|]. intros [= Heq]. apply Hstamp. rewrite <- Heq at 1.
    reflexivity.
Qed.

(** X7.  [saveDevice] is an upsert.  When the user exists, or the pair
    already has a row, it returns and the pair's row is then live: not
    revoked, no revocation time, login time at the clock, origin and client
    as given; so a login on a revoked device brings the session back.  Every
    other row is untouched.  For a user that does not exist and a pair
    without a row it throws and writes no row. *)
Theorem saveDevice_spec (σ : world) (u d : string) (origin client : option string) :
  (user_exists σ u = true \/ is_Some (user_devices σ !! (u, d)) ->
   run (saveDevice u d origin client) σ = Return tt
   /\ user_devices (exec (saveDevice u d origin client) σ) !! (u, d)
      = Some {| ip_address := origin; user_agent := client; login_time := now σ;
                is_revoked := false; revoked_at := None |}
   /\ user_devices (exec (saveDevice u d origin client)
                      (exec (revokeDevice u d) σ)) !! (u, d)
      = Some {| ip_address := origin; user_agent := client; login_time := now σ;
                is_revoked := false; revoked_at := None |})
  /\ (forall u' d', (u', d') <> (u, d) ->
        user_devices (exec (saveDevice u d origin client) σ) !! (u', d')
        = user_devices σ !! (u', d'))
  /\ (user_exists σ u = false -> user_devices σ !! (u, d) = None ->
      rejected (run (saveDevice u d origin client) σ)
      /\ user_devices (exec (saveDevice u d origin client) σ) = user_devices σ).
Proof.
  unfold run, exec. rewrite revokeDevice_eq. unfold saveDevice. run_handler.
  change (user_exists (set_trace _ σ) u) with (user_exists σ u).
  split; [|split].
  - intros Hok.
    assert (Hcond : defined (user_devices σ !! (u, d)) || user_exists σ u = true).
    { destruct Hok as [->|[row ->]]; [apply orb_true_r | reflexivity]. }
    rewrite Hcond. simpl. split; [reflexivity|].
    split; [apply lookup_insert_eq|].
    unfold user_exists at 1. simpl. fold (user_exists σ u).
    rewrite lookup_alter_eq.
    assert (Hcond' : defined ((fun r => {| ip_address := ip_address r;
                                user_agent := user_agent r; login_time := login_time r;
                                is_revoked := true; revoked_at := Some (now σ) |})
                              <$> user_devices σ !! (u, d)) || user_exists σ u = true).
    { destruct Hok as [->|[row ->]]; [apply orb_true_r | reflexivity]. }
    rewrite Hcond'. simpl. apply lookup_insert_eq.
  - intros u' d' Hne.
    destruct (defined (user_devices σ !! (u, d)) || user_exists σ u); simpl;
      [|reflexivity].
    apply lookup_insert_ne. congruence.
  - intros Hu Hnone. rewrite Hu, Hnone. simpl. split; [eexists; reflexivity | reflexivity].
Qed.

(** What a request that got past [authenticate] is known to carry. *)
Lemma authenticate_frame (σ : world) (req : Request) :
  exists r σ',
    authenticate req σ = (Return r, σ')
    /\ audit_only σ σ'
    /\ (forall areq,
          r = inr areq ->
          request areq = req
          /\ exists payload,
               valid_access σ req payload /\ req_userId areq = jwt_userId payload).
Proof.
  unfold authenticate, try_catch, verifyAccessToken, jwt_verify, getUserById.
  run_handler.
  destruct (authorization req) as [[[payload k exp|raw]|value]|] eqn:Hh; simpl.
  - case_bool_decide as Hk; simpl.
    + destruct (Z.geb_spec (now σ) exp) as [Hexp|Hexp]; simpl.
      * do 2 eexists. split; [reflexivity|]. split; [repeat split|]. discriminate.
      * destruct (head (filter (fun u => id u = jwt_userId payload) (users σ)))
          as [u|]; simpl.
        -- case_bool_decide as Hb; simpl.
           ++ destruct (log_audit_only warn "Banned user attempted access"
                          (Some (jwt_userId payload)) (ip req) "ACCESS_DENIED_BANNED"
                          (set_trace (fun t => (t ++ [SelectUserById (jwt_userId payload)])%list) σ))
                as (σ1 & -> & Hframe).
              do 2 eexists. split; [reflexivity|]. split; [exact Hframe|]. discriminate.
           ++ do 2 eexists. split; [reflexivity|]. split; [repeat split|].
              intros areq [= <-]. split; [reflexivity|]. exists payload.
              split; [exists exp; subst k; split; [exact Hh | lia] | reflexivity].
        -- do 2 eexists. split; [reflexivity|]. split; [repeat split|]. discriminate.
    + do 2 eexists. split; [reflexivity|]. split; [repeat split|]. discriminate.
  - do 2 eexists. split; [reflexivity|]. split; [repeat split|]. discriminate.
  - destruct (String.prefix "Bearer " value); simpl;
      do 2 eexists; (split; [reflexivity|]); (split; [repeat split|]); discriminate.
  - do 2 eexists. split; [reflexivity|]. split; [repeat split|]. discriminate.
Qed.

Lemma logout_handler_devices (σ : world) (req : AuthRequest) :
  user_devices (exec (logout_handler req) σ)
  = if jwt_truthy (or_jwt (cookies_refreshToken (request req))
                     (x_refresh_token (request req)))
    then alter (fun r =>
           {| ip_address := ip_address r; user_agent := user_agent r;
              login_time := login_time r; is_revoked := true;
              revoked_at := Some (now σ) |})
           (req_userId req, or_default (x_device_id (request req)) "unknown")
           (user_devices σ)
    else user_devices σ.
Proof.
  unfold exec, logout_handler, revokeDevice, try_catch. run_handler.
  destruct (jwt_truthy _); simpl; step_log;
    match goal with H : user_devices _ = _ |- _ => rewrite H end; reflexivity.
Qed.

(** X8.  What [POST /auth/logout] can reach.  It touches no session row of
    a user other than the one its access token names, and no row but the
    one of the device named by [x-device-id] (or ["unknown"]).  Without a
    refresh token, in the cookie or the header, it revokes nothing at all.
    With one, of any content, and the access token of a live user, it marks
    that user's row for the named device revoked, if there is one, and
    answers 200 with the refresh cookie cleared. *)
Theorem logout_reach (σ : world) (req : Request) :
  (forall u d,
     (forall payload, valid_access σ req payload -> jwt_userId payload <> u) ->
     user_devices (exec (post_logout req) σ) !! (u, d) = user_devices σ !! (u, d))
  /\ (forall u d,
        d <> or_default (x_device_id req) "unknown" ->
        user_devices (exec (post_logout req) σ) !! (u, d) = user_devices σ !! (u, d))
  /\ (jwt_truthy (or_jwt (cookies_refreshToken req) (x_refresh_token req)) = false ->
      user_devices (exec (post_logout req) σ) = user_devices σ)
  /\ (forall payload u row,
        valid_access σ req payload ->
        head (filter (fun x => id x = jwt_userId payload) (users σ)) = Some u ->
        global_status_of u <> BANNED ->
        jwt_truthy (or_jwt (cookies_refreshToken req) (x_refresh_token req)) = true ->
        user_devices σ !! (jwt_userId payload, or_default (x_device_id req) "unknown")
        = Some row ->
        run (post_logout req) σ
        = Return {| res_status := 200; res_cookies := [ClearCookie "refreshToken"];
                    res_body := MessageBody "Logged out successfully" |}
        /\ is_revoked <$>
             user_devices (exec (post_logout req) σ)
             !! (jwt_userId payload, or_default (x_device_id req) "unknown")
           = Some true).
Proof.
  destruct (authenticate_frame σ req) as (r & σ1 & Hauth & Hframe & Hr).
  assert (Hdev1 : user_devices σ1 = user_devices σ) by apply Hframe.
  assert (Hnow1 : now σ1 = now σ) by apply Hframe.
  unfold run, exec, post_logout, guarded. unfold bind. rewrite Hauth.
  destruct r as [res|areq].
  - simpl. rewrite Hdev1. split; [reflexivity|]. split; [reflexivity|].
    split; [reflexivity|].
    intros payload u row (exp & Hh & Hlt) Hu Hb _ _.
    exfalso.
    pose proof (authenticate_accepted σ req payload exp u Hh Hlt Hu Hb) as Hacc.
    rewrite Hacc in Hauth. discriminate.
  - destruct (Hr areq eq_refl) as (Hreq & payload & Hvalid & Hid).
    pose proof (logout_handler_devices σ1 areq) as Hdevs.
    unfold exec in Hdevs. rewrite Hdevs, Hreq, Hid, Hdev1, Hnow1.
    clear Hdevs.
    destruct (jwt_truthy (or_jwt (cookies_refreshToken req) (x_refresh_token req)))
      eqn:Htok.
    + split; [|split; [|split]].
      * intros u d Hother.
        apply lookup_alter_ne. intros [= Heq _]. exact (Hother payload Hvalid Heq).
      * intros u d Hd. apply lookup_alter_ne. congruence.
      * discriminate.
      * intros payload' u row Hvalid' Hu Hb _ Hrow.
        assert (payload' = payload) as ->.
        { destruct Hvalid as (e1 & H1 & _), Hvalid' as (e2 & H2 & _). congruence. }
        split; [apply logout_handler_response|].
        rewrite lookup_alter_eq, Hrow. reflexivity.
    + split; [reflexivity|]. split; [reflexivity|]. split; [reflexivity|].
      intros ? ? ? _ _ _ [=].
Qed.

(* ===================================================================== *)
(** ** Further properties of the resolvers *)
(* ===================================================================== *)

Lemma requireProjectAccess_granted (σ : world) (caller projectId : uuid)
    (minimumRole : ProjectRole) :
  project_access σ caller projectId minimumRole ->
  requireProjectAccess caller projectId minimumRole σ
  = (Return tt, traced [SelectProjectRole projectId caller] σ).
Proof.
  intros (row & Hrow & Hle). unfold requireProjectAccess. unfold bind at 1.
  rewrite checkProjectAccess_eq, Hrow. simpl.
  destruct (Z.geb_spec (project_roleHierarchy (pm_role row))
              (project_roleHierarchy minimumRole)); [reflexivity | lia].
Qed.

Lemma requireWorkspaceAccess_granted (σ : world) (caller workspaceId : uuid)
    (minimumRole : WorkspaceRole) :
  workspace_access σ caller workspaceId minimumRole ->
  requireWorkspaceAccess caller (Some workspaceId) minimumRole σ
  = (Return tt, traced [SelectWorkspaceRole (Some workspaceId) caller] σ).
Proof.
  intros (row & Hrow & Hle). unfold requireWorkspaceAccess. unfold bind at 1.
  rewrite checkWorkspaceAccess_eq, Hrow. simpl.
  destruct (Z.geb_spec (workspace_roleHierarchy (wm_role row))
              (workspace_roleHierarchy minimumRole)); [reflexivity | lia].
Qed.

Lemma workspace_access_dec (σ : world) (caller w : uuid) (minimumRole : WorkspaceRole) :
  workspace_access σ caller w minimumRole \/ ~ workspace_access σ caller w minimumRole.
Proof.
  unfold workspace_access.
  destruct (workspace_members σ !! (w, caller)) as [row|].
  - destruct (Z.le_gt_cases (workspace_roleHierarchy minimumRole)
                (workspace_roleHierarchy (wm_role row))) as [Hle|Hgt].
    + left. eauto.
    + right. intros (row' & [= <-] & Hle). lia.
  - right. intros (row' & [=] & _).
Qed.

Lemma project_access_dec (σ : world) (caller p : uuid) (minimumRole : ProjectRole) :
  project_access σ caller p minimumRole \/ ~ project_access σ caller p minimumRole.
Proof.
  unfold project_access.
  destruct (project_members σ !! (p, caller)) as [row|].
  - destruct (Z.le_gt_cases (project_roleHierarchy minimumRole)
                (project_roleHierarchy (pm_role row))) as [Hle|Hgt].
    + left. eauto.
    + right. intros (row' & [= <-] & Hle). lia.
  - right. intros (row' & [=] & _).
Qed.

(** X9.  A subscriber is attached to a workspace's channel exactly when the
    caller holds a membership row in that workspace, of whatever role;
    anyone else gets the permissions error.  The channel is named after the
    workspace id, and attaching writes nothing. *)
Theorem subscribe_needs_membership (σ : world) (w : uuid) (context : Context)
    (caller : uuid) :
  caller_is context caller ->
  (is_Some (workspace_members σ !! (w, caller)) ->
   run (taskStatusUpdated_subscribe w context) σ
   = Return ("TASK_STATUS_UPDATED_" ++ w))
  /\ (workspace_members σ !! (w, caller) = None ->
      run (taskStatusUpdated_subscribe w context) σ
      = Throw (insufficient_permissions "Viewer"))
  /\ exec (taskStatusUpdated_subscribe w context) σ
     = traced [SelectWorkspaceRole (Some w) caller] σ.
Proof.
  intros Hc. unfold run, exec, taskStatusUpdated_subscribe.
  unfold bind at 1 3 5. rewrite (authenticated_eq _ _ _ Hc).
  unfold bind.
  destruct (workspace_access_dec σ caller w Viewer) as [Hyes|Hno].
  - rewrite requireWorkspaceAccess_granted by exact Hyes.
    split; [reflexivity|]. split; [|reflexivity].
    intros Hnone. destruct Hyes as (row & Hrow & _). congruence.
  - rewrite requireWorkspaceAccess_denied by exact Hno.
    split; [|split; reflexivity].
    intros [row Hrow]. exfalso. apply Hno. exists row. split; [exact Hrow|].
    destruct (wm_role row); simpl; lia.
Qed.

Lemma deleted_assignments (m : gmap (uuid * uuid) timestamp) (t t' u : uuid) :
  filter (fun kv : uuid * uuid * timestamp => kv.1.1 <> t) m !! (t', u)
  = if decide (t' = t) then None else m !! (t', u).
Proof.
  destruct (decide (t' = t)) as [->|Hne].
  - apply map_lookup_filter_None. right. intros x _ H. apply H. reflexivity.
  - destruct (m !! (t', u)) as [x|] eqn:Hx.
    + apply map_lookup_filter_Some. split; [exact Hx | exact Hne].
    + apply map_lookup_filter_None. left. exact Hx.
Qed.

(** X10.  A caller with Contributor or above on the task's project can
    delete the task: the mutation returns [true], the task row and all of
    its assignments are gone, every other task and assignment is as before,
    and reading the task afterwards reports it as not found. *)
Theorem deleteTask_spec (σ : world) (t : uuid) (context : Context) (caller : uuid)
    (task : task_row) :
  caller_is context caller ->
  tasks σ !! t = Some task ->
  project_access σ caller (project_id task) Contributor ->
  run (deleteTask t context) σ = Return true
  /\ tasks (exec (deleteTask t context) σ) = delete t (tasks σ)
  /\ (forall u, task_assignments (exec (deleteTask t context) σ) !! (t, u) = None)
  /\ (forall t' u, t' <> t ->
        task_assignments (exec (deleteTask t context) σ) !! (t', u)
        = task_assignments σ !! (t', u))
  /\ run (getTask t context) (exec (deleteTask t context) σ) = Throw NotFound_task.
Proof.
  intros Hc Htask Hacc.
  assert (Hrun : exists σ',
             deleteTask t context σ = (Return true, σ')
             /\ tasks σ' = delete t (tasks σ)
             /\ task_assignments σ'
                = filter (fun kv : uuid * uuid * timestamp => kv.1.1 <> t)
                    (task_assignments σ)).
  { unfold deleteTask. unfold bind at 1. rewrite (authenticated_eq _ _ _ Hc).
    unfold bind at 1. rewrite select_task_eq, Htask.
    unfold bind at 1. rewrite requireProjectAccess_granted by exact Hacc.
    run_handler.
    step_audit. eexists. split; [reflexivity|].
    destruct Hframe as (_ & _ & _ & _ & _ & _ & Ht & Ha & _).
    rewrite Ht, Ha. split; reflexivity. }
  destruct Hrun as (σ' & Hrun & Ht & Ha).
  unfold run, exec. rewrite Hrun. simpl.
  split; [reflexivity|]. split; [exact Ht|]. split; [|split].
  - intros u. rewrite Ha, deleted_assignments. rewrite decide_True by reflexivity.
    reflexivity.
  - intros t' u Hne. rewrite Ha, deleted_assignments. rewrite decide_False by exact Hne.
    reflexivity.
  - unfold getTask. unfold bind at 1. rewrite (authenticated_eq _ _ _ Hc).
    unfold bind at 1. rewrite select_task_eq, Ht, lookup_delete_eq. reflexivity.
Qed.

Lemma authenticated_frame (context : Context) (σ : world) :
  exists o, authenticated context σ = (o, σ).
Proof.
  unfold authenticated. destruct (userId context) as [c|]; simpl.
  - destruct (negb (negb (bool_decide (c = "")))); eexists; reflexivity.
  - eexists; reflexivity.
Qed.

(** The assignment loop of [updateTask] writes assignments, notifications
    and audit rows only. *)
Lemma assign_each_frame (taskId : uuid) (notice : string) (old ids : list uuid)
    (σ : world) :
  published (snd (assign_each taskId notice old ids σ)) = published σ
  /\ tasks (snd (assign_each taskId notice old ids σ)) = tasks σ
  /\ projects (snd (assign_each taskId notice old ids σ)) = projects σ.
Proof.
  revert σ. induction ids as [|u ids IH]; intros σ; [repeat split|].
  simpl assign_each. unfold createNotification. run_handler.
  destruct (task_assignments σ !! (taskId, u)); simpl; [repeat split|].
  destruct (bool_decide (is_Some (tasks σ !! taskId)) && user_exists _ u); simpl;
    [|repeat split].
  destruct (negb (bool_decide (u ∈ old))); simpl.
  - destruct (user_exists _ u); simpl; [|repeat split].
    step_audit.
    match goal with |- context [assign_each _ _ _ _ ?s] => destruct (IH s) as (H1 & H2 & H3) end.
    rewrite H1, H2, H3.
    destruct Hframe as (_ & _ & _ & _ & Hp & _ & Ht & _ & _ & Hpub & _).
    rewrite Hpub, Ht, Hp. repeat split.
  - match goal with |- context [assign_each _ _ _ _ ?s] => destruct (IH s) as (H1 & H2 & H3) end.
    rewrite H1, H2, H3. repeat split.
Qed.

Lemma task_status_round_trip (s : string) (st : task_status) :
  task_status_of_string s = Some st -> task_status_text st = s.
Proof.
  unfold task_status_of_string. repeat case_bool_decide; intros [= <-]; subst; reflexivity.
Qed.

(** X11.  [updateTask] hands the bus at most one message.  When the
    mutation throws, nothing is published.  When it returns, exactly one
    message is published if a non-empty status was given that differs from
    the task's status before, and none otherwise; the message goes to the
    channel of the workspace of the task's project and carries the task row
    as stored after the update, whose status is the one asked for. *)
Theorem updateTask_publishes (σ : world) (t : uuid) (a b c : option string) (d : option (list uuid))
    (context : Context) :
  exists o σ',
    updateTask t a b c d context σ = (o, σ')
    /\ match o with
       | Throw _ => published σ' = published σ
       | Return r =>
           exists task,
             tasks σ !! t = Some task
             /\ if truthy c && negb (bool_decide (c = Some (task_status_text (status task))))
                then exists p task',
                       projects σ !! project_id task = Some p
                       /\ r = Some task'
                       /\ tasks σ' !! t = Some task'
                       /\ c = Some (task_status_text (status task'))
                       /\ published σ'
                          = (published σ
                             ++ [(String.append "TASK_STATUS_UPDATED_" (workspace_id p),
                                  (t, task'))])%list
                else published σ' = published σ
       end.
Proof.
  unfold updateTask.
  destruct (authenticated_frame context σ) as ([caller|e0] & Ha);
    unfold bind at 1; rewrite Ha; [|do 2 eexists; split; [reflexivity|reflexivity]].
  unfold bind at 1. rewrite select_task_eq.
  destruct (tasks σ !! t) as [task|] eqn:Ht;
    [|do 2 eexists; split; [reflexivity|reflexivity]].
  unfold bind at 1.
  destruct (project_access_dec σ caller (project_id task) Contributor) as [Hacc|Hno].
  2: { rewrite requireProjectAccess_denied by exact Hno.
       do 2 eexists; split; [reflexivity|reflexivity]. }
  rewrite requireProjectAccess_granted by exact Hacc.
  destruct (negb (defined a || defined b || defined c) && negb (defined d)) eqn:Hnone.
  { rewrite select_task_eq. do 2 eexists. split; [reflexivity|].
    exists task. split; [reflexivity|].
    destruct c; [destruct a, b; discriminate|]. reflexivity. }
  unfold bind at 1.
  set (σ1 := traced [SelectProjectRole (project_id task) caller] (traced [SelectTask t] σ)).
  assert (exists old σ2, (if defined d || truthy c
        then
         query (SelectTaskAssignees t)
           (gets
              (λ σ0 : world,
                 map (λ kv : uuid * uuid * timestamp, kv.1.2)
                   (filter (λ kv : uuid * uuid * timestamp, kv.1.1 = t)
                      (map_to_list (task_assignments σ0)))))
        else ret []) σ1 = (Return old, σ2) /\ exists l, σ2 = traced l σ1) as (old & σ2 & -> & l2 & Hσ2).
  { destruct (defined d || truthy c); do 2 eexists; (split; [reflexivity|]).
    - exists [SelectTaskAssignees t]. reflexivity.
    - exists []. unfold traced, set_trace. destruct σ1; simpl. rewrite app_nil_r. reflexivity. }
  unfold bind at 1.
  match goal with
  | |- exists o σ', (let (_, _) := ?m σ2 in _) = _ /\ _ =>
      assert (exists o3 σ3,
                m σ2 = (o3, σ3)
                /\ published σ3 = published σ
                /\ projects σ3 = projects σ
                /\ (o3 = Return tt ->
                    exists task3,
                      tasks σ3 !! t = Some task3
                      /\ project_id task3 = project_id task
                      /\ (forall s, c = Some s -> task_status_text (status task3) = s)))
        as (o3 & σ3 & -> & Hpub3 & Hproj3 & Htask3)
  end.
  { subst σ2 σ1. destruct (defined a || defined b || defined c) eqn:Hupd.
    - destruct c as [s|].
      + destruct (task_status_of_string s) as [st|] eqn:Hst.
        * do 2 eexists. split; [reflexivity|]. simpl. split; [reflexivity|].
          split; [reflexivity|]. intros _. rewrite lookup_alter_eq, Ht. simpl.
          eexists. split; [reflexivity|]. split; [reflexivity|].
          intros s' [= <-]. simpl. apply task_status_round_trip. exact Hst.
        * do 2 eexists. split; [reflexivity|]. simpl. split; [reflexivity|].
          split; [reflexivity|]. discriminate.
      + do 2 eexists. split; [reflexivity|]. simpl. split; [reflexivity|].
        split; [reflexivity|]. intros _. rewrite lookup_alter_eq, Ht. simpl.
        eexists. split; [reflexivity|]. split; [reflexivity|]. discriminate.
    - do 2 eexists. split; [reflexivity|]. simpl. split; [reflexivity|].
      split; [reflexivity|]. intros _. exists task. split; [exact Ht|].
      split; [reflexivity|]. intros s ->. destruct a, b; discriminate. }
  destruct o3 as [[]|e3]; [|do 2 eexists; split; [reflexivity | exact Hpub3]].
  destruct (Htask3 eq_refl) as (task3 & Ht3 & Hpid3 & Hst3). clear Htask3.
  unfold bind at 1.
  match goal with
  | |- exists o σ', (let (_, _) := ?m σ3 in _) = _ /\ _ =>
      assert (exists o4 σ4,
                m σ3 = (o4, σ4)
                /\ published σ4 = published σ3
                /\ projects σ4 = projects σ3
                /\ tasks σ4 = tasks σ3)
        as (o4 & σ4 & -> & Hpub4 & Hproj4 & Htasks4)
  end.
  { destruct d as [ids|]; [|do 2 eexists; split; [reflexivity | repeat split]].
    run_handler.
    match goal with
    | |- context [assign_each ?x ?n ?o ?i ?s] =>
        destruct (assign_each_frame x n o i s) as (H1 & H2 & H3);
        destruct (assign_each x n o i s) as [o4 σ4]
    end.
    do 2 eexists. split; [reflexivity|]. simpl in *. repeat split; assumption. }
  destruct o4 as [[]|e4];
    [|do 2 eexists; split; [reflexivity | simpl; congruence]].
  unfold bind at 1. rewrite select_task_eq. rewrite Htasks4, Ht3.
  destruct (truthy c && negb (bool_decide (c = Some (task_status_text (status task)))))
    eqn:Hcond.
  2: { do 2 eexists. split; [reflexivity|]. exists task. split; [reflexivity|].
       rewrite Hcond. simpl. congruence. }
  unfold select_project_workspace. run_handler.
  rewrite Hproj4, Hproj3, Hpid3.
  destruct (projects σ !! project_id task) as [p|] eqn:Hp; simpl.
  2: { do 2 eexists. split; [reflexivity|]. simpl. congruence. }
  step_audit. do 2 eexists. split; [reflexivity|].
  exists task. split; [reflexivity|]. rewrite Hcond. exists p, task3.
  destruct Hframe as (_ & _ & _ & _ & _ & _ & Htf & _ & _ & Hpf & _).
  simpl in Htf, Hpf.
  split; [exact Hp|]. split; [reflexivity|].
  split; [rewrite Htf, Htasks4; exact Ht3|].
  split.
  - destruct c as [s|]; [|discriminate]. rewrite (Hst3 s eq_refl). reflexivity.
  - rewrite Hpf, Hpub4, Hpub3. reflexivity.
Qed.

Ltac frame_from H :=
  unfold audit_only in *; simpl in *;
  destruct H as (? & ? & ? & ? & ? & ? & ? & ? & ? & ? & ? & ?);
  repeat split; assumption.

(** A workspace owner adds a user who is not yet a member. *)
Lemma addWorkspaceMember_fresh (σ : world) (w target : uuid) (context : Context)
    (caller : uuid) :
  caller_is context caller ->
  workspace_owner σ caller w ->
  is_Some (workspaces σ !! w) ->
  user_exists σ target = true ->
  workspace_members σ !! (w, target) = None ->
  exists σ1,
    addWorkspaceMember w target context σ = (Return true, σ1)
    /\ audit_only
         (set_workspace_members
            <[(w, target) := {| wm_role := Member; wm_joined_at := now σ |}]> σ) σ1.
Proof.
  intros Hc Hown Hw Hu Hnone.
  unfold addWorkspaceMember. unfold bind at 1. rewrite (authenticated_eq _ _ _ Hc).
  unfold bind at 1. rewrite checkWorkspaceOwnership_eq.
  rewrite bool_decide_true by assumption. simpl negb. cbv iota.
  unfold insert_workspace_member. run_handler. rewrite Hnone.
  rewrite bool_decide_true by assumption.
  change (user_exists (set_trace _ (set_trace _ σ)) target) with (user_exists σ target).
  rewrite Hu. simpl. step_audit. eexists. split; [reflexivity|].
  frame_from Hframe.
Qed.

(** A caller through the gate adds a workspace member who is not yet in
    the project. *)
Lemma addProjectMember_fresh (σ : world) (p target : uuid) (context : Context)
    (caller : uuid) (prow : project_row) (m : workspace_member_row) :
  caller_is context caller ->
  fst (gate_outcome σ caller p) = Return tt ->
  projects σ !! p = Some prow ->
  workspace_members σ !! (workspace_id prow, target) = Some m ->
  user_exists σ target = true ->
  project_members σ !! (p, target) = None ->
  exists σ1,
    addProjectMember p target context σ = (Return true, σ1)
    /\ audit_only
         (set_project_members
            <[(p, target) := {| pm_role := Contributor; pm_joined_at := now σ |}]> σ) σ1.
Proof.
  intros Hc Hgate Hp Hm Hu Hnone.
  rewrite (addProjectMember_eq _ _ _ _ _ Hc), Hgate.
  unfold addProjectMember_body, select_project_workspace, checkWorkspaceAccess,
    select_workspace_role, insert_project_member.
  run_handler. rewrite Hp. simpl. rewrite Hm. simpl.
  destruct (wm_role m); simpl; rewrite Hnone, Hp;
    rewrite bool_decide_true by eauto; simpl;
    unfold user_exists at 1; simpl; fold (user_exists σ target); rewrite Hu; simpl;
    step_audit; (eexists; split; [reflexivity|]); frame_from Hframe.
Qed.

(** X12.  Membership in the workspace comes first.  A workspace owner who
    adds a user that is in neither the workspace nor one of its projects to
    the project is refused with the precondition error; after adding the
    user to the workspace, where the user becomes a Member, the same call
    returns [true] and the user is a Contributor of the project. *)
Theorem workspace_then_project_membership (σ : world) (w p target : uuid)
    (context : Context) (caller : uuid) (prow : project_row) :
  caller_is context caller ->
  workspace_ids_wf σ ->
  workspace_owner σ caller w ->
  is_Some (workspaces σ !! w) ->
  projects σ !! p = Some prow ->
  workspace_id prow = w ->
  user_exists σ target = true ->
  workspace_members σ !! (w, target) = None ->
  project_members σ !! (p, target) = None ->
  run (addProjectMember p target context) σ = Throw PreconditionFailed
  /\ run (addWorkspaceMember w target context) σ = Return true
  /\ wm_role <$> workspace_members (exec (addWorkspaceMember w target context) σ)
                 !! (w, target) = Some Member
  /\ run (addProjectMember p target context)
       (exec (addWorkspaceMember w target context) σ) = Return true
  /\ pm_role <$> project_members
                   (exec (addProjectMember p target context)
                      (exec (addWorkspaceMember w target context) σ))
                 !! (p, target) = Some Contributor.
Proof.
  intros Hc Hwf Hown Hw Hp Hpw Hu Hnone Hpnone.
  assert (Hgate : fst (gate_outcome σ caller p) = Return tt).
  { apply (gate_outcome_passes σ caller p Hwf). right. exists prow. subst w. auto. }
  split.
  { unfold run. rewrite (addProjectMember_eq _ _ _ _ _ Hc), Hgate.
    rewrite addProjectMember_body_precondition; [reflexivity|].
    intros p' Hp'. change (projects (traced _ σ)) with (projects σ) in Hp'.
    rewrite Hp in Hp'. injection Hp' as <-. rewrite Hpw. exact Hnone. }
  destruct (addWorkspaceMember_fresh σ w target context caller Hc Hown Hw Hu Hnone)
    as (σ1 & Hadd & Hframe).
  unfold run, exec. rewrite Hadd. simpl fst. simpl snd.
  assert (Hwm1 : workspace_members σ1
                 = <[(w, target) := {| wm_role := Member; wm_joined_at := now σ |}]>
                     (workspace_members σ)) by apply Hframe.
  assert (Hproj1 : projects σ1 = projects σ) by apply Hframe.
  assert (Hpm1 : project_members σ1 = project_members σ) by apply Hframe.
  assert (Husers1 : users σ1 = users σ) by apply Hframe.
  split; [reflexivity|].
  split; [rewrite Hwm1, lookup_insert_eq; reflexivity|].
  assert (Hne : target <> caller).
  { intros ->. unfold workspace_owner in Hown. rewrite Hnone in Hown. discriminate. }
  assert (Hwf1 : workspace_ids_wf σ1).
  { unfold workspace_ids_wf. rewrite Hproj1. exact Hwf. }
  assert (Hgate1 : fst (gate_outcome σ1 caller p) = Return tt).
  { apply (gate_outcome_passes σ1 caller p Hwf1). right. exists prow.
    rewrite Hproj1. split; [exact Hp|]. unfold workspace_owner.
    rewrite Hwm1, Hpw, lookup_insert_ne by congruence. exact Hown. }
  destruct (addProjectMember_fresh σ1 p target context caller prow
              {| wm_role := Member; wm_joined_at := now σ |}) as (σ2 & Hadd2 & Hframe2).
  - exact Hc.
  - exact Hgate1.
  - rewrite Hproj1. exact Hp.
  - rewrite Hwm1, Hpw, lookup_insert_eq. reflexivity.
  - unfold user_exists. rewrite Husers1. exact Hu.
  - rewrite Hpm1. exact Hpnone.
  - rewrite Hadd2. simpl. split; [reflexivity|].
    destruct Hframe2 as (_ & _ & _ & _ & _ & Hpm & _). rewrite Hpm. simpl.
    rewrite lookup_insert_eq. reflexivity.
Qed.

(* ===================================================================== *)
(** ** Properties of the remaining middleware and routes *)
(* ===================================================================== *)

Ltac section_free :=
  try clear span; try clear bcrypt_compare; try clear randomUUID;
  try clear gen_random_uuid; try clear bcrypt_hash.

Lemma valid_access_fun (σ : world) (req : Request) (p1 p2 : JWTPayload) :
  valid_access σ req p1 -> valid_access σ req p2 -> p1 = p2.
Proof. intros (e1 & H1 & _) (e2 & H2 & _). congruence. Qed.

(** The three ways [authenticate] ends. *)
Lemma authenticate_cases (σ : world) (req : Request) :
  exists r σ',
    authenticate req σ = (Return r, σ')
    /\ audit_only σ σ'
    /\ ((exists payload u,
           valid_access σ req payload
           /\ head (filter (fun x => id x = jwt_userId payload) (users σ)) = Some u
           /\ global_status_of u <> BANNED
           /\ r = inr {| request := req; req_userId := jwt_userId payload;
                         req_user := u |})
        \/ (exists payload u,
              valid_access σ req payload
              /\ head (filter (fun x => id x = jwt_userId payload) (users σ)) = Some u
              /\ global_status_of u = BANNED
              /\ r = inl (error_response 403 "Access denied: Account is banned"))
        \/ ((forall payload,
               valid_access σ req payload ->
               head (filter (fun x => id x = jwt_userId payload) (users σ)) = None)
            /\ exists msg, r = inl (error_response 401 msg))).
Proof.
  unfold authenticate, try_catch, verifyAccessToken, jwt_verify, getUserById.
  run_handler.
  destruct (authorization req) as [[[payload k exp|raw]|value]|] eqn:Hh; simpl.
  - case_bool_decide as Hk; simpl.
    + destruct (Z.geb_spec (now σ) exp) as [Hexp|Hexp]; simpl.
      * do 2 eexists. split; [reflexivity|]. split; [repeat split|].
        right. right. split; [|eexists; reflexivity]. intros p H. use_valid Hh. lia.
      * destruct (head (filter (fun u => id u = jwt_userId payload) (users σ)))
          as [u|] eqn:Hu; simpl.
        -- case_bool_decide as Hb; simpl.
           ++ step_audit. do 2 eexists. split; [reflexivity|].
              split; [frame_from Hframe|]. right. left. exists payload, u.
              split; [exists exp; subst k; split; [exact Hh | lia]|]. auto.
           ++ do 2 eexists. split; [reflexivity|]. split; [repeat split|].
              left. exists payload, u.
              split; [exists exp; subst k; split; [exact Hh | lia]|]. auto.
        -- do 2 eexists. split; [reflexivity|]. split; [repeat split|].
           right. right. split; [|eexists; reflexivity]. intros p H. use_valid Hh.
           exact Hu.
    + do 2 eexists. split; [reflexivity|]. split; [repeat split|].
      right. right. split; [|eexists; reflexivity]. intros p H. use_valid Hh. congruence.
  - do 2 eexists. split; [reflexivity|]. split; [repeat split|].
    right. right. split; [|eexists; reflexivity]. intros p H. use_valid Hh.
  - destruct (String.prefix "Bearer " value); simpl;
      do 2 eexists; (split; [reflexivity|]); (split; [repeat split|]);
      right; right; (split; [|eexists; reflexivity]); intros p H; use_valid Hh.
  - do 2 eexists. split; [reflexivity|]. split; [repeat split|].
    right. right. split; [|eexists; reflexivity]. intros p H. use_valid Hh.
Qed.

Lemma audit_only_trans (σ1 σ2 σ3 : world) :
  audit_only σ1 σ2 -> audit_only σ2 σ3 -> audit_only σ1 σ3.
Proof.
  unfold audit_only. intros H12 H23.
  destruct H12 as (? & ? & ? & ? & ? & ? & ? & ? & ? & ? & ? & ?).
  destruct H23 as (? & ? & ? & ? & ? & ? & ? & ? & ? & ? & ? & ?).
  repeat split; congruence.
Qed.

(** X13.  [requireAdmin] behind [authenticate]: the chain never throws and
    writes nothing but audit rows.  The request reaches the handler exactly
    when its access token verifies, the token's user exists and that user's
    stored status is ADMIN; everyone else is answered 401 or 403.  On its
    own, [requireAdmin] answers 403 whenever no user was attached to the
    request. *)
Theorem admin_gate (σ : world) (req : Request) :
  (exists r σ',
     (r <- authenticate req ;;
      match r with
      | inl res => ret (inl res)
      | inr areq =>
          a <- requireAdmin req (Some (req_userId areq)) (Some (req_user areq)) ;;
          match a with
          | Some res => ret (inl res)
          | None => ret (inr areq)
          end
      end) σ = (Return r, σ')
     /\ audit_only σ σ'
     /\ (forall areq,
           r = inr areq
           <-> exists payload u,
                 valid_access σ req payload
                 /\ head (filter (fun x => id x = jwt_userId payload) (users σ)) = Some u
                 /\ global_status_of u = ADMIN
                 /\ areq = {| request := req; req_userId := jwt_userId payload;
                              req_user := u |})
     /\ (forall res, r = inl res -> res_status res = 401 \/ res_status res = 403))
  /\ (forall reqUserId,
        run (requireAdmin req reqUserId None) σ
        = Return (Some (error_response 403 "Forbidden: Admin access required"))).
Proof.
  split.
  - destruct (authenticate_cases σ req) as (r0 & σ0 & Hauth & Hframe & Hcases).
    unfold bind at 1. rewrite Hauth.
    destruct Hcases as [(payload & u & Hv & Hu & Hb & ->)
                       |[(payload & u & Hv & Hu & Hb & ->)|(Hnone & msg & ->)]].
    + unfold requireAdmin. simpl req_user. cbv iota.
      case_bool_decide as Hadmin; simpl negb; cbv iota.
      * do 2 eexists. split; [reflexivity|]. split; [exact Hframe|]. split.
        -- intros areq. split; [intros [= <-]; eauto 10|].
           intros (p' & u' & Hv' & Hu' & _ & ->).
           rewrite (valid_access_fun _ _ _ _ Hv' Hv) in *. congruence.
        -- discriminate.
      * unfold bind. step_audit. do 2 eexists. split; [reflexivity|].
        split; [exact (audit_only_trans _ _ _ Hframe Hframe0)|]. split.
        -- intros areq. split; [discriminate|].
           intros (p' & u' & Hv' & Hu' & Ha' & _).
           rewrite (valid_access_fun _ _ _ _ Hv' Hv) in Hu'. congruence.
        -- intros res [= <-]. right. reflexivity.
    + do 2 eexists. split; [reflexivity|]. split; [exact Hframe|]. split.
      * intros areq. split; [discriminate|].
        intros (p' & u' & Hv' & Hu' & Ha' & _).
        rewrite (valid_access_fun _ _ _ _ Hv' Hv) in Hu'. congruence.
      * intros res [= <-]. right. reflexivity.
    + do 2 eexists. split; [reflexivity|]. split; [exact Hframe|]. split.
      * intros areq. split; [discriminate|].
        intros (p' & u' & Hv' & Hu' & _). rewrite (Hnone _ Hv') in Hu'. discriminate.
      * intros res [= <-]. left. reflexivity.
  - intros reqUserId. unfold run, requireAdmin. unfold bind. step_audit. reflexivity.
Qed.

Ltac audit_frame :=
  first [ match goal with H : audit_only _ _ |- _ => frame_from H end
        | repeat split; reflexivity ].

Ltac use_refresh Hh :=
  repeat match goal with
         | H : valid_refresh _ _ _ |- _ =>
             let Hv := fresh "Hv" in
             destruct H as (? & Hv & ?); rewrite Hh in Hv;
             try discriminate Hv; injection Hv as ? ? ?; subst
         | H : _ /\ _ |- _ => destruct H
         | H : exists _, _ |- _ => destruct H
         end.

(** X14.  [/refresh] never throws, answers 200 or 401 and writes nothing
    but audit rows.  It answers 200 exactly when the refresh token (cookie
    first, header otherwise) verifies under the refresh secret and the user
    found by the token's e-mail is not banned; the new tokens then carry
    the user's id, e-mail and status as stored now, not as in the old
    token, and the new refresh token is also set as cookie. *)
Theorem refresh_outcomes (σ : world) (req : Request) :
  exists res σ',
    post_refresh req σ = (Return res, σ')
    /\ audit_only σ σ'
    /\ (rr_status res = 200 \/ rr_status res = 401)
    /\ (rr_status res = 200
        <-> exists payload u,
              valid_refresh σ req payload
              /\ head (filter (fun x => email x = jwt_email payload) (users σ)) = Some u
              /\ global_status_of u <> BANNED)
    /\ (forall payload u,
          valid_refresh σ req payload ->
          head (filter (fun x => email x = jwt_email payload) (users σ)) = Some u ->
          global_status_of u <> BANNED ->
          let newPayload := {| jwt_userId := id u; jwt_email := email u;
                               jwt_globalStatus := global_status_of u |} in
          let access := Signed newPayload (secret config) (now σ + span (expiresIn config)) in
          let refresh := Signed newPayload (refreshSecret config)
                           (now σ + span (refreshExpiresIn config)) in
          rr_body res = RefreshTokens access refresh
          /\ rr_cookies res = [SetCookie "refreshToken" refresh]).
Proof.
  unfold post_refresh, try_catch.
  destruct (or_jwt (cookies_refreshToken req) (x_refresh_token req))
    as [[payload k exp|raw]|] eqn:Hh.
  - unfold jwt_truthy, negb, jwt_verify, getUserByEmail, generateAccessToken,
      generateRefreshToken, jwt_sign.
    run_handler.
    case_bool_decide as Hk; simpl.
    + destruct (Z.geb_spec (now σ) exp) as [Hexp|Hexp]; simpl.
      * try step_audit. do 2 eexists. split; [reflexivity|].
        split; [audit_frame|]. split; [right; reflexivity|].
        split; [split; [discriminate|]|]; intros; use_refresh Hh; lia.
      * destruct (head (filter (fun u => email u = jwt_email payload) (users σ)))
          as [u|] eqn:Hu; simpl.
        -- case_bool_decide as Hb; simpl.
           ++ do 2 eexists. split; [reflexivity|]. split; [repeat split|].
              split; [right; reflexivity|].
              split; [split; [discriminate|]|]; intros; use_refresh Hh; congruence.
           ++ try step_audit. do 2 eexists. split; [reflexivity|].
              split; [audit_frame|]. split; [left; reflexivity|].
              split; [split; [intros _|reflexivity]|].
              ** exists payload, u. split; [exists exp; subst k; split; [exact Hh|lia]|].
                 auto.
              ** intros p u' Hv Hu' _. use_refresh Hh.
                 assert (u' = u) as -> by congruence. split; reflexivity.
        -- do 2 eexists. split; [reflexivity|]. split; [repeat split|].
           split; [right; reflexivity|].
           split; [split; [discriminate|]|]; intros; use_refresh Hh; congruence.
    + try step_audit. do 2 eexists. split; [reflexivity|].
      split; [audit_frame|]. split; [right; reflexivity|].
      split; [split; [discriminate|]|]; intros; use_refresh Hh; congruence.
  - unfold jwt_truthy, jwt_verify. run_handler.
    case_bool_decide as Hraw; simpl.
    + do 2 eexists. split; [reflexivity|]. split; [repeat split|].
      split; [right; reflexivity|].
      split; [split; [discriminate|]|]; intros; use_refresh Hh.
    + try step_audit. do 2 eexists. split; [reflexivity|].
      split; [audit_frame|]. split; [right; reflexivity|].
      split; [split; [discriminate|]|]; intros; use_refresh Hh.
  - run_handler. do 2 eexists. split; [reflexivity|]. split; [repeat split|].
    split; [right; reflexivity|].
    split; [split; [discriminate|]|]; intros; use_refresh Hh.
Qed.

(** X15.  [/refresh] never reads the device table: whatever is done to the
    rows of [user_devices] (a revoked session, a deleted row), the answer
    to the same request is the same. *)
Theorem refresh_ignores_devices (σ : world) (req : Request)
    (f : gmap (uuid * string) device_row -> gmap (uuid * string) device_row) :
  run (post_refresh req) (set_user_devices f σ) = run (post_refresh req) σ.
Proof.
  unfold run, post_refresh, try_catch, jwt_verify, getUserByEmail, generateAccessToken,
    generateRefreshToken, jwt_sign, log.
  run_handler.
  destruct (jwt_truthy (or_jwt (cookies_refreshToken req) (x_refresh_token req)));
    simpl; [|reflexivity].
  destruct (or_jwt (cookies_refreshToken req) (x_refresh_token req))
    as [[payload k exp|raw]|]; simpl; try reflexivity.
  - case_bool_decide; simpl; [|unfold user_exists; simpl; reflexivity].
    destruct (now σ >=? exp); simpl; [reflexivity|].
    destruct (head (filter (fun u => email u = jwt_email payload) (users σ)));
      simpl; [|reflexivity].
    case_bool_decide; simpl; [reflexivity|].
    unfold user_exists; simpl.
    repeat match goal with |- context [if ?b then _ else _] => destruct b end;
      reflexivity.
Qed.

(* ===================================================================== *)
(** ** Properties of the workspace and project mutations *)
(* ===================================================================== *)

(** Rewrite [user_exists], asked of a store with the users of [σ], to [σ]. *)
Ltac same_users σ :=
  repeat match goal with
         | |- context [user_exists ?s ?u] =>
             lazymatch s with
             | σ => fail
             | _ => change (user_exists s u) with (user_exists σ u)
             end
         end.

(** X16.  [createWorkspace], called by an existing user while the
    generated id is free: the new workspace is returned, and the only
    changes to the store are the workspace row, the caller's Owner row for
    it and the advanced id counter; the caller passes the ownership check
    on it at once.  When the caller's id names no user the call throws and
    neither table has changed. *)
Theorem createWorkspace_spec (σ : world) (name : string) (description : option string)
    (context : Context) (caller : uuid) :
  caller_is context caller ->
  let i := gen_random_uuid (drawn σ) in
  let row := {| w_name := name; w_description := description; w_created_by := caller |} in
  exists o σ',
    createWorkspace name description context σ = (o, σ')
    /\ (user_exists σ caller = true ->
        workspaces σ !! i = None ->
        workspace_members σ !! (i, caller) = None ->
        o = Return (i, row)
        /\ audit_only
             (set_workspace_members
                <[(i, caller) := {| wm_role := Owner; wm_joined_at := now σ |}]>
                (set_workspaces <[i := row]> (set_drawn S σ))) σ'
        /\ run (checkWorkspaceOwnership caller i) σ' = Return true)
    /\ (user_exists σ caller = false ->
        rejected o
        /\ workspaces σ' = workspaces σ
        /\ workspace_members σ' = workspace_members σ).
Proof.
  intros Hc i row.
  unfold createWorkspace. unfold bind at 1. rewrite (authenticated_eq _ _ _ Hc).
  unfold insert_workspace, insert_workspace_member_strict, statement.
  destruct (user_exists σ caller) eqn:Hu.
  - destruct (workspaces σ !! i) as [w0|] eqn:Hw.
    + run_handler. fold i. rewrite Hw. simpl. do 2 eexists. split; [reflexivity|].
      split; [discriminate|discriminate].
    + destruct (workspace_members σ !! (i, caller)) as [m0|] eqn:Hm.
      * run_handler. fold i. rewrite Hw.
        change (user_exists (set_drawn S σ) caller) with (user_exists σ caller).
        rewrite Hu. simpl. fold i. rewrite Hm. simpl.
        do 2 eexists. split; [reflexivity|]. split; [discriminate|discriminate].
      * run_handler. fold i. rewrite Hw.
        change (user_exists (set_drawn S σ) caller) with (user_exists σ caller).
        rewrite Hu. simpl. fold i. rewrite Hm. simpl.
        rewrite lookup_insert_eq. rewrite bool_decide_true by eauto. simpl.
        change (user_exists (set_workspaces _ (set_drawn S σ)) caller)
          with (user_exists σ caller).
        rewrite Hu. simpl. step_audit. do 2 eexists. split; [reflexivity|].
        split; [|discriminate]. intros _ _ _. split; [reflexivity|].
        split; [frame_from Hframe|].
        destruct Hframe as (_ & _ & _ & -> & _). simpl.
        rewrite lookup_insert_eq. reflexivity.
  - run_handler. fold i.
    change (user_exists (set_drawn S σ) caller) with (user_exists σ caller).
    rewrite Hu.
    destruct (workspaces σ !! i); simpl; do 2 eexists; (split; [reflexivity|]);
      (split; [discriminate|]); intros _; (split; [eexists; reflexivity|]);
      split; reflexivity.
Qed.

(** X17.  [createProject] asks for Member on the workspace.  A caller who
    holds it (and exists as user, the workspace row existing and the
    generated id being free) gets the project back; the store changes by
    the project row, the caller's Project Lead row and the id counter only.
    A caller below Member, or without a row in the workspace, gets
    'Insufficient permissions: Requires Member role or higher' and nothing
    is written. *)
Theorem createProject_spec (σ : world) (w : uuid) (name : string)
    (description : option string) (context : Context) (caller : uuid) :
  caller_is context caller ->
  let i := gen_random_uuid (drawn σ) in
  let row := {| workspace_id := w; p_name := name; p_description := description;
                p_created_by := caller |} in
  exists o σ',
    createProject w name description context σ = (o, σ')
    /\ (workspace_access σ caller w Member ->
        is_Some (workspaces σ !! w) ->
        user_exists σ caller = true ->
        projects σ !! i = None ->
        project_members σ !! (i, caller) = None ->
        o = Return (i, row)
        /\ audit_only
             (set_project_members
                <[(i, caller) := {| pm_role := ProjectLead; pm_joined_at := now σ |}]>
                (set_projects <[i := row]> (set_drawn S σ))) σ'
        /\ project_lead σ' caller i)
    /\ (~ workspace_access σ caller w Member ->
        o = Throw (Error "Insufficient permissions: Requires Member role or higher")
        /\ audit_only σ σ').
Proof.
  intros Hc i row. section_free.
  unfold createProject. unfold bind at 1. rewrite (authenticated_eq _ _ _ Hc).
  destruct (workspace_access_dec σ caller w Member) as [Hacc|Hno].
  - unfold bind at 1. rewrite requireWorkspaceAccess_granted by exact Hacc.
    unfold insert_project, insert_project_member_strict, statement.
    destruct (bool_decide (is_Some (workspaces σ !! w)) && user_exists σ caller) eqn:Hfk;
      [destruct (projects σ !! i) as [p0|] eqn:Hp;
         [|destruct (project_members σ !! (i, caller)) as [m0|] eqn:Hm]|].
    + run_handler. fold i. rewrite Hp. simpl. do 2 eexists. split; [reflexivity|].
      split; [discriminate|tauto].
    + run_handler. fold i. rewrite Hp.
      same_users σ.
      rewrite Hfk. simpl. fold i. rewrite Hm. simpl.
      do 2 eexists. split; [reflexivity|]. split; [discriminate|tauto].
    + run_handler. fold i. rewrite Hp.
      same_users σ.
      rewrite Hfk. simpl. fold i. rewrite Hm. simpl.
      rewrite lookup_insert_eq. rewrite bool_decide_true by eauto. simpl.
      same_users σ.
      apply andb_prop in Hfk as [_ Hu]. rewrite Hu. simpl.
      step_audit. do 2 eexists. split; [reflexivity|].
      split; [|tauto]. intros _ _ _ _ _. split; [reflexivity|].
      split; [frame_from Hframe|].
      unfold project_lead.
      destruct Hframe as (_ & _ & _ & _ & _ & -> & _). simpl.
      rewrite lookup_insert_eq. reflexivity.
    + run_handler. fold i.
      same_users σ.
      rewrite Hfk.
      destruct (projects σ !! i); simpl; do 2 eexists; (split; [reflexivity|]);
        (split; [|tauto]); intros _ Hw Hu _ _; exfalso;
        rewrite bool_decide_true, Hu in Hfk by exact Hw; discriminate.
  - unfold bind at 1. rewrite requireWorkspaceAccess_denied by exact Hno.
    do 2 eexists. split; [reflexivity|]. split; [tauto|]. intros _.
    split; [reflexivity|]. apply audit_only_traced.
Qed.

(** X18.  [updateProject] and [deleteProject] are for the Project Lead
    alone: a caller without a Project Lead row on the project, the owner of
    the parent workspace included, gets 'Forbidden: Project Lead access
    required' and the store is as it was. *)
Theorem project_changes_need_lead (σ : world) (p : uuid) (newName newDescription : option string)
    (context : Context) (caller : uuid) :
  caller_is context caller ->
  ~ project_lead σ caller p ->
  run (updateProject p newName newDescription context) σ
  = Throw (GraphQLError "Forbidden: Project Lead access required")
  /\ audit_only σ (exec (updateProject p newName newDescription context) σ)
  /\ run (deleteProject p context) σ
     = Throw (GraphQLError "Forbidden: Project Lead access required")
  /\ audit_only σ (exec (deleteProject p context) σ).
Proof.
  intros Hc Hno.
  assert (Hupdate : updateProject p newName newDescription context σ
                    = (Throw (GraphQLError "Forbidden: Project Lead access required"),
                       traced [SelectProjectLead p caller] σ)).
  { unfold updateProject. unfold bind at 1. rewrite (authenticated_eq _ _ _ Hc).
    unfold bind at 1. rewrite checkProjectLeadAccess_eq.
    rewrite bool_decide_false by exact Hno. reflexivity. }
  assert (Hdelete : deleteProject p context σ
                    = (Throw (GraphQLError "Forbidden: Project Lead access required"),
                       traced [SelectProjectLead p caller] σ)).
  { unfold deleteProject. unfold bind at 1. rewrite (authenticated_eq _ _ _ Hc).
    unfold bind at 1. rewrite checkProjectLeadAccess_eq.
    rewrite bool_decide_false by exact Hno. reflexivity. }
  unfold run, exec. rewrite Hupdate, Hdelete. simpl.
  split; [reflexivity|]. split; [apply audit_only_traced|].
  split; [reflexivity|apply audit_only_traced].
Qed.

(** X19.  [deleteProject] by the Project Lead of an existing project
    returns [true] and removes the project together with everything that
    hangs on it: all its membership rows, all its tasks and the assignments
    of those tasks.  Rows of other projects, and the workspace tables, are
    left as they were. *)
Theorem deleteProject_cascade (σ : world) (p : uuid) (context : Context) (caller : uuid) :
  caller_is context caller ->
  project_lead σ caller p ->
  is_Some (projects σ !! p) ->
  exists σ',
    deleteProject p context σ = (Return true, σ')
    /\ projects σ' = delete p (projects σ)
    /\ (forall p' u,
          project_members σ' !! (p', u)
          = if decide (p' = p) then None else project_members σ !! (p', u))
    /\ (forall t row,
          tasks σ' !! t = Some row <-> tasks σ !! t = Some row /\ project_id row <> p)
    /\ (forall t u at_,
          task_assignments σ' !! (t, u) = Some at_
          <-> task_assignments σ !! (t, u) = Some at_
              /\ project_id <$> tasks σ !! t <> Some p)
    /\ workspaces σ' = workspaces σ
    /\ workspace_members σ' = workspace_members σ
    /\ users σ' = users σ.
Proof.
  intros Hc Hlead [prow Hp].
  unfold deleteProject. unfold bind at 1. rewrite (authenticated_eq _ _ _ Hc).
  unfold bind at 1. rewrite checkProjectLeadAccess_eq.
  rewrite bool_decide_true by exact Hlead.
  unfold delete_project, statement. run_handler. rewrite Hp.
  step_audit. eexists. split; [reflexivity|].
  destruct Hframe as (Hu & _ & Hw & Hwm & Hpr & Hpm & Ht & Ha & _).
  simpl in *. rewrite Hpr, Hpm, Ht, Ha, Hw, Hwm, Hu.
  split; [reflexivity|]. split; [|split; [|split; [|auto]]].
  - intros p' u. destruct (decide (p' = p)) as [->|Hne].
    + apply map_lookup_filter_None. right. intros x _ Hk. apply Hk. reflexivity.
    + destruct (project_members σ !! (p', u)) as [x|] eqn:Hx.
      * apply map_lookup_filter_Some. split; [exact Hx|exact Hne].
      * apply map_lookup_filter_None. left. exact Hx.
  - intros t row. rewrite map_lookup_filter_Some. reflexivity.
  - intros t u at_. rewrite map_lookup_filter_Some. reflexivity.
Qed.

(** X20.  [removeWorkspaceMember] is for the workspace Owner: anyone else
    gets 'Forbidden: Owner access required' and nothing is written.  For
    the Owner it returns [true] whether or not the target had a row; only
    the target's row of that workspace is deleted, so the target's project
    memberships stay, and the target fails every later workspace check at
    any level.  The target may be the Owner. *)
Theorem removeWorkspaceMember_spec (σ : world) (w target : uuid) (context : Context)
    (caller : uuid) :
  caller_is context caller ->
  exists o σ',
    removeWorkspaceMember w target context σ = (o, σ')
    /\ (workspace_owner σ caller w ->
        o = Return true
        /\ audit_only (set_workspace_members (delete (w, target)) σ) σ'
        /\ project_members σ' = project_members σ
        /\ forall minimumRole,
             run (checkWorkspaceAccess target (Some w) minimumRole) σ'
             = Return {| hasAccess := false; role := None |})
    /\ (~ workspace_owner σ caller w ->
        o = Throw Forbidden_owner /\ audit_only σ σ').
Proof.
  intros Hc. section_free.
  unfold removeWorkspaceMember. unfold bind at 1. rewrite (authenticated_eq _ _ _ Hc).
  unfold bind at 1. rewrite checkWorkspaceOwnership_eq.
  case_bool_decide as Hown.
  - unfold statement. run_handler. step_audit.
    do 2 eexists. split; [reflexivity|]. split; [|tauto]. intros _.
    split; [reflexivity|]. split; [frame_from Hframe|].
    destruct Hframe as (_ & _ & _ & Hwm & _ & Hpm & _).
    split; [exact Hpm|]. intros minimumRole.
    unfold run. rewrite checkWorkspaceAccess_eq, Hwm. simpl.
    rewrite lookup_delete_eq. reflexivity.
  - do 2 eexists. split; [reflexivity|]. split; [tauto|]. intros _.
    split; [reflexivity|]. apply audit_only_traced.
Qed.

(** X21.  [updateWorkspaceMemberRole] by the workspace Owner.  With one of
    the three role names it returns [true]; the target's row, if there is
    one, gets the new role and keeps its [joined_at]; if there is none, no
    row is made and the answer is [true] all the same.  Any other role text
    is refused by the database and no row has changed.  The target may be
    the Owner, whose Owner role is then gone. *)
Theorem updateWorkspaceMemberRole_spec (σ : world) (w target : uuid) (newRole : string)
    (context : Context) (caller : uuid) :
  caller_is context caller ->
  workspace_owner σ caller w ->
  exists o σ',
    updateWorkspaceMemberRole w target newRole context σ = (o, σ')
    /\ (forall r,
          WorkspaceRole_of_string newRole = Some r ->
          o = Return true
          /\ workspace_members σ'
             = alter (fun row => {| wm_role := r; wm_joined_at := wm_joined_at row |})
                 (w, target) (workspace_members σ)
          /\ workspace_members σ' !! (w, target)
             = (fun row => {| wm_role := r; wm_joined_at := wm_joined_at row |})
                 <$> workspace_members σ !! (w, target)
          /\ (r <> Owner -> ~ workspace_owner σ' target w))
    /\ (WorkspaceRole_of_string newRole = None ->
        o = Throw (DatabaseError "invalid input value for enum workspace_role")
        /\ audit_only σ σ').
Proof.
  intros Hc Hown. section_free.
  unfold updateWorkspaceMemberRole. unfold bind at 1. rewrite (authenticated_eq _ _ _ Hc).
  unfold bind at 1. rewrite checkWorkspaceOwnership_eq.
  rewrite bool_decide_true by exact Hown.
  unfold statement. destruct (WorkspaceRole_of_string newRole) as [r|].
  - run_handler. step_audit. do 2 eexists. split; [reflexivity|].
    split; [|discriminate]. intros r' [= <-]. split; [reflexivity|].
    destruct Hframe as (_ & _ & _ & Hwm & _). simpl in Hwm.
    split; [exact Hwm|]. rewrite Hwm, lookup_alter_eq. split; [reflexivity|].
    intros Hr. unfold workspace_owner. rewrite Hwm, lookup_alter_eq.
    destruct (workspace_members σ !! (w, target)); simpl; congruence.
  - run_handler. do 2 eexists. split; [reflexivity|].
    split; [discriminate|]. intros _. split; [reflexivity|].
    apply (audit_only_traced [SelectWorkspaceOwner w caller]).
Qed.

(* ===================================================================== *)
(** ** Properties of the user mutations *)
(* ===================================================================== *)

(** Updating the rows of one id, by a change that keeps ids, commutes with
    the selection by id. *)
Lemma filter_id_update (f : user_row -> user_row) (target i : uuid) (l : list user_row) :
  (forall r, id (f r) = id r) ->
  filter (fun x => id x = i) (map (fun r => if bool_decide (id r = target) then f r else r) l)
  = if decide (i = target) then map f (filter (fun x => id x = i) l)
    else filter (fun x => id x = i) l.
Proof.
  intros Hid. induction l as [|r l IH]; [destruct (decide (i = target)); reflexivity|].
  cbn [map]. rewrite !filter_cons. rewrite IH.
  case_bool_decide as Hr.
  - rewrite Hid. destruct (decide (id r = i)) as [Hi|Hi];
      destruct (decide (i = target)); first [reflexivity | congruence].
  - destruct (decide (id r = i)) as [Hi|Hi];
      destruct (decide (i = target)); first [reflexivity | congruence].
Qed.

Lemma filter_email_update (f : user_row -> user_row) (target : uuid) (e : string)
    (l : list user_row) :
  (forall r, email (f r) = email r) ->
  filter (fun x => email x = e) (map (fun r => if bool_decide (id r = target) then f r else r) l)
  = map (fun r => if bool_decide (id r = target) then f r else r)
      (filter (fun x => email x = e) l).
Proof.
  intros He. induction l as [|r l IH]; [reflexivity|].
  cbn [map]. rewrite !filter_cons, IH.
  assert (email (if bool_decide (id r = target) then f r else r) = email r) as ->
    by (case_bool_decide; [apply He | reflexivity]).
  destruct (decide (email r = e)); reflexivity.
Qed.

Lemma head_map {A B} (f : A -> B) (l : list A) : head (map f l) = f <$> head l.
Proof. destruct l; reflexivity. Qed.

Lemma admin_only_granted (σ : world) (caller : uuid) :
  admin σ caller ->
  admin_only caller σ = (Return tt, traced [SelectUserById caller] σ).
Proof.
  intros (a & Ha & Hadmin). unfold admin_only. unfold bind at 1.
  rewrite getUserById_eq, Ha. rewrite bool_decide_true by exact Hadmin. reflexivity.
Qed.

Lemma admin_only_denied (σ : world) (caller : uuid) (a : user_row) :
  head (filter (fun r => id r = caller) (users σ)) = Some a ->
  global_status_of a <> ADMIN ->
  admin_only caller σ
  = (Throw (GraphQLError "Forbidden: Admin access required"),
     traced [SelectUserById caller] σ).
Proof.
  intros Ha Hno. unfold admin_only. unfold bind at 1.
  rewrite getUserById_eq, Ha. rewrite bool_decide_false by exact Hno. reflexivity.
Qed.

(** What an admin's [banUser] or [unbanUser] does to the store. *)
Lemma set_status_by_admin (σ : world) (s : global_status) (message action : string)
    (target : uuid) (context : Context) (caller : uuid) :
  caller_is context caller ->
  admin σ caller ->
  exists σ',
    (caller' <- authenticated context ;;
     admin_only caller' ;;;
     update_global_status s target ;;;
     log security message (Some caller') (ipAddress context) action ;;;
     ret true) σ = (Return true, σ')
    /\ audit_only
         (set_users (map (fun r =>
            if bool_decide (id r = target)
            then {| id := id r; email := email r; password_hash := password_hash r;
                    full_name := full_name r; global_status_of := s |}
            else r)) σ) σ'.
Proof.
  intros Hc Hadmin.
  unfold bind at 1. rewrite (authenticated_eq _ _ _ Hc).
  unfold bind at 1. rewrite (admin_only_granted _ _ Hadmin).
  unfold update_global_status, statement. run_handler. step_audit.
  eexists. split; [reflexivity|]. frame_from Hframe.
Qed.

(** [/refresh] turns a banned user away. *)
Lemma post_refresh_banned (σ : world) (req : Request) (payload : JWTPayload) (u : user_row) :
  valid_refresh σ req payload ->
  head (filter (fun r => email r = jwt_email payload) (users σ)) = Some u ->
  global_status_of u = BANNED ->
  run (post_refresh req) σ
  = Return {| rr_status := 401; rr_cookies := []; rr_body := RefreshError "Invalid token" |}.
Proof.
  intros (exp & Hh & Hlt) Hu Hb.
  unfold run, post_refresh, try_catch. rewrite Hh. cbn [jwt_truthy negb].
  unfold bind at 1. rewrite (verify_valid _ _ _ _ Hlt).
  unfold getUserByEmail. run_handler. rewrite Hu. simpl.
  rewrite bool_decide_true by exact Hb. reflexivity.
Qed.

(** X22.  [banUser] called by an admin returns [true] and sets the status
    of the target's row to BANNED, whatever it was; the rows of other ids,
    and the device table, are untouched, and it returns [true] as well
    when the target id names no user.  The target may be the caller. *)
Theorem banUser_spec (σ : world) (target : uuid) (context : Context) (caller : uuid) :
  caller_is context caller ->
  admin σ caller ->
  exists σ',
    banUser target context σ = (Return true, σ')
    /\ (forall u,
          head (filter (fun r => id r = target) (users σ)) = Some u ->
          head (filter (fun r => id r = target) (users σ'))
          = Some {| id := id u; email := email u; password_hash := password_hash u;
                    full_name := full_name u; global_status_of := BANNED |})
    /\ (head (filter (fun r => id r = target) (users σ)) = None -> users σ' = users σ)
    /\ (forall i, i <> target ->
          filter (fun r => id r = i) (users σ') = filter (fun r => id r = i) (users σ))
    /\ user_devices σ' = user_devices σ
    /\ (target = caller -> ~ admin σ' caller).
Proof.
  intros Hc Hadmin.
  destruct (set_status_by_admin σ BANNED "User banned" "USER_BANNED" target context
              caller Hc Hadmin) as (σ' & Hrun & Hframe).
  exists σ'. split; [exact Hrun|].
  destruct Hframe as (Hu & Hd & _). simpl in Hu, Hd. rewrite Hu.
  split; [|split; [|split; [|split; [exact Hd|]]]].
  - intros u Hfound. rewrite filter_id_update by reflexivity.
    rewrite decide_True by reflexivity. rewrite head_map, Hfound. reflexivity.
  - intros Hnone. apply head_None in Hnone.
    assert (Hall : Forall (fun r => id r <> target) (users σ)).
    { apply Forall_forall. intros r Hr Heq.
      assert (r ∈ filter (fun r => id r = target) (users σ))
        by (apply list_elem_of_filter; auto).
      rewrite Hnone in *. eapply not_elem_of_nil; eassumption. }
    clear Hnone Hu Hadmin. induction Hall as [|r l Hr _ IH]; [reflexivity|].
    cbn [map]. rewrite bool_decide_false by exact Hr. f_equal. exact IH.
  - intros i Hne. rewrite filter_id_update by reflexivity.
    rewrite decide_False by exact Hne. reflexivity.
  - intros -> (a & Ha & Hst). destruct Hadmin as (a0 & Ha0 & _).
    rewrite Hu, filter_id_update in Ha by reflexivity.
    rewrite decide_True in Ha by reflexivity. rewrite head_map, Ha0 in Ha.
    injection Ha as <-. discriminate Hst.
Qed.

(** X23.  Once an admin has banned a user, the REST side is closed to that
    user: a request with the user's still valid access token is answered
    403 by [authenticate], and [/refresh] with the user's still valid
    refresh token is answered 401 with no new tokens. *)
Theorem banned_user_is_locked_out (σ : world) (target : uuid) (context : Context)
    (caller : uuid) (u : user_row) :
  caller_is context caller ->
  admin σ caller ->
  head (filter (fun r => id r = target) (users σ)) = Some u ->
  exists σ',
    banUser target context σ = (Return true, σ')
    /\ (forall req payload,
          valid_access σ req payload ->
          jwt_userId payload = target ->
          run (authenticate req) σ'
          = Return (inl (error_response 403 "Access denied: Account is banned")))
    /\ (forall req payload u',
          valid_refresh σ req payload ->
          head (filter (fun r => email r = jwt_email payload) (users σ)) = Some u' ->
          id u' = target ->
          run (post_refresh req) σ'
          = Return {| rr_status := 401; rr_cookies := [];
                      rr_body := RefreshError "Invalid token" |}).
Proof.
  intros Hc Hadmin Hfound.
  destruct (set_status_by_admin σ BANNED "User banned" "USER_BANNED" target context
              caller Hc Hadmin) as (σ' & Hrun & Hframe).
  exists σ'. split; [exact Hrun|].
  destruct Hframe as (Hu & _ & _ & _ & _ & _ & _ & _ & _ & _ & Hnow & _).
  simpl in Hu, Hnow. split.
  - intros req payload (exp & Hh & Hlt) <-.
    eapply authenticate_banned; [exact Hh | rewrite Hnow; exact Hlt | |].
    + rewrite Hu, filter_id_update by reflexivity.
      rewrite decide_True by reflexivity. rewrite head_map, Hfound. reflexivity.
    + reflexivity.
  - intros req payload u' (exp & Hh & Hlt) Hu' <-.
    eapply post_refresh_banned.
    + exists exp. split; [exact Hh | rewrite Hnow; exact Hlt].
    + rewrite Hu, filter_email_update by reflexivity.
      rewrite head_map, Hu'. simpl. rewrite bool_decide_true by reflexivity.
      reflexivity.
    + reflexivity.
Qed.

(** X24.  [unbanUser] called by an admin writes ACTIVE over the target's
    status whatever it was: a banned user is active again, and an ADMIN
    target is an admin no longer.  An admin who names themselves loses the
    admin status, and their next admin mutation is refused. *)
Theorem unbanUser_spec (σ : world) (target : uuid) (context : Context) (caller : uuid) :
  caller_is context caller ->
  admin σ caller ->
  exists σ',
    unbanUser target context σ = (Return true, σ')
    /\ (forall u,
          head (filter (fun r => id r = target) (users σ)) = Some u ->
          head (filter (fun r => id r = target) (users σ'))
          = Some {| id := id u; email := email u; password_hash := password_hash u;
                    full_name := full_name u; global_status_of := ACTIVE |})
    /\ (forall i, i <> target ->
          filter (fun r => id r = i) (users σ') = filter (fun r => id r = i) (users σ))
    /\ (target = caller ->
        forall other,
          run (banUser other context) σ'
          = Throw (GraphQLError "Forbidden: Admin access required")).
Proof.
  intros Hc Hadmin.
  destruct (set_status_by_admin σ ACTIVE "User unbanned" "USER_UNBANNED" target context
              caller Hc Hadmin) as (σ' & Hrun & Hframe).
  exists σ'. split; [exact Hrun|].
  destruct Hframe as (Hu & _). simpl in Hu.
  split; [|split].
  - intros u Hfound. rewrite Hu, filter_id_update by reflexivity.
    rewrite decide_True by reflexivity. rewrite head_map, Hfound. reflexivity.
  - intros i Hne. rewrite Hu, filter_id_update by reflexivity.
    rewrite decide_False by exact Hne. reflexivity.
  - intros -> other. destruct Hadmin as (a & Ha & _).
    unfold run, banUser. unfold bind at 1. rewrite (authenticated_eq _ _ _ Hc).
    unfold bind at 1. erewrite admin_only_denied; [reflexivity| |].
    + rewrite Hu, filter_id_update by reflexivity.
      rewrite decide_True by reflexivity. rewrite head_map, Ha. reflexivity.
    + discriminate.
Qed.

(** X25.  The three admin mutations refuse a caller whose stored status is
    not ADMIN with 'Forbidden: Admin access required'; no user row has
    changed and no random value was drawn.  The status is read from the
    store, so what the caller's token says about it plays no part. *)
Theorem admin_mutations_need_admin (σ : world) (target newPassword : string)
    (context : Context) (caller : uuid) (a : user_row) :
  caller_is context caller ->
  head (filter (fun r => id r = caller) (users σ)) = Some a ->
  global_status_of a <> ADMIN ->
  let refused {A} (m : M A) :=
    run m σ = Throw (GraphQLError "Forbidden: Admin access required")
    /\ audit_only σ (exec m σ) in
  refused (banUser target context)
  /\ refused (unbanUser target context)
  /\ refused (adminResetPassword target newPassword context).
Proof.
  intros Hc Ha Hno refused. unfold refused, run, exec.
  unfold banUser, unbanUser, adminResetPassword.
  repeat split;
    unfold bind at 1; rewrite (authenticated_eq _ _ _ Hc);
    unfold bind at 1; rewrite (admin_only_denied _ _ _ Ha Hno);
    first [reflexivity | apply audit_only_traced].
Qed.

(** X26.  [updatePassword]: with a wrong old password the call throws
    'Invalid old password' and no row has changed.  With the right one it
    returns [true]; the caller's row carries the hash of the new password,
    every other column and every other user's row is as before, and the
    device table is untouched, so no session is ended.  When [bcrypt]
    accepts the new password against its own hash, [/login] with the new
    password then answers 200. *)
Theorem updatePassword_spec (σ : world) (oldPassword newPassword : string)
    (context : Context) (caller : uuid) (u : user_row) :
  caller_is context caller ->
  head (filter (fun r => id r = caller) (users σ)) = Some u ->
  let u' := {| id := id u; email := email u;
               password_hash := bcrypt_hash (drawn σ) newPassword;
               full_name := full_name u; global_status_of := global_status_of u |} in
  exists o σ',
    updatePassword oldPassword newPassword context σ = (o, σ')
    /\ (bcrypt_compare oldPassword (password_hash u) = false ->
        o = Throw (GraphQLError "Invalid old password") /\ audit_only σ σ')
    /\ (bcrypt_compare oldPassword (password_hash u) = true ->
        o = Return true
        /\ head (filter (fun r => id r = caller) (users σ')) = Some u'
        /\ (forall i, i <> caller ->
              filter (fun r => id r = i) (users σ') = filter (fun r => id r = i) (users σ))
        /\ user_devices σ' = user_devices σ
        /\ (forall login,
              body_email login = email u ->
              body_password login = newPassword ->
              head (filter (fun r => email r = email u) (users σ)) = Some u ->
              global_status_of u <> BANNED ->
              bcrypt_compare newPassword (bcrypt_hash (drawn σ) newPassword) = true ->
              exists res, run (post_login login) σ' = Return res /\ res_status res = 200)).
Proof.
  intros Hc Hu u'.
  unfold updatePassword. unfold bind at 1. rewrite (authenticated_eq _ _ _ Hc).
  unfold bind at 1. rewrite getUserById_eq, Hu.
  unfold comparePassword, hashPassword, update_password_hash, statement.
  destruct (bcrypt_compare oldPassword (password_hash u)) eqn:Hpw.
  - run_handler. step_audit.
    do 2 eexists. split; [reflexivity|]. split; [discriminate|]. intros _.
    destruct Hframe as (Hus & Hd & _ & _ & _ & _ & _ & _ & _ & _ & Hnow & Hdr).
    simpl in Hus, Hd, Hnow, Hdr.
    split; [reflexivity|]. split; [|split; [|split; [exact Hd|]]].
    + rewrite Hus, filter_id_update by reflexivity.
      rewrite decide_True by reflexivity. rewrite head_map, Hu. reflexivity.
    + intros i Hne. rewrite Hus, filter_id_update by reflexivity.
      rewrite decide_False by exact Hne. reflexivity.
    + intros login He Hp Hmail Hst Hround.
      assert (Hid : id u = caller).
      { apply head_Some_elem_of, list_elem_of_filter in Hu. apply Hu. }
      destruct (post_login_accepted σ0 login u') as (σ1 & Hlogin & _).
      * rewrite Hus, He, filter_email_update by reflexivity.
        rewrite head_map, Hmail. simpl. rewrite bool_decide_true by exact Hid.
        reflexivity.
      * exact Hst.
      * rewrite Hp. exact Hround.
      * eexists. unfold run. rewrite Hlogin. split; reflexivity.
  - run_handler.
    do 2 eexists. split; [reflexivity|]. split; [|discriminate]. intros _.
    split; [reflexivity|]. apply (audit_only_traced [SelectUserById caller]).
Qed.

(** X27.  [register] needs no caller.  When the address is taken it throws
    'User with this email already exists' and no row is added.  Otherwise
    (the generated id being free) one row is appended, with the hash of
    the password and status ACTIVE.  The two tokens it returns are fixed
    strings that no verifier accepts; when [bcrypt] accepts the password
    against its own hash, [/login] with the same address and password then
    answers 200. *)
Theorem register_spec (σ : world) (e password name : string) (context : Context) :
  let row := {| id := gen_random_uuid (S (drawn σ)); email := e;
                password_hash := bcrypt_hash (drawn σ) password; full_name := name;
                global_status_of := ACTIVE |} in
  exists o σ',
    register e password name context σ = (o, σ')
    /\ (is_Some (head (filter (fun r => email r = e) (users σ))) ->
        o = Throw (GraphQLError "User with this email already exists")
        /\ audit_only σ σ')
    /\ (head (filter (fun r => email r = e) (users σ)) = None ->
        user_exists σ (id row) = false ->
        (exists access refresh,
           o = Return (access, refresh, row)
           /\ forall τ,
                run (verifyAccessToken access) τ = Throw (JsonWebTokenError "jwt malformed")
                /\ run (verifyRefreshToken refresh) τ
                   = Throw (JsonWebTokenError "jwt malformed"))
        /\ users σ' = (users σ ++ [row])%list
        /\ (forall login,
              body_email login = e ->
              body_password login = password ->
              bcrypt_compare password (bcrypt_hash (drawn σ) password) = true ->
              exists res, run (post_login login) σ' = Return res /\ res_status res = 200)).
Proof.
  intros row.
  unfold register, getUserByEmail. run_handler.
  destruct (head (filter (fun r => email r = e) (users σ))) as [u0|] eqn:Hfound; simpl.
  - do 2 eexists. split; [reflexivity|]. split; [|discriminate]. intros _.
    split; [reflexivity|]. apply (audit_only_traced [SelectUserByEmail e]).
  - unfold hashPassword, insert_user, statement. run_handler.
    destruct (user_exists σ (id row)) eqn:Hid.
    + match goal with |- context [if ?b then _ else _] => destruct b end;
        try step_audit; do 2 eexists; (split; [reflexivity|]);
        (split; [intros [? [=]]|]); intros _ Hx; exfalso;
        unfold row in Hid; simpl in Hid; rewrite Hid in Hx; discriminate Hx.
    + assert (Hfree : ~ Exists (fun r => id r = id row \/ email r = e) (users σ)).
      { intros Hex. apply Exists_exists in Hex as (r & Hr & [Hr1|Hr2]).
        - unfold user_exists in Hid. apply bool_decide_eq_false in Hid. apply Hid.
          apply Exists_exists. eauto.
        - apply head_None in Hfound.
          assert (r ∈ filter (fun r => email r = e) (users σ))
            by (apply list_elem_of_filter; auto).
          rewrite Hfound in *. eapply not_elem_of_nil; eassumption. }
      rewrite bool_decide_false by exact Hfree. simpl. step_audit.
      do 2 eexists. split; [reflexivity|]. split; [intros [? [=]]|]. intros _ _.
      destruct Hframe as (Hus & _). simpl in Hus.
      split; [|split; [exact Hus|]].
      * do 2 eexists. split; [reflexivity|]. intros τ. split; reflexivity.
      * intros login He Hp Hround.
        destruct (post_login_accepted σ0 login row) as (σ1 & Hlogin & _).
        -- rewrite Hus, He, filter_app. apply head_None in Hfound. rewrite Hfound.
           simpl. rewrite filter_cons, decide_True by reflexivity. reflexivity.
        -- discriminate.
        -- rewrite Hp. exact Hround.
        -- eexists. unfold run. rewrite Hlogin. split; reflexivity.
Qed.

(** X28.  [forgotPassword] answers [true] for every address, known or not,
    and changes nothing in the store beyond an audit row: no password, no
    status and no session is touched. *)
Theorem forgotPassword_spec (σ : world) (e : string) :
  exists σ', forgotPassword e σ = (Return true, σ') /\ audit_only σ σ'.
Proof.
  unfold forgotPassword, getUserByEmail. run_handler.
  destruct (head (filter (fun r => email r = e) (users σ))) as [u|]; simpl.
  - step_audit. eexists. split; [reflexivity|]. frame_from Hframe.
  - eexists. split; [reflexivity|]. apply (audit_only_traced [SelectUserByEmail e]).
Qed.

(* ===================================================================== *)
(** ** Properties of [createTask] and [updateProject] *)
(* ===================================================================== *)

(** The loop of [createTask] over assignees who all exist as users. *)
Lemma assign_and_notify_run (t : uuid) (notice : string) (ids : list uuid) (σ : world) :
  is_Some (tasks σ !! t) ->
  Forall (fun u => user_exists σ u = true) ids ->
  exists σ',
    assign_and_notify t notice ids σ = (Return tt, σ')
    /\ notifications σ'
       = (notifications σ
          ++ map (fun u => {| recipient_id := u; n_title := "Task Assigned";
                              n_body := notice; related_entity_id := Some t;
                              related_entity_type := Some "Task" |}) ids)%list
    /\ (forall u, u ∈ ids -> is_Some (task_assignments σ' !! (t, u)))
    /\ (forall k, is_Some (task_assignments σ !! k) -> is_Some (task_assignments σ' !! k))
    /\ (forall t' u, t' <> t ->
          task_assignments σ' !! (t', u) = task_assignments σ !! (t', u))
    /\ users σ' = users σ /\ tasks σ' = tasks σ
    /\ project_members σ' = project_members σ /\ published σ' = published σ.
Proof.
  revert σ. induction ids as [|u ids IH]; intros σ Htask Hall.
  - exists σ. split; [reflexivity|]. rewrite app_nil_r.
    split; [reflexivity|]. split; [intros u Hu; inversion Hu|]. auto 10.
  - apply Forall_cons in Hall as [Hu Hall].
    cbn [assign_and_notify]. unfold statement, createNotification.
    set (σ1 := match task_assignments σ !! (t, u) with
               | Some _ => σ
               | None => set_task_assignments <[(t, u) := now σ]> σ
               end).
    assert (H1 : (fun σ : world =>
                    match task_assignments σ !! (t, u) with
                    | Some _ => (Return tt, σ)
                    | None =>
                        if bool_decide (is_Some (tasks σ !! t)) && user_exists σ u
                        then (Return tt, set_task_assignments <[(t, u) := now σ]> σ)
                        else (Throw (DatabaseError "violates foreign key constraint"), σ)
                    end) σ = (Return tt, σ1)).
    { unfold σ1. cbv beta. destruct (task_assignments σ !! (t, u)); [reflexivity|].
      rewrite bool_decide_true by exact Htask. rewrite Hu. reflexivity. }
    unfold bind at 1. rewrite H1.
    assert (Hsame : users σ1 = users σ /\ tasks σ1 = tasks σ
                    /\ notifications σ1 = notifications σ
                    /\ project_members σ1 = project_members σ
                    /\ published σ1 = published σ)
      by (unfold σ1; destruct (task_assignments σ !! (t, u)); auto).
    destruct Hsame as (Hus1 & Ht1 & Hn1 & Hpm1 & Hpub1).
    assert (Hhere : is_Some (task_assignments σ1 !! (t, u))).
    { unfold σ1. destruct (task_assignments σ !! (t, u)) eqn:Hk; [rewrite Hk; eauto|].
      simpl. rewrite lookup_insert_eq. eauto. }
    assert (Hkeep : forall k, is_Some (task_assignments σ !! k) ->
                              is_Some (task_assignments σ1 !! k)).
    { intros k Hk. unfold σ1. destruct (task_assignments σ !! (t, u)) eqn:Hk'; [exact Hk|].
      simpl. destruct (decide (k = (t, u))) as [->|Hne];
        [rewrite lookup_insert_eq; eauto | rewrite lookup_insert_ne by congruence; exact Hk]. }
    assert (Hother : forall t' v, t' <> t ->
                       task_assignments σ1 !! (t', v) = task_assignments σ !! (t', v)).
    { intros t' v Hne. unfold σ1. destruct (task_assignments σ !! (t, u)); [reflexivity|].
      simpl. rewrite lookup_insert_ne by congruence. reflexivity. }
    run_handler.
    change (user_exists (set_trace _ σ1) u) with (user_exists σ1 u).
    assert (user_exists σ1 u = true) as -> by (unfold user_exists; rewrite Hus1; exact Hu).
    simpl. step_audit.
    destruct Hframe as (Hus & _ & _ & _ & _ & Hpm & Ht & Ha & Hn & Hpub & _).
    simpl in Hus, Hpm, Ht, Ha, Hn, Hpub.
    destruct (IH σ0) as (σ' & Hrun & Hn' & Hin' & Hkeep' & Hother' & Hus' & Ht' & Hpm' & Hpub').
    { rewrite Ht, Ht1. exact Htask. }
    { eapply Forall_impl; [exact Hall|]. intros v Hv. unfold user_exists in *.
      rewrite Hus, Hus1. exact Hv. }
    rewrite Hrun. exists σ'. split; [reflexivity|].
    split; [rewrite Hn', Hn, Hn1, <- app_assoc; reflexivity|].
    split; [|split; [|split; [|split; [congruence|split; [congruence|split; congruence]]]]].
    + intros v Hv. apply elem_of_cons in Hv as [->|Hv]; [|apply Hin'; exact Hv].
      apply Hkeep'. rewrite Ha. exact Hhere.
    + intros k Hk. apply Hkeep'. rewrite Ha. apply Hkeep. exact Hk.
    + intros t' v Hne. rewrite Hother', Ha by exact Hne. apply Hother. exact Hne.
Qed.

(** X29.  [createTask] asks for Contributor on the project; below that the
    caller gets 'Insufficient permissions: Requires Contributor role or
    higher' and nothing is written.  Otherwise the task is stored with
    status TODO and the caller as creator, and every entry of the assignee
    list, repeated entries included, gets one 'Task Assigned' notification
    and ends up assigned.  Assignees only have to be users: they need no
    row in the project and get none.  No event is published.  When the
    first assignee is no user the call throws after the task was stored,
    and the task stays. *)
Theorem createTask_spec (σ : world) (p : uuid) (ttitle : string)
    (description : option string) (assignedToIds : option (list uuid))
    (context : Context) (caller : uuid) :
  caller_is context caller ->
  let i := gen_random_uuid (drawn σ) in
  let row := {| project_id := p; title := ttitle; t_description := description;
                status := TODO; t_created_by := caller |} in
  let ids := default [] assignedToIds in
  exists o σ',
    createTask p ttitle description assignedToIds context σ = (o, σ')
    /\ (~ project_access σ caller p Contributor ->
        o = Throw (Error "Insufficient permissions: Requires Contributor role or higher")
        /\ audit_only σ σ')
    /\ (project_access σ caller p Contributor ->
        is_Some (projects σ !! p) ->
        user_exists σ caller = true ->
        tasks σ !! i = None ->
        (Forall (fun u => user_exists σ u = true) ids ->
         o = Return (i, row)
         /\ tasks σ' = <[i := row]> (tasks σ)
         /\ notifications σ'
            = (notifications σ
               ++ map (fun u =>
                    {| recipient_id := u; n_title := "Task Assigned";
                       n_body := "You have been assigned to task: " ++ ttitle;
                       related_entity_id := Some i;
                       related_entity_type := Some "Task" |}) ids)%list
         /\ (forall u, u ∈ ids -> is_Some (task_assignments σ' !! (i, u)))
         /\ (forall t' u, t' <> i ->
               task_assignments σ' !! (t', u) = task_assignments σ !! (t', u))
         /\ project_members σ' = project_members σ
         /\ published σ' = published σ)
        /\ (forall u rest,
              assignedToIds = Some (u :: rest) ->
              user_exists σ u = false ->
              task_assignments σ !! (i, u) = None ->
              rejected o /\ tasks σ' !! i = Some row)).
Proof.
  intros Hc i row ids. section_free.
  unfold createTask. unfold bind at 1. rewrite (authenticated_eq _ _ _ Hc).
  destruct (project_access_dec σ caller p Contributor) as [Hacc|Hno].
  - unfold bind at 1. rewrite requireProjectAccess_granted by exact Hacc.
    destruct (bool_decide (is_Some (projects σ !! p)) && user_exists σ caller) eqn:Hfk;
      [destruct (tasks σ !! i) as [t0|] eqn:Ht|].
    + unfold insert_task, statement. run_handler. fold i. rewrite Ht. simpl.
      do 2 eexists. split; [reflexivity|]. split; [tauto|]. intros _ _ _ [=].
    + set (σ1 := set_tasks <[i := row]>
                   (set_drawn S (traced [SelectProjectRole p caller] σ))).
      assert (Hins : insert_task p ttitle description caller
                       (traced [SelectProjectRole p caller] σ)
                     = (Return (i, row), σ1)).
      { unfold insert_task, statement. cbv beta zeta. simpl drawn. simpl tasks.
        fold i. rewrite Ht. simpl projects. same_users σ. rewrite Hfk. reflexivity. }
      unfold bind at 1. rewrite Hins. cbn [fst].
      destruct (decide (Forall (fun u => user_exists σ u = true) ids)) as [Hall|Hsome].
      * destruct (assign_and_notify_run i ("You have been assigned to task: " ++ ttitle)
                    ids σ1)
          as (σ2 & Hrun & Hn & Hin & _ & Hother & _ & Htasks & Hpm & Hpub).
        { unfold σ1. simpl. rewrite lookup_insert_eq. eauto. }
        { exact Hall. }
        assert (Hloop : match assignedToIds with
                        | Some ids0 =>
                            assign_and_notify i
                              ("You have been assigned to task: " ++ ttitle) ids0
                        | None => ret tt
                        end σ1 = (Return tt, σ2)).
        { unfold ids in Hrun. destruct assignedToIds; exact Hrun. }
        unfold bind at 1. rewrite Hloop. unfold bind at 1. step_audit.
        do 2 eexists. split; [reflexivity|]. split; [tauto|]. intros _ _ _ _.
        destruct Hframe as (_ & _ & _ & _ & _ & Hpm0 & Ht0 & Ha0 & Hn0 & Hpub0 & _).
        split.
        -- intros _. split; [reflexivity|].
           rewrite Ht0, Hn0, Ha0, Hpm0, Hpub0, Htasks, Hn, Hpm, Hpub.
           split; [reflexivity|]. split; [reflexivity|]. split; [exact Hin|].
           split; [exact Hother|]. split; reflexivity.
        -- intros u rest -> Hu. exfalso. unfold ids in Hall. simpl in Hall.
           apply Forall_cons in Hall as [Hu' _]. congruence.
      * destruct assignedToIds as [[|u rest]|].
        -- exfalso. apply Hsome. constructor.
        -- destruct (user_exists σ u) eqn:Hu.
           ++ destruct (assign_and_notify i ("You have been assigned to task: " ++ ttitle)
                          (u :: rest) σ1) as [o2 σ2] eqn:Hloop.
              unfold bind at 1. rewrite Hloop.
              destruct o2; [unfold bind at 1; step_audit|];
                do 2 eexists; (split; [reflexivity|]); (split; [tauto|]);
                intros _ _ _ _; (split; [tauto|]);
                intros ? ? [= <- <-]; congruence.
           ++ unfold bind at 1. cbn [assign_and_notify]. unfold statement.
              unfold bind at 1.
              destruct (task_assignments σ !! (i, u)) eqn:Ha.
              ** change (task_assignments σ1) with (task_assignments σ). rewrite Ha.
                 match goal with
                 | |- context [(let (o, s) := ?m in _)] => destruct m as [o2 σ2]
                 end.
                 destruct o2; [unfold bind at 1; step_audit|];
                   do 2 eexists; (split; [reflexivity|]); (split; [tauto|]);
                   intros _ _ _ _; (split; [tauto|]);
                   intros ? ? [= <- <-]; congruence.
              ** change (task_assignments σ1) with (task_assignments σ). rewrite Ha.
                 same_users σ. rewrite Hu, andb_false_r.
                 do 2 eexists. split; [reflexivity|]. split; [tauto|].
                 intros _ _ _ _. split; [tauto|]. intros ? ? _ _ _.
                 split; [eexists; reflexivity|].
                 unfold σ1. simpl. apply lookup_insert_eq.
        -- exfalso. apply Hsome. constructor.
    + unfold insert_task, statement. run_handler. fold i. same_users σ. rewrite Hfk.
      destruct (tasks σ !! i); simpl; do 2 eexists; (split; [reflexivity|]);
        (split; [tauto|]); intros _ Hp Hu; exfalso;
        rewrite bool_decide_true, Hu in Hfk by exact Hp; discriminate.
  - unfold bind at 1. rewrite requireProjectAccess_denied by exact Hno.
    do 2 eexists. split; [reflexivity|]. split; [|tauto]. intros _.
    split; [reflexivity|]. apply audit_only_traced.
Qed.

(** X30.  [updateProject] by the Project Lead changes only the columns
    that were passed: a name or description left out keeps its stored
    value, and with both left out the stored row is returned as it is.
    The workspace and the creator of the project never change, no other
    project and no other table is touched, and, unlike the other
    mutations, no audit row is written.  When the project row is missing
    the answer is empty. *)
Theorem updateProject_spec (σ : world) (p : uuid) (newName newDescription : option string)
    (context : Context) (caller : uuid) :
  caller_is context caller ->
  project_lead σ caller p ->
  exists o σ',
    updateProject p newName newDescription context σ = (Return o, σ')
    /\ o = projects σ' !! p
    /\ projects σ' !! p
       = (fun row =>
            {| workspace_id := workspace_id row;
               p_name := default (p_name row) newName;
               p_description := match newDescription with
                                | Some d => Some d
                                | None => p_description row
                                end;
               p_created_by := p_created_by row |}) <$> projects σ !! p
    /\ (forall p', p' <> p -> projects σ' !! p' = projects σ !! p')
    /\ (newName = None -> newDescription = None -> projects σ' = projects σ)
    /\ audit_logs σ' = audit_logs σ
    /\ project_members σ' = project_members σ
    /\ tasks σ' = tasks σ
    /\ workspaces σ' = workspaces σ.
Proof.
  intros Hc Hlead.
  unfold updateProject. unfold bind at 1. rewrite (authenticated_eq _ _ _ Hc).
  unfold bind at 1. rewrite checkProjectLeadAccess_eq.
  rewrite bool_decide_true by exact Hlead. unfold statement.
  destruct newName as [n|], newDescription as [d|]; run_handler;
    do 2 eexists; (split; [reflexivity|]); simpl;
    rewrite ?lookup_alter_eq;
    (split; [reflexivity|]);
    (split; [first [reflexivity
                   | destruct (projects σ !! p) as [[]|]; reflexivity]|]);
    (split; [intros p' Hne; rewrite ?lookup_alter_ne by congruence; reflexivity|]);
    (split; [intros; first [discriminate | reflexivity]|]);
    repeat split; reflexivity.
Qed.

End Server.

(* ===================================================================== *)
(** ** The properties at work on the demo store *)
(* ===================================================================== *)

Lemma demo_ids_wf : workspace_ids_wf demo.
Proof. apply (bool_decide_unpack _). vm_compute. exact I. Defined.

Lemma alice_is_caller : caller_is (context_of alice) alice.
Proof. split; [reflexivity | discriminate]. Defined.

(** Mallory, a member of nothing, fails the check; Alice, Owner of [w1],
    passes it at Member. *)
Lemma checkWorkspaceAccess_spec_witness :
  run (checkWorkspaceAccess mallory (Some w1) Owner) demo
  = Return {| hasAccess := false; role := None |}
  /\ passes (run (checkWorkspaceAccess alice (Some w1) Member) demo).
Proof.
  split.
  - apply (proj1 (checkWorkspaceAccess_spec demo mallory w1 Owner)).
    vm_compute. reflexivity.
  - apply (proj2 (proj2 (proj2 (checkWorkspaceAccess_spec demo alice w1 Member)))
             {| wm_role := Owner; wm_joined_at := 10 |}).
    + vm_compute. reflexivity.
    + simpl. lia.
Defined.

(** Alice owns the parent workspace of [p1] and is let through; the
    ownership check comes after the lead check in the trace. *)
Lemma membership_gate_spec_witness :
  caller_is (context_of alice) alice
  /\ workspace_ids_wf demo
  /\ (~ turned_away (run (addProjectMember p1 dave (context_of alice)) demo)
      <-> project_lead demo alice p1 \/ owner_of_parent demo alice p1)
  /\ (exists rest,
        trace (exec (removeProjectMember p1 dave (context_of alice)) demo)
        = (trace demo ++ SelectProjectLead p1 alice :: rest)%list
        /\ ((exists w, SelectWorkspaceOwner w alice ∈ rest) -> ~ project_lead demo alice p1)).
Proof.
  split; [exact alice_is_caller|]. split; [exact demo_ids_wf|].
  destruct (membership_gate_spec demo p1 dave (context_of alice) alice
              alice_is_caller demo_ids_wf) as (Hadd & _ & _ & Hrem).
  split; assumption.
Defined.

(** Alice, an authorized caller, cannot add Mallory, who is not a member of
    [w1]. *)
Lemma addProjectMember_precondition_witness :
  (project_lead demo alice p1 \/ owner_of_parent demo alice p1)
  /\ workspace_members demo !! (w1, mallory) = None
  /\ run (addProjectMember p1 mallory (context_of alice)) demo = Throw PreconditionFailed
  /\ project_members (exec (addProjectMember p1 mallory (context_of alice)) demo)
     = project_members demo.
Proof.
  assert (Hauth : project_lead demo alice p1 \/ owner_of_parent demo alice p1).
  { right. eexists. split; vm_compute; reflexivity. }
  split; [exact Hauth|]. split; [vm_compute; reflexivity|].
  destruct (addProjectMember_precondition demo p1 mallory (context_of alice) alice
              alice_is_caller demo_ids_wf Hauth) as (H1 & _ & _ & _ & H2).
  - intros p Hp. vm_compute in Hp. injection Hp as <-. vm_compute. reflexivity.
  - split; assumption.
Defined.

(** Alice owns the parent workspace of [p1] and leads nothing:
    [updateProjectMemberRole] refuses her, [removeProjectMember] does not. *)
Lemma updateProjectMemberRole_refuses_parent_owner_witness :
  owner_of_parent demo alice p1
  /\ ~ project_lead demo alice p1
  /\ run (updateProjectMemberRole p1 dave "Contributor" (context_of alice)) demo
     = Throw Forbidden_membership
  /\ run (removeProjectMember p1 dave (context_of alice)) demo = Return true.
Proof.
  assert (Hparent : owner_of_parent demo alice p1).
  { eexists. split; vm_compute; reflexivity. }
  assert (Hlead : ~ project_lead demo alice p1) by (vm_compute; discriminate).
  assert (Hown : ~ workspace_owner demo alice p1) by (vm_compute; discriminate).
  split; [exact Hparent|]. split; [exact Hlead|].
  destruct (updateProjectMemberRole_refuses_parent_owner demo p1 dave "Contributor"
              (context_of alice) alice alice_is_caller demo_ids_wf Hlead Hparent Hown)
    as (H1 & H2 & _).
  split; assumption.
Defined.

(** Alice's session on [d1] exists and is not revoked, yet it is reported
    revoked. *)
Example isDeviceRevoked_live_session :
  is_revoked <$> user_devices demo !! (alice, d1) = Some false
  /\ run (isDeviceRevoked alice d1) demo = Return true.
Proof. split; vm_compute; reflexivity. Qed.

(** C10 as stated fails: Bob already leads [p1] but is no longer a member
    of its workspace; when Alice, who owns the workspace, adds him, his row
    is untouched but the mutation throws instead of returning [true]. *)
Lemma addProjectMember_existing_member_throws :
  pm_role <$> project_members demo !! (p1, bob) = Some ProjectLead
  /\ owner_of_parent demo alice p1
  /\ run (addProjectMember p1 bob (context_of alice)) demo = Throw PreconditionFailed
  /\ run (addProjectMember p1 bob (context_of alice)) demo <> Return true.
Proof.
  split; [vm_compute; reflexivity|].
  split; [eexists; split; vm_compute; reflexivity|].
  split; [vm_compute; reflexivity | vm_compute; discriminate].
Qed.

(** Alice re-adds herself to [w1] and Dave to [p1]: both rows keep their
    Owner and Project Lead roles, and both mutations return [true]. *)
Lemma add_member_keeps_existing_row_witness :
  wm_role <$> workspace_members (exec (addWorkspaceMember w1 alice (context_of alice)) demo)
              !! (w1, alice) = Some Owner
  /\ run (addWorkspaceMember w1 alice (context_of alice)) demo = Return true
  /\ pm_role <$> project_members (exec (addProjectMember p1 dave (context_of alice)) demo)
                 !! (p1, dave) = Some ProjectLead
  /\ run (addProjectMember p1 dave (context_of alice)) demo = Return true.
Proof.
  destruct (add_member_keeps_existing_row demo (context_of alice)) as [Hw Hp].
  destruct (Hw w1 alice {| wm_role := Owner; wm_joined_at := 10 |}) as [Hw1 Hw2];
    [vm_compute; reflexivity|].
  destruct (Hp p1 dave {| pm_role := ProjectLead; pm_joined_at := 40 |}) as [Hp1 Hp2];
    [vm_compute; reflexivity|].
  split; [rewrite Hw1; vm_compute; reflexivity|].
  split; [apply (Hw2 alice alice_is_caller); vm_compute; reflexivity|].
  split; [rewrite Hp1; vm_compute; reflexivity|].
  apply (Hp2 alice {| workspace_id := w1; p_name := "Launch"; p_description := None;
                      p_created_by := dave |} alice_is_caller demo_ids_wf).
  - right. eexists. split; vm_compute; reflexivity.
  - vm_compute. reflexivity.
  - eexists. vm_compute. reflexivity.
Defined.

(** C9 as stated fails: Mallory holds no role on the project of [t1], and
    [getTask] tells her whether a task id exists: [Forbidden] for [t1],
    not found for [t2], and not found for [t1] once it is deleted. *)
Lemma getTask_reveals_existence :
  project_members demo !! (p1, mallory) = None
  /\ run (getTask t1 (context_of mallory)) demo = Throw Forbidden
  /\ run (getTask t2 (context_of mallory)) demo = Throw NotFound_task
  /\ run (getTask t1 (context_of mallory)) (set_tasks (delete t1) demo)
     = Throw NotFound_task
  /\ run (getTask t1 (context_of mallory)) demo
     <> run (getTask t1 (context_of mallory)) (set_tasks (delete t1) demo).
Proof.
  repeat split; try (vm_compute; reflexivity). vm_compute. discriminate.
Qed.

Lemma mallory_is_caller : caller_is (context_of mallory) mallory.
Proof. split; [reflexivity | discriminate]. Defined.

(** Mallory on the demo store: the permissions error for the project and
    the workspace, [Forbidden] for the task that exists, not found for the
    one that does not; and for [t1] the answer changes once the task is
    gone, while the answer for [p1] does not change with the project. *)
Lemma existence_then_authorization_witness :
  caller_is (context_of mallory) mallory
  /\ run (getWorkspace w1 (context_of mallory)) demo
     = Throw (insufficient_permissions "Viewer")
  /\ run (getProject p1 (context_of mallory)) demo
     = Throw (insufficient_permissions "Project Viewer")
  /\ run (getTask t2 (context_of mallory)) demo = Throw NotFound_task
  /\ run (getTask t1 (context_of mallory)) demo = Throw Forbidden
  /\ run (getTask t1 (context_of mallory)) demo
     <> run (getTask t1 (context_of mallory)) (set_tasks (delete t1) demo)
  /\ run (deleteTask t1 (context_of mallory)) demo
     <> run (deleteTask t1 (context_of mallory)) (set_tasks (delete t1) demo)
  /\ run (getProject p1 (context_of mallory)) (set_projects (delete p1) demo)
     = run (getProject p1 (context_of mallory)) demo.
Proof.
  split; [exact mallory_is_caller|].
  destruct (existence_then_authorization demo (context_of mallory) mallory
              mallory_is_caller) as (Hw & Hp & Hmiss & Hden & Hleak & _ & Hsame).
  assert (Hnone : forall r, ~ project_access demo mallory p1 r)
    by (intros r (row & Hrow & _); vm_compute in Hrow; discriminate).
  split; [apply Hw; intros (row & Hrow & _); vm_compute in Hrow; discriminate|].
  split; [apply Hp; apply Hnone|].
  split; [apply (Hmiss t2 None None None None); vm_compute; reflexivity|].
  split.
  - apply (proj1 (Hden t1 {| project_id := p1; title := "Write the release notes";
                             t_description := None; status := TODO;
                             t_created_by := dave |} None None None None
                    ltac:(vm_compute; reflexivity))).
    apply Hnone.
  - destruct (Hleak t1 {| project_id := p1; title := "Write the release notes";
                          t_description := None; status := TODO;
                          t_created_by := dave |} None None None None
                ltac:(vm_compute; reflexivity) (Hnone ProjectViewer))
      as (Hget & _ & Hdel).
    split; [exact Hget|]. split; [exact Hdel|].
    apply Hsame. apply Hnone.
Defined.

(** Carol is banned and still holds a valid access token: the REST
    middleware answers 403, the GraphQL gate lets [me] answer. *)
Lemma graphql_lets_banned_user_in_witness :
  global_status_of (account carol "carol@example.com" BANNED) = BANNED
  /\ now demo < 1600
  /\ run (authenticate demo_env (bearer_request carol_token)) demo
     = Return (inl (error_response 403 "Access denied: Account is banned"))
  /\ run (context <- getContext demo_env (bearer_request carol_token) ;; me context) demo
     = Return (Some (account carol "carol@example.com" BANNED)).
Proof.
  split; [reflexivity|]. split; [simpl; lia|].
  destruct (graphql_lets_banned_user_in demo_env demo (bearer_request carol_token)
              (payload_of (account carol "carol@example.com" ACTIVE)) 1600
              (account carol "carol@example.com" BANNED)) as (H1 & _ & H3).
  - reflexivity.
  - simpl. lia.
  - discriminate.
  - vm_compute. reflexivity.
  - reflexivity.
  - split; assumption.
Defined.

(** A banned user's subscription attach goes through as well: Carol, a
    banned member of [w1], is attached to its channel. *)
Example banned_user_attaches_subscription :
  run (context <- getContext demo_env (bearer_request carol_token) ;;
       taskStatusUpdated_subscribe w1 context) demo
  = Return "TASK_STATUS_UPDATED_11111111-0000-4000-8000-00000000000a".
Proof. vm_compute. reflexivity. Qed.

(** Alice logs in and logs out on the demo store: the logout answers 200
    and clears the cookie, and the session row recorded at login is still
    live. *)
Lemma logout_leaves_login_session_live_witness :
  run (post_login demo_span demo_bcrypt demo_uuid demo_env login_request) demo
  = Return {| res_status := 200;
              res_cookies := [SetCookie "refreshToken" alice_refresh_token];
              res_body := LoginBody alice_access_token alice_refresh_token
                {| lu_id := alice; lu_email := "alice@example.com";
                   lu_full_name := "alice@example.com"; lu_global_status := ACTIVE |} |}
  /\ run (post_logout demo_env (logout_request alice_access_token alice_refresh_token))
       (exec (post_login demo_span demo_bcrypt demo_uuid demo_env login_request) demo)
     = Return {| res_status := 200; res_cookies := [ClearCookie "refreshToken"];
                 res_body := MessageBody "Logged out successfully" |}
  /\ is_revoked <$>
       user_devices
         (exec (post_logout demo_env (logout_request alice_access_token alice_refresh_token))
            (exec (post_login demo_span demo_bcrypt demo_uuid demo_env login_request) demo))
       !! (alice, demo_uuid 0) = Some false.
Proof.
  destruct (logout_leaves_login_session_live demo_span demo_bcrypt demo_uuid demo_env
              demo login_request
              (logout_request alice_access_token alice_refresh_token)
              (account alice "alice@example.com" ACTIVE))
    as (H1 & _ & H3 & H4).
  - vm_compute. reflexivity.
  - vm_compute. reflexivity.
  - discriminate.
  - vm_compute. reflexivity.
  - vm_compute. reflexivity.
  - vm_compute. discriminate.
  - reflexivity.
  - reflexivity.
  - reflexivity.
  - split; [exact H1|]. split; [exact H3 | exact H4].
Defined.

(** C8 as stated fails: under the default configuration both secrets are
    the same text, so a refresh token passes [verifyAccessToken] and an
    access token passes [verifyRefreshToken]. *)
Lemma default_secrets_accept_both_kinds :
  secret (config demo_env) = refreshSecret (config demo_env)
  /\ run (t <- generateRefreshToken demo_span demo_env
                 (payload_of (account alice "alice@example.com" ACTIVE)) ;;
          verifyAccessToken demo_env t) demo
     = Return (payload_of (account alice "alice@example.com" ACTIVE))
  /\ run (t <- generateAccessToken demo_span demo_env
                 (payload_of (account alice "alice@example.com" ACTIVE)) ;;
          verifyRefreshToken demo_env t) demo
     = Return (payload_of (account alice "alice@example.com" ACTIVE))
  /\ ~ rejected (run (t <- generateRefreshToken demo_span demo_env
                             (payload_of (account alice "alice@example.com" ACTIVE)) ;;
                      verifyAccessToken demo_env t) demo).
Proof.
  repeat split; try (vm_compute; reflexivity).
  intros [e He]. vm_compute in He. discriminate.
Qed.

(** With the two secrets set apart in the environment, each verifier
    rejects the other kind of token. *)
Lemma distinct_secrets_separate_tokens_witness :
  secret (config split_env) <> refreshSecret (config split_env)
  /\ rejected (run (t <- generateRefreshToken demo_span split_env
                           (payload_of (account alice "alice@example.com" ACTIVE)) ;;
                    verifyAccessToken split_env t) demo)
  /\ rejected (run (t <- generateAccessToken demo_span split_env
                           (payload_of (account alice "alice@example.com" ACTIVE)) ;;
                    verifyRefreshToken split_env t) demo).
Proof.
  assert (Hne : secret (config split_env) <> refreshSecret (config split_env))
    by (vm_compute; discriminate).
  split; [exact Hne|].
  destruct (distinct_secrets_separate_tokens demo_span split_env
              (payload_of (account alice "alice@example.com" ACTIVE)) demo Hne)
    as [H1 H2].
  split; eexists; eassumption.
Defined.


(* ===================================================================== *)
(** ** The further properties, on the demo store *)
(* ===================================================================== *)

Lemma context_of_caller (c : uuid) : c <> "" -> caller_is (context_of c) c.
Proof. intros Hne. split; [reflexivity | exact Hne]. Defined.

(** Mallory has no row in [p1]; Dave, its lead, passes at Contributor. *)
Lemma checkProjectAccess_spec_witness :
  run (checkProjectAccess mallory p1 ProjectViewer) demo
  = Return {| hasAccess := false; role := None |}
  /\ project_access demo dave p1 Contributor
  /\ passes (run (checkProjectAccess dave p1 Contributor) demo).
Proof.
  split.
  - apply (proj1 (checkProjectAccess_spec demo mallory p1 ProjectViewer)).
    vm_compute. reflexivity.
  - assert (Hacc : project_access demo dave p1 Contributor).
    { exists {| pm_role := ProjectLead; pm_joined_at := 40 |}.
      split; [vm_compute; reflexivity | simpl; lia]. }
    split; [exact Hacc|].
    apply (proj2 (proj1 (proj2 (proj2 (proj2
             (checkProjectAccess_spec demo dave p1 Contributor)))))).
    exact Hacc.
Defined.

(** Alice passes the ownership check on [w1] and with it every workspace
    level; Dave passes the lead check on [p1] and every project level. *)
Lemma ownership_checks_agree_witness :
  run (checkWorkspaceOwnership alice w1) demo = Return true
  /\ run (requireWorkspaceAccess alice (Some w1) Member) demo = Return tt
  /\ run (checkProjectLeadAccess dave p1) demo = Return true
  /\ run (requireProjectAccess dave p1 Contributor) demo = Return tt.
Proof.
  destruct (ownership_checks_agree demo alice w1 p1) as (_ & _ & Hw & _).
  destruct (ownership_checks_agree demo dave w1 p1) as (_ & _ & _ & Hp).
  assert (Ha : run (checkWorkspaceOwnership alice w1) demo = Return true)
    by (vm_compute; reflexivity).
  assert (Hd : run (checkProjectLeadAccess dave p1) demo = Return true)
    by (vm_compute; reflexivity).
  split; [exact Ha|]. split; [exact (Hw Ha Member)|].
  split; [exact Hd | exact (Hp Hd Contributor)].
Defined.

(** A request without a user is refused by every guarded resolver. *)
Lemma anonymous_context_refused_witness :
  let anonymous := {| userId := None; user := None; ipAddress := Some "10.0.0.9";
                      userAgent := None |} in
  (forall caller, ~ caller_is anonymous caller)
  /\ me anonymous demo = (Throw Unauthorized, demo)
  /\ banUser carol anonymous demo = (Throw Unauthorized, demo)
  /\ deleteProject p1 anonymous demo = (Throw Unauthorized, demo).
Proof.
  intros anonymous.
  assert (Hanon : forall caller, ~ caller_is anonymous caller)
    by (intros caller [Hid _]; discriminate Hid).
  split; [exact Hanon|].
  pose proof (anonymous_context_refused demo_bcrypt demo_gen_uuid demo_hash demo
                anonymous Hanon) as H.
  split; [apply H|]. split; apply H.
Defined.

(** Revoking Alice's session on [d1] marks it, at the demo clock; where
    the session had been revoked at 950, the stamp moves to 1000. *)
Lemma revokeDevice_spec_witness :
  user_devices (exec (revokeDevice alice d1) demo) !! (alice, d1)
  = Some {| ip_address := Some "10.0.0.7"; user_agent := None; login_time := 900;
            is_revoked := true; revoked_at := Some 1000 |}
  /\ user_devices (exec (revokeDevice bob d1) demo) = user_devices demo
  /\ revoked_at <$> user_devices demo_revoked !! (alice, d1) = Some (Some 950)
  /\ revoked_at <$> user_devices (exec (revokeDevice alice d1) demo_revoked) !! (alice, d1)
     = Some (Some 1000).
Proof.
  destruct (revokeDevice_spec demo alice d1) as (_ & Hrow & _).
  destruct (revokeDevice_spec demo bob d1) as (_ & _ & Hnone & _).
  destruct (revokeDevice_spec demo_revoked alice d1) as (_ & _ & _ & _ & Hagain).
  split; [|split; [|split]].
  - apply (Hrow {| ip_address := Some "10.0.0.7"; user_agent := None;
                   login_time := 900; is_revoked := false; revoked_at := None |}).
    vm_compute. reflexivity.
  - apply Hnone. vm_compute. reflexivity.
  - vm_compute. reflexivity.
  - apply (Hagain {| ip_address := Some "10.0.0.7"; user_agent := None;
                     login_time := 900; is_revoked := true; revoked_at := Some 950 |}).
    + vm_compute. reflexivity.
    + reflexivity.
    + vm_compute. discriminate.
Defined.

(** Saving Alice's device again, after it was revoked, makes it live. *)
Lemma saveDevice_spec_witness :
  user_exists demo alice = true
  /\ is_revoked <$>
       user_devices (exec (saveDevice alice d1 None None)
                       (exec (revokeDevice alice d1) demo)) !! (alice, d1)
     = Some false.
Proof.
  assert (Hu : user_exists demo alice = true) by (vm_compute; reflexivity).
  split; [exact Hu|].
  destruct (saveDevice_spec demo alice d1 None None) as (Hsave & _).
  destruct (Hsave (or_introl Hu)) as (_ & _ & ->). reflexivity.
Defined.

(** A logout that names the device: Alice's session on [d1] is revoked. *)
Lemma logout_reach_witness :
  let req := {| authorization := Some (Bearer alice_access_token);
                cookies_refreshToken := Some alice_refresh_token;
                x_refresh_token := None; x_device_id := Some d1;
                ip := Some "10.0.0.7"; header_user_agent := None;
                body_email := ""; body_password := "" |} in
  valid_access demo_env demo req (payload_of (account alice "alice@example.com" ACTIVE))
  /\ is_revoked <$> user_devices (exec (post_logout demo_env req) demo) !! (alice, d1)
     = Some true.
Proof.
  intros req.
  assert (Hv : valid_access demo_env demo req
                 (payload_of (account alice "alice@example.com" ACTIVE))).
  { exists 1900. split; [reflexivity | vm_compute; reflexivity]. }
  split; [exact Hv|].
  destruct (logout_reach demo_env demo req) as (_ & _ & _ & Hlast).
  apply (Hlast (payload_of (account alice "alice@example.com" ACTIVE))
           (account alice "alice@example.com" ACTIVE)
           {| ip_address := Some "10.0.0.7"; user_agent := None; login_time := 900;
              is_revoked := false; revoked_at := None |} Hv).
  - vm_compute. reflexivity.
  - discriminate.
  - reflexivity.
  - vm_compute. reflexivity.
Defined.

(** Alice, a member of [w1], is attached to its channel; Mallory is not. *)
Lemma subscribe_needs_membership_witness :
  caller_is (context_of alice) alice
  /\ run (taskStatusUpdated_subscribe w1 (context_of alice)) demo
     = Return ("TASK_STATUS_UPDATED_" ++ w1)
  /\ run (taskStatusUpdated_subscribe w1 (context_of mallory)) demo
     = Throw (insufficient_permissions "Viewer").
Proof.
  split; [exact alice_is_caller|]. split.
  - apply (proj1 (subscribe_needs_membership demo w1 (context_of alice) alice
                    alice_is_caller)).
    eexists. vm_compute. reflexivity.
  - apply (proj1 (proj2 (subscribe_needs_membership demo w1 (context_of mallory) mallory
                           (context_of_caller mallory ltac:(discriminate))))).
    vm_compute. reflexivity.
Defined.

(** Dave deletes [t1]; a later [getTask] finds nothing. *)
Lemma deleteTask_spec_witness :
  caller_is (context_of dave) dave
  /\ project_access demo dave p1 Contributor
  /\ run (deleteTask t1 (context_of dave)) demo = Return true
  /\ run (getTask t1 (context_of dave)) (exec (deleteTask t1 (context_of dave)) demo)
     = Throw NotFound_task.
Proof.
  assert (Hc : caller_is (context_of dave) dave)
    by (apply context_of_caller; discriminate).
  assert (Hacc : project_access demo dave p1 Contributor).
  { exists {| pm_role := ProjectLead; pm_joined_at := 40 |}.
    split; [vm_compute; reflexivity | simpl; lia]. }
  split; [exact Hc|]. split; [exact Hacc|].
  destruct (deleteTask_spec demo t1 (context_of dave) dave
              {| project_id := p1; title := "Write the release notes";
                 t_description := None; status := TODO; t_created_by := dave |} Hc)
    as (Hrun & _ & _ & _ & Hget).
  - vm_compute. reflexivity.
  - exact Hacc.
  - split; [exact Hrun | exact Hget].
Defined.

(** Alice cannot put Mallory into [p1] before Mallory is in [w1], and can
    afterwards. *)
Lemma workspace_then_project_membership_witness :
  run (addProjectMember p1 mallory (context_of alice)) demo = Throw PreconditionFailed
  /\ run (addProjectMember p1 mallory (context_of alice))
       (exec (addWorkspaceMember w1 mallory (context_of alice)) demo)
     = Return true.
Proof.
  destruct (workspace_then_project_membership demo w1 p1 mallory (context_of alice) alice
              {| workspace_id := w1; p_name := "Launch"; p_description := None;
                 p_created_by := dave |} alice_is_caller demo_ids_wf)
    as (Hbefore & _ & _ & Hafter & _).
  - vm_compute. reflexivity.
  - eexists. vm_compute. reflexivity.
  - vm_compute. reflexivity.
  - reflexivity.
  - vm_compute. reflexivity.
  - vm_compute. reflexivity.
  - vm_compute. reflexivity.
  - split; [exact Hbefore | exact Hafter].
Defined.


Lemma erin_is_admin : admin demo_admin erin.
Proof.
  exists (account erin "erin@example.com" ADMIN). split; vm_compute; reflexivity.
Defined.

(** Erin, an admin, gets through the admin gate with her token; Bob, an
    ordinary user with a token just as valid, does not. *)
Lemma admin_gate_witness :
  let chain req :=
    r <- authenticate demo_env req ;;
    match r with
    | inl res => ret (inl res)
    | inr areq =>
        a <- requireAdmin req (Some (req_userId areq)) (Some (req_user areq)) ;;
        match a with
        | Some res => ret (inl res)
        | None => ret (inr areq)
        end
    end in
  run (chain (bearer_request erin_token)) demo_admin
  = Return (inr {| request := bearer_request erin_token; req_userId := erin;
                   req_user := account erin "erin@example.com" ADMIN |})
  /\ exists res,
       run (chain (bearer_request bob_token)) demo_admin = Return (inl res)
       /\ res_status res = 403.
Proof.
  intros chain. split.
  - destruct (admin_gate demo_env demo_admin (bearer_request erin_token))
      as ((r & σ' & Hrun & _ & Hiff & _) & _).
    unfold chain, run. rewrite Hrun. simpl. f_equal. apply Hiff.
    exists (payload_of (account erin "erin@example.com" ADMIN)),
      (account erin "erin@example.com" ADMIN).
    split; [exists 1900; split; [reflexivity | vm_compute; reflexivity]|].
    split; [vm_compute; reflexivity|]. split; reflexivity.
  - destruct (admin_gate demo_env demo_admin (bearer_request bob_token))
      as ((r & σ' & Hrun & _ & Hiff & Hres) & _).
    unfold chain, run. rewrite Hrun. simpl.
    assert (Hr : r = inl (error_response 403 "Forbidden: Admin access required")).
    { pose proof Hrun as Hc. vm_compute in Hc. injection Hc as <- _. reflexivity. }
    rewrite Hr. eexists. split; reflexivity.
Defined.

(** Alice's refresh token, sent as cookie, is exchanged for new tokens. *)
Lemma refresh_outcomes_witness :
  valid_refresh demo_env demo (refresh_request alice_refresh_token)
    (payload_of (account alice "alice@example.com" ACTIVE))
  /\ exists res,
       run (post_refresh demo_span demo_env (refresh_request alice_refresh_token)) demo
       = Return res
       /\ rr_status res = 200
       /\ rr_body res
          = RefreshTokens
              (Signed (payload_of (account alice "alice@example.com" ACTIVE))
                 "change-this-in-production" 1900)
              (Signed (payload_of (account alice "alice@example.com" ACTIVE))
                 "change-this-in-production" 605800).
Proof.
  assert (Hv : valid_refresh demo_env demo (refresh_request alice_refresh_token)
                 (payload_of (account alice "alice@example.com" ACTIVE))).
  { exists 605800. split; [reflexivity | vm_compute; reflexivity]. }
  split; [exact Hv|].
  destruct (refresh_outcomes demo_span demo_env demo (refresh_request alice_refresh_token))
    as (res & σ' & Hrun & _ & _ & Hiff & Hbody).
  exists res. unfold run. rewrite Hrun. split; [reflexivity|].
  assert (Hu : head (filter (fun x => email x
                       = jwt_email (payload_of (account alice "alice@example.com" ACTIVE)))
                       (users demo))
               = Some (account alice "alice@example.com" ACTIVE))
    by (vm_compute; reflexivity).
  assert (Hst : global_status_of (account alice "alice@example.com" ACTIVE) <> BANNED)
    by discriminate.
  split.
  - apply Hiff. eauto.
  - apply (proj1 (Hbody _ _ Hv Hu Hst)).
Defined.

(** Alice creates a workspace and owns it; a caller whose id names no user
    creates nothing. *)
Lemma createWorkspace_spec_witness :
  caller_is (context_of alice) alice
  /\ run (createWorkspace demo_gen_uuid "Ops" None (context_of alice)) demo
     = Return (demo_gen_uuid 0,
               {| w_name := "Ops"; w_description := None; w_created_by := alice |})
  /\ run (checkWorkspaceOwnership alice (demo_gen_uuid 0))
       (exec (createWorkspace demo_gen_uuid "Ops" None (context_of alice)) demo)
     = Return true
  /\ rejected (run (createWorkspace demo_gen_uuid "Ops" None (context_of erin)) demo)
  /\ workspaces (exec (createWorkspace demo_gen_uuid "Ops" None (context_of erin)) demo)
     = workspaces demo.
Proof.
  split; [exact alice_is_caller|].
  destruct (createWorkspace_spec demo_gen_uuid demo "Ops" None (context_of alice) alice
              alice_is_caller) as (o & σ' & Hrun & Hok & _).
  destruct Hok as (-> & _ & Hown); [vm_compute; reflexivity ..|].
  destruct (createWorkspace_spec demo_gen_uuid demo "Ops" None (context_of erin) erin
              (context_of_caller erin ltac:(discriminate))) as (o2 & σ2 & Hrun2 & _ & Hno).
  destruct Hno as (Hrej & Hw & _); [vm_compute; reflexivity|].
  unfold run, exec. rewrite Hrun, Hrun2. simpl.
  split; [reflexivity|]. split; [exact Hown|]. split; [exact Hrej | exact Hw].
Defined.

(** Dave, a Member of [w1], creates a project there and leads it; Mallory,
    who is in no workspace, is refused. *)
Lemma createProject_spec_witness :
  workspace_access demo dave w1 Member
  /\ run (createProject demo_gen_uuid w1 "Docs" None (context_of dave)) demo
     = Return (demo_gen_uuid 0,
               {| workspace_id := w1; p_name := "Docs"; p_description := None;
                  p_created_by := dave |})
  /\ project_lead
       (exec (createProject demo_gen_uuid w1 "Docs" None (context_of dave)) demo)
       dave (demo_gen_uuid 0)
  /\ run (createProject demo_gen_uuid w1 "Docs" None (context_of mallory)) demo
     = Throw (Error "Insufficient permissions: Requires Member role or higher").
Proof.
  assert (Hacc : workspace_access demo dave w1 Member).
  { exists {| wm_role := Member; wm_joined_at := 30 |}.
    split; [vm_compute; reflexivity | simpl; lia]. }
  split; [exact Hacc|].
  destruct (createProject_spec demo_gen_uuid demo w1 "Docs" None (context_of dave) dave
              (context_of_caller dave ltac:(discriminate))) as (o & σ' & Hrun & Hok & _).
  destruct (Hok Hacc) as (-> & _ & Hlead);
    [eexists; vm_compute; reflexivity | vm_compute; reflexivity ..|].
  destruct (createProject_spec demo_gen_uuid demo w1 "Docs" None (context_of mallory)
              mallory (context_of_caller mallory ltac:(discriminate)))
    as (o2 & σ2 & Hrun2 & _ & Hno).
  destruct Hno as (-> & _).
  { intros (row & Hrow & _). vm_compute in Hrow. discriminate. }
  unfold run, exec. rewrite Hrun, Hrun2. simpl.
  split; [reflexivity|]. split; [exact Hlead | reflexivity].
Defined.

(** Alice owns the workspace of [p1] but does not lead [p1]: she can
    neither rename nor delete it. *)
Lemma project_changes_need_lead_witness :
  workspace_owner demo alice w1
  /\ ~ project_lead demo alice p1
  /\ run (updateProject p1 (Some "Mine") None (context_of alice)) demo
     = Throw (GraphQLError "Forbidden: Project Lead access required")
  /\ run (deleteProject p1 (context_of alice)) demo
     = Throw (GraphQLError "Forbidden: Project Lead access required").
Proof.
  assert (Hno : ~ project_lead demo alice p1)
    by (intros H; vm_compute in H; discriminate).
  split; [vm_compute; reflexivity|]. split; [exact Hno|].
  destruct (project_changes_need_lead demo p1 (Some "Mine") None (context_of alice) alice
              alice_is_caller Hno) as (Hu & _ & Hd & _).
  split; [exact Hu | exact Hd].
Defined.

(** Dave deletes [p1]: its task [t1] and Bob's lead row go with it. *)
Lemma deleteProject_cascade_witness :
  project_lead demo dave p1
  /\ run (deleteProject p1 (context_of dave)) demo = Return true
  /\ projects (exec (deleteProject p1 (context_of dave)) demo) !! p1 = None
  /\ tasks (exec (deleteProject p1 (context_of dave)) demo) !! t1 = None
  /\ project_members (exec (deleteProject p1 (context_of dave)) demo) !! (p1, bob) = None
  /\ workspace_members (exec (deleteProject p1 (context_of dave)) demo)
     = workspace_members demo.
Proof.
  assert (Hlead : project_lead demo dave p1) by (vm_compute; reflexivity).
  split; [exact Hlead|].
  destruct (deleteProject_cascade demo p1 (context_of dave) dave
              (context_of_caller dave ltac:(discriminate)) Hlead)
    as (σ' & Hrun & Hp & Hpm & Ht & _ & _ & Hwm & _).
  { eexists. vm_compute. reflexivity. }
  unfold run, exec. rewrite Hrun. simpl.
  split; [reflexivity|]. split; [rewrite Hp; apply lookup_delete_eq|].
  split; [|split; [|exact Hwm]].
  - destruct (tasks σ' !! t1) as [row|] eqn:Hrow; [|reflexivity].
    apply Ht in Hrow as [Hrow Hne]. vm_compute in Hrow. injection Hrow as <-.
    exfalso. apply Hne. reflexivity.
  - rewrite Hpm. rewrite decide_True by reflexivity. reflexivity.
Defined.

(** Alice removes Dave from [w1]: Dave fails the workspace check and still
    leads [p1].  Mallory, no Owner, removes nobody. *)
Lemma removeWorkspaceMember_spec_witness :
  workspace_owner demo alice w1
  /\ run (removeWorkspaceMember w1 dave (context_of alice)) demo = Return true
  /\ run (checkWorkspaceAccess dave (Some w1) Viewer)
       (exec (removeWorkspaceMember w1 dave (context_of alice)) demo)
     = Return {| hasAccess := false; role := None |}
  /\ project_lead (exec (removeWorkspaceMember w1 dave (context_of alice)) demo) dave p1
  /\ run (removeWorkspaceMember w1 dave (context_of mallory)) demo = Throw Forbidden_owner.
Proof.
  assert (Hown : workspace_owner demo alice w1) by (vm_compute; reflexivity).
  split; [exact Hown|].
  destruct (removeWorkspaceMember_spec demo w1 dave (context_of alice) alice
              alice_is_caller) as (o & σ' & Hrun & Hok & _).
  destruct (Hok Hown) as (-> & _ & Hpm & Hcheck).
  destruct (removeWorkspaceMember_spec demo w1 dave (context_of mallory) mallory
              (context_of_caller mallory ltac:(discriminate)))
    as (o2 & σ2 & Hrun2 & _ & Hno).
  destruct Hno as (-> & _); [intros H; vm_compute in H; discriminate|].
  unfold run, exec. rewrite Hrun, Hrun2. simpl.
  split; [reflexivity|]. split; [apply Hcheck|]. split; [|reflexivity].
  unfold project_lead. rewrite Hpm. vm_compute. reflexivity.
Defined.

(** Alice makes Dave a Viewer of [w1]; a role the schema does not know is
    refused. *)
Lemma updateWorkspaceMemberRole_spec_witness :
  workspace_owner demo alice w1
  /\ run (updateWorkspaceMemberRole w1 dave "Viewer" (context_of alice)) demo = Return true
  /\ workspace_members
       (exec (updateWorkspaceMemberRole w1 dave "Viewer" (context_of alice)) demo)
     !! (w1, dave)
     = Some {| wm_role := Viewer; wm_joined_at := 30 |}
  /\ run (updateWorkspaceMemberRole w1 dave "Admin" (context_of alice)) demo
     = Throw (DatabaseError "invalid input value for enum workspace_role").
Proof.
  assert (Hown : workspace_owner demo alice w1) by (vm_compute; reflexivity).
  split; [exact Hown|].
  destruct (updateWorkspaceMemberRole_spec demo w1 dave "Viewer" (context_of alice) alice
              alice_is_caller Hown) as (o & σ' & Hrun & Hok & _).
  destruct (Hok Viewer) as (-> & _ & Hrow & _); [vm_compute; reflexivity|].
  destruct (updateWorkspaceMemberRole_spec demo w1 dave "Admin" (context_of alice) alice
              alice_is_caller Hown) as (o2 & σ2 & Hrun2 & _ & Hbad).
  destruct Hbad as (-> & _); [vm_compute; reflexivity|].
  unfold run, exec. rewrite Hrun, Hrun2. simpl.
  split; [reflexivity|]. split; [|reflexivity].
  rewrite Hrow. vm_compute. reflexivity.
Defined.


Lemma erin_is_caller : caller_is (context_of erin) erin.
Proof. apply context_of_caller. discriminate. Defined.

(** Erin bans Bob: his row now says BANNED, Alice's row is as before. *)
Lemma banUser_spec_witness :
  admin demo_admin erin
  /\ run (banUser bob (context_of erin)) demo_admin = Return true
  /\ head (filter (fun r => id r = bob)
             (users (exec (banUser bob (context_of erin)) demo_admin)))
     = Some (account bob "bob@example.com" BANNED)
  /\ filter (fun r => id r = alice)
       (users (exec (banUser bob (context_of erin)) demo_admin))
     = [account alice "alice@example.com" ACTIVE].
Proof.
  split; [exact erin_is_admin|].
  destruct (banUser_spec demo_admin bob (context_of erin) erin erin_is_caller
              erin_is_admin) as (σ' & Hrun & Hrow & _ & Hother & _).
  unfold run, exec. rewrite Hrun. simpl.
  split; [reflexivity|]. split.
  - apply (Hrow (account bob "bob@example.com" ACTIVE)). vm_compute. reflexivity.
  - rewrite Hother by discriminate. vm_compute. reflexivity.
Defined.

(** After Erin has banned Bob, Bob's access token is answered 403 and his
    refresh token 401. *)
Lemma banned_user_is_locked_out_witness :
  run (authenticate demo_env (bearer_request bob_token))
    (exec (banUser bob (context_of erin)) demo_admin)
  = Return (inl (error_response 403 "Access denied: Account is banned"))
  /\ run (post_refresh demo_span demo_env
            (refresh_request
               (Signed (payload_of (account bob "bob@example.com" ACTIVE))
                  "change-this-in-production" 605800)))
       (exec (banUser bob (context_of erin)) demo_admin)
     = Return {| rr_status := 401; rr_cookies := [];
                 rr_body := RefreshError "Invalid token" |}.
Proof.
  destruct (banned_user_is_locked_out demo_span demo_env demo_admin bob (context_of erin)
              erin (account bob "bob@example.com" ACTIVE) erin_is_caller erin_is_admin)
    as (σ' & Hrun & Hauth & Hrefresh).
  { vm_compute. reflexivity. }
  unfold exec. rewrite Hrun. simpl. split.
  - apply (Hauth _ (payload_of (account bob "bob@example.com" ACTIVE))).
    + exists 1900. split; [reflexivity | vm_compute; reflexivity].
    + reflexivity.
  - apply (Hrefresh _ (payload_of (account bob "bob@example.com" ACTIVE))
             (account bob "bob@example.com" ACTIVE)).
    + exists 605800. split; [reflexivity | vm_compute; reflexivity].
    + vm_compute. reflexivity.
    + reflexivity.
Defined.

(** Erin lifts Carol's ban; and when Erin names herself she is an admin no
    longer, and cannot ban Bob. *)
Lemma unbanUser_spec_witness :
  head (filter (fun r => id r = carol)
          (users (exec (unbanUser carol (context_of erin)) demo_admin)))
  = Some (account carol "carol@example.com" ACTIVE)
  /\ run (banUser bob (context_of erin))
       (exec (unbanUser erin (context_of erin)) demo_admin)
     = Throw (GraphQLError "Forbidden: Admin access required").
Proof.
  destruct (unbanUser_spec demo_admin carol (context_of erin) erin erin_is_caller
              erin_is_admin) as (σ' & Hrun & Hrow & _).
  destruct (unbanUser_spec demo_admin erin (context_of erin) erin erin_is_caller
              erin_is_admin) as (σ2 & Hrun2 & _ & _ & Hself).
  unfold exec. rewrite Hrun, Hrun2. simpl. split.
  - apply (Hrow (account carol "carol@example.com" BANNED)). vm_compute. reflexivity.
  - apply Hself. reflexivity.
Defined.

(** Alice is no admin: she can ban nobody and reset nobody's password. *)
Lemma admin_mutations_need_admin_witness :
  run (banUser bob (context_of alice)) demo_admin
  = Throw (GraphQLError "Forbidden: Admin access required")
  /\ run (adminResetPassword demo_hash bob "guess" (context_of alice)) demo_admin
     = Throw (GraphQLError "Forbidden: Admin access required")
  /\ users (exec (adminResetPassword demo_hash bob "guess" (context_of alice)) demo_admin)
     = users demo_admin.
Proof.
  destruct (admin_mutations_need_admin demo_hash demo_admin bob "guess" (context_of alice)
              alice (account alice "alice@example.com" ACTIVE) alice_is_caller)
    as ((Hban & _) & _ & (Hreset & Hframe)).
  - vm_compute. reflexivity.
  - discriminate.
  - split; [exact Hban|]. split; [exact Hreset|]. apply Hframe.
Defined.

(** Alice changes her password and logs in with the new one; with a wrong
    old password nothing happens. *)
Lemma updatePassword_spec_witness :
  let change := updatePassword demo_bcrypt demo_hash "alice@example.com" "s3cret"
                  (context_of alice) in
  let login := {| authorization := None; cookies_refreshToken := None;
                  x_refresh_token := None; x_device_id := None;
                  ip := Some "10.0.0.7"; header_user_agent := None;
                  body_email := "alice@example.com"; body_password := "s3cret" |} in
  run change demo = Return true
  /\ password_hash <$> head (filter (fun r => id r = alice) (users (exec change demo)))
     = Some "$2b$12$s3cret"
  /\ user_devices (exec change demo) = user_devices demo
  /\ (exists res,
        run (post_login demo_span demo_bcrypt demo_uuid demo_env login) (exec change demo)
        = Return res /\ res_status res = 200)
  /\ run (updatePassword demo_bcrypt demo_hash "guess" "s3cret" (context_of alice)) demo
     = Throw (GraphQLError "Invalid old password").
Proof.
  intros change login.
  destruct (updatePassword_spec demo_span demo_bcrypt demo_uuid demo_env demo_hash demo
              "alice@example.com" "s3cret" (context_of alice) alice
              (account alice "alice@example.com" ACTIVE) alice_is_caller)
    as (o & σ' & Hrun & _ & Hok); [vm_compute; reflexivity|].
  destruct Hok as (-> & Hrow & _ & Hdev & Hlogin); [vm_compute; reflexivity|].
  destruct (updatePassword_spec demo_span demo_bcrypt demo_uuid demo_env demo_hash demo
              "guess" "s3cret" (context_of alice) alice
              (account alice "alice@example.com" ACTIVE) alice_is_caller)
    as (o2 & σ2 & Hrun2 & Hbad & _); [vm_compute; reflexivity|].
  destruct Hbad as (-> & _); [vm_compute; reflexivity|].
  unfold run, exec, change. rewrite Hrun, Hrun2. simpl.
  split; [reflexivity|]. split; [rewrite Hrow; reflexivity|]. split; [exact Hdev|].
  split; [|reflexivity].
  apply Hlogin; [reflexivity | reflexivity | vm_compute; reflexivity | discriminate
                | vm_compute; reflexivity].
Defined.

(** Frank registers and can log in; Alice's address cannot be registered
    again. *)
Lemma register_spec_witness :
  let frank := {| id := demo_gen_uuid 1; email := "frank@example.com";
                  password_hash := "$2b$12$hunter2"; full_name := "Frank";
                  global_status_of := ACTIVE |} in
  let login := {| authorization := None; cookies_refreshToken := None;
                  x_refresh_token := None; x_device_id := None;
                  ip := Some "10.0.0.7"; header_user_agent := None;
                  body_email := "frank@example.com"; body_password := "hunter2" |} in
  let signup := register demo_gen_uuid demo_hash "frank@example.com" "hunter2" "Frank"
                  (context_of "") in
  users (exec signup demo) = (users demo ++ [frank])%list
  /\ (exists res,
        run (post_login demo_span demo_bcrypt demo_uuid demo_env login) (exec signup demo)
        = Return res /\ res_status res = 200)
  /\ run (register demo_gen_uuid demo_hash "alice@example.com" "hunter2" "Alice"
            (context_of "")) demo
     = Throw (GraphQLError "User with this email already exists").
Proof.
  intros frank login signup.
  destruct (register_spec demo_span demo_bcrypt demo_uuid demo_env demo_gen_uuid demo_hash
              demo "frank@example.com" "hunter2" "Frank" (context_of ""))
    as (o & σ' & Hrun & _ & Hok).
  destruct Hok as (_ & Hus & Hlogin); [vm_compute; reflexivity ..|].
  destruct (register_spec demo_span demo_bcrypt demo_uuid demo_env demo_gen_uuid demo_hash
              demo "alice@example.com" "hunter2" "Alice" (context_of ""))
    as (o2 & σ2 & Hrun2 & Htaken & _).
  destruct Htaken as (-> & _); [eexists; vm_compute; reflexivity|].
  unfold run, exec, signup. rewrite Hrun, Hrun2. simpl.
  split; [exact Hus|]. split; [|reflexivity].
  apply Hlogin; [reflexivity | reflexivity | vm_compute; reflexivity].
Defined.

(** Dave creates a task in [p1] and names Mallory twice: she gets two
    notifications, though she is no member of the project.  Mallory
    herself may create no task there. *)
Lemma createTask_spec_witness :
  let create := createTask demo_gen_uuid p1 "Ship" None (Some [mallory; mallory])
                  (context_of dave) in
  project_access demo dave p1 Contributor
  /\ project_members demo !! (p1, mallory) = None
  /\ run create demo
     = Return (demo_gen_uuid 0,
               {| project_id := p1; title := "Ship"; t_description := None;
                  status := TODO; t_created_by := dave |})
  /\ length (notifications (exec create demo)) = 2%nat
  /\ is_Some (task_assignments (exec create demo) !! (demo_gen_uuid 0, mallory))
  /\ project_members (exec create demo) = project_members demo
  /\ run (createTask demo_gen_uuid p1 "Ship" None None (context_of mallory)) demo
     = Throw (Error "Insufficient permissions: Requires Contributor role or higher").
Proof.
  intros create.
  assert (Hacc : project_access demo dave p1 Contributor).
  { exists {| pm_role := ProjectLead; pm_joined_at := 40 |}.
    split; [vm_compute; reflexivity | simpl; lia]. }
  split; [exact Hacc|]. split; [vm_compute; reflexivity|].
  destruct (createTask_spec demo_gen_uuid demo p1 "Ship" None (Some [mallory; mallory])
              (context_of dave) dave (context_of_caller dave ltac:(discriminate)))
    as (o & σ' & Hrun & _ & Hok).
  destruct (Hok Hacc) as (Hall & _);
    [eexists; vm_compute; reflexivity | vm_compute; reflexivity ..|].
  destruct Hall as (-> & _ & Hn & Hin & _ & Hpm & _).
  { repeat constructor. }
  destruct (createTask_spec demo_gen_uuid demo p1 "Ship" None None
              (context_of mallory) mallory (context_of_caller mallory ltac:(discriminate)))
    as (o2 & σ2 & Hrun2 & Hno & _).
  destruct Hno as (-> & _).
  { intros (row & Hrow & _). vm_compute in Hrow. discriminate. }
  unfold run, exec, create. rewrite Hrun, Hrun2. simpl.
  split; [reflexivity|]. split; [rewrite Hn; reflexivity|].
  split; [apply Hin; left|]. split; [exact Hpm | reflexivity].
Defined.

(** Dave renames [p1]: the description, the workspace and the creator are
    as before. *)
Lemma updateProject_spec_witness :
  project_lead demo dave p1
  /\ run (updateProject p1 (Some "Relaunch") None (context_of dave)) demo
     = Return (Some {| workspace_id := w1; p_name := "Relaunch"; p_description := None;
                       p_created_by := dave |})
  /\ audit_logs (exec (updateProject p1 (Some "Relaunch") None (context_of dave)) demo)
     = audit_logs demo.
Proof.
  assert (Hlead : project_lead demo dave p1) by (vm_compute; reflexivity).
  split; [exact Hlead|].
  destruct (updateProject_spec demo p1 (Some "Relaunch") None (context_of dave) dave
              (context_of_caller dave ltac:(discriminate)) Hlead)
    as (o & σ' & Hrun & -> & Hrow & _ & _ & Haudit & _).
  unfold run, exec. rewrite Hrun. simpl.
  split; [|exact Haudit]. rewrite Hrow. vm_compute. reflexivity.
Defined.
